(** * SSWH backend: device-facing runtime and multi-tenant policy core

    A shallow embedding of the request handlers and background jobs of the
    SSWH backend (Express + Prisma, TypeScript) together with the properties
    that the specification states about them.

    Conventions of the embedding.
    - A Prisma table is a [list] of rows in the order in which the store
      returns them when no [orderBy] is given; [findFirst], [findMany],
      [update] and [updateMany] are list functions over it.
    - A JSON object ([metrics], [derivedState], [params]) is a
      [gmap string JsVal]; an absent key is JavaScript's [undefined].
    - Instants ([Date]) are integers (milliseconds); [new Date()] is the
      argument [now] of the handler that calls it.
    - A JavaScript number is a rational ([Qc]): the finite doubles are
      rationals and are compared as such.
    - A handler runs one request at a time. It returns the store it leaves
      behind and its response; a thrown error is the response [Err e], which
      the error handler turns into the envelope with [statusCode e] and
      [code e].
    - A handler is modelled after the middleware that authenticates the
      caller: [user] or [deviceId] of the request is what that middleware
      has established. The parameters of a route's path ([:id],
      [:commandId], [:tenantId]) are arguments of its handler. *)

From Stdlib Require Import QArith Qcanon Qround.
From stdpp Require Import base numbers strings pretty list sorting gmap fin_maps.

Local Open Scope Z_scope.
Local Open Scope string_scope.

(** ** JavaScript values and coercions *)

Inductive JsVal : Type :=
| JNull
| JBool (b : bool)
| JNum (q : Qc)
| JStr (s : string).

Global Instance JsVal_eq_dec : EqDecision JsVal.
Proof. solve_decision. Defined.

(** [undefined] is the absence of a value. *)
Definition truthy (v : option JsVal) : bool :=
  match v with
  | None | Some JNull => false
  | Some (JBool b) => b
  | Some (JNum q) => negb (bool_decide (q = 0%Qc))
  | Some (JStr s) => negb (bool_decide (s = ""))
  end.

(** [a || b] *)
Definition js_or (a b : option JsVal) : option JsVal :=
  if truthy a then a else b.

(** [a ?? b] *)
Definition js_nullish (a b : option JsVal) : option JsVal :=
  match a with
  | None | Some JNull => b
  | Some _ => a
  end.

Definition truthy_str (s : option string) : bool :=
  match s with
  | None => false
  | Some s => negb (bool_decide (s = ""))
  end.

(** [a || b] on optional strings *)
Definition or_str (a b : option string) : option string :=
  if truthy_str a then a else b.

Section Coercions.
(** The host's conversion of a string to a number; [None] is [NaN]. *)
Variable StringToNumber : string -> option Qc.

Definition ToNumber (v : option JsVal) : option Qc :=
  match v with
  | None => None
  | Some JNull => Some 0%Qc
  | Some (JBool b) => Some (if b then 1%Qc else 0%Qc)
  | Some (JNum q) => Some q
  | Some (JStr s) => StringToNumber s
  end.

(** [a < b]: two strings are compared as strings, anything else as numbers,
    and a comparison with [NaN] is false. *)
Definition js_lt (a b : option JsVal) : bool :=
  match a, b with
  | Some (JStr s), Some (JStr t) => String.ltb s t
  | _, _ =>
    match ToNumber a, ToNumber b with
    | Some x, Some y => bool_decide (x < y)%Qc
    | _, _ => false
    end
  end.

(** [a > b] *)
Definition js_gt (a b : option JsVal) : bool := js_lt b a.
End Coercions.

Definition num (z : Z) : JsVal := JNum (Qc_of_Z z).

(** ** common/errors.ts *)

Module Errors.

Record AppError : Type := mkAppError {
  statusCode : Z;
  code : string;
  message : string;
}.

Global Instance AppError_eq_dec : EqDecision AppError.
Proof. solve_decision. Defined.

Definition NotFoundError (entity : string) (id : option string) : AppError :=
  mkAppError 404 "NOT_FOUND"
    (if truthy_str id then
       entity ++ " with id '" ++ default "" id ++ "' not found"
     else entity ++ " not found").

Definition ForbiddenError (msg : string) : AppError :=
  mkAppError 403 "FORBIDDEN" msg.

Definition UnauthorizedError (msg : string) : AppError :=
  mkAppError 401 "UNAUTHORIZED" msg.

Definition ValidationError (msg : string) : AppError :=
  mkAppError 400 "VALIDATION_ERROR" msg.

Definition ConflictError (msg : string) : AppError :=
  mkAppError 409 "CONFLICT" msg.

Definition EntitlementError (feature : string) : AppError :=
  mkAppError 403 "FEATURE_DISABLED"
    ("Feature '" ++ feature ++
     "' is not enabled for this tenant/device. Contact your administrator.").

(** Anything that is not an [AppError] (a Prisma error, a [TypeError])
    reaches the error handler's last branch. *)
Definition InternalError : AppError :=
  mkAppError 500 "INTERNAL_ERROR" "An unexpected error occurred".

End Errors.
Import Errors.

(** A handler's response. *)
Inductive Response (A : Type) : Type :=
| Ok (status : Z) (body : A)
| Err (e : AppError).
Arguments Ok {A} status body.
Arguments Err {A} e.

(** ** common/middleware/auth.ts: the request context *)

Inductive MembershipRole : Type :=
| PLATFORM_ADMIN | TENANT_ADMIN | INSTALLER | SUPPORT_AGENT | END_USER.

Global Instance MembershipRole_eq_dec : EqDecision MembershipRole.
Proof. solve_decision. Defined.

Record Membership : Type := mkMembership {
  m_tenantId : string;
  m_role : MembershipRole;
}.

Record User : Type := mkUser {
  userId : string;
  email : string;
  memberships : list Membership;
}.

Inductive QueryVal : Type :=
| QStr (s : string)
| QArr (l : list string).

Record Request : Type := mkRequest {
  user : option User;
  tenantId : option string;
  deviceId : option string;
  isDeviceAuth : bool;
  params : gmap string string;
  headers : gmap string string;
  query : gmap string QueryVal;
}.

(** [req.tenantId = t] *)
Definition set_tenantId (t : string) (req : Request) : Request :=
  {| user := user req; tenantId := Some t; deviceId := deviceId req;
     isDeviceAuth := isDeviceAuth req; params := params req;
     headers := headers req; query := query req |}.

(** What a middleware hands to [next]: the request for the next handler, or
    an error for the error handler. *)
Inductive Next : Type :=
| Continue (req : Request)
| Fail (e : AppError).

(** [memberships.some(m => m.role === 'PLATFORM_ADMIN')] *)
Definition isPlatformAdmin (u : User) : bool :=
  existsb (fun m => bool_decide (m_role m = PLATFORM_ADMIN)) (memberships u).

(** ** common/middleware/tenancy.ts *)

Module Tenancy.

(** The tenant id a request supplies: path parameter, then header, then a
    query value that is a string. *)
Definition suppliedTenantId (req : Request) : option string :=
  or_str (params req !! "tenantId")
    (or_str (headers req !! "x-tenant-id")
       match query req !! "tenantId" with
       | Some (QStr s) => Some s
       | _ => None
       end).

Definition enforceTenancy (req : Request) : Next :=
  if isDeviceAuth req then Continue req
  else
    match user req with
    | None => Fail (ForbiddenError "User context required")
    | Some u =>
      let tenantId := suppliedTenantId req in
      let isPlatformAdmin := isPlatformAdmin u in
      if negb (truthy_str tenantId) && negb isPlatformAdmin then
        Fail (ValidationError
                "x-tenant-id header or tenantId parameter is required")
      else
        match tenantId with
        | Some t =>
          if truthy_str tenantId then
            if negb isPlatformAdmin
               && negb (existsb (fun m => bool_decide (m_tenantId m = t))
                          (memberships u))
            then Fail (ForbiddenError
                         "Access denied: not a member of this tenant")
            else Continue (set_tenantId t req)
          else Continue req
        | None => Continue req
        end
    end.

End Tenancy.

(** ** The store: prisma/migrations/20260210_init/migration.sql *)

Inductive DeviceStatus : Type :=
| D_PROVISIONED | D_INSTALLED | D_ACTIVE | D_SUSPENDED | D_RETIRED.

Inductive LocationSource : Type :=
| MOBILE_GPS | EDGE_GNSS | EDGE_CELL | MANUAL.

(** The two sources that the telemetry schema allows in [geo.source]. *)
Inductive DeviceLocationSource : Type :=
| DEV_EDGE_GNSS | DEV_EDGE_CELL.

Definition asLocationSource (s : DeviceLocationSource) : LocationSource :=
  match s with DEV_EDGE_GNSS => EDGE_GNSS | DEV_EDGE_CELL => EDGE_CELL end.

Record Site : Type := mkSite {
  s_id : string;
  s_tenantId : string;
  s_lat : option Qc;
  s_lon : option Qc;
  s_locationSource : option LocationSource;
  s_locationAccuracyM : option Qc;
  s_locationUpdatedAt : option Z;
  s_locationLock : bool;
}.

Record Device : Type := mkDevice {
  d_id : string;
  d_tenantId : string;
  d_siteId : option string;
  d_status : DeviceStatus;
  d_lastSeenAt : option Z;
  d_firmwareVersion : option string;
  d_deviceLat : option Qc;
  d_deviceLon : option Qc;
  d_deviceLocationTs : option Z;
  d_deviceLocationSource : option DeviceLocationSource;
  d_deviceLocationAccuracyM : option Qc;
}.

Record Geo : Type := mkGeo {
  g_lat : Qc;
  g_lon : Qc;
  g_accuracyM : option Qc;
  g_source : DeviceLocationSource;
}.

Record Telemetry : Type := mkTelemetry {
  t_id : string;
  t_deviceId : string;
  t_ts : Z;
  t_metrics : gmap string JsVal;
  t_geo : option Geo;
}.

(** [derivedState] is a JSON column: [None] is the JSON value [null]. *)
Record DeviceTwin : Type := mkDeviceTwin {
  tw_deviceId : string;
  tw_lastTs : option Z;
  tw_derivedState : option (gmap string JsVal);
}.

Inductive CommandType : Type :=
| REMOTE_BOOST_SET | SET_SCHEDULE | SET_CONFIG.

Inductive CommandStatus : Type :=
| C_QUEUED | C_DELIVERED | C_ACKED | C_FAILED | C_EXPIRED.

Record Command : Type := mkCommand {
  c_id : string;
  c_deviceId : string;
  c_type : CommandType;
  c_payload : gmap string JsVal;
  c_status : CommandStatus;
  c_requestedByUserId : option string;
  c_requestedAt : Z;
  c_deliveredAt : option Z;
  c_ackAt : option Z;
  c_errorMsg : option string;
}.

Inductive EntitlementScope : Type := SCOPE_TENANT | SCOPE_DEVICE.

Inductive EntitlementKey : Type :=
| BASIC_REMOTE_BOOST | SMART_HOME_INTEGRATION.

Record Entitlement : Type := mkEntitlement {
  e_tenantId : string;
  e_scope : EntitlementScope;
  e_deviceId : option string;
  e_key : EntitlementKey;
  e_enabled : bool;
}.

Inductive AlertRuleType : Type :=
| NO_TELEMETRY | OVER_TEMP | POSSIBLE_LEAK | SENSOR_OUT_OF_RANGE.

Inductive AlertSeverity : Type := INFO | WARNING | CRITICAL.

Inductive AlertEventStatus : Type := A_OPEN | A_ACKNOWLEDGED | A_CLOSED.

Record AlertRule : Type := mkAlertRule {
  r_id : string;
  r_tenantId : string;
  r_enabled : bool;
  r_type : AlertRuleType;
  r_params : gmap string JsVal;
  r_severity : AlertSeverity;
}.

Record AlertEvent : Type := mkAlertEvent {
  ae_id : string;
  ae_tenantId : string;
  ae_deviceId : string;
  ae_ruleId : string;
  ae_severity : AlertSeverity;
  ae_status : AlertEventStatus;
  ae_openedAt : Z;
  ae_details : gmap string JsVal;
  ae_dedupeKey : option string;
}.

Inductive NotificationChannelType : Type := EMAIL | SMS | WEBHOOK.

(** [config] is a JSON column: [None] is the JSON value [null]. *)
Record NotificationChannel : Type := mkNotificationChannel {
  ch_id : string;
  ch_tenantId : string;
  ch_type : NotificationChannelType;
  ch_config : option (gmap string JsVal);
  ch_enabled : bool;
}.

Inductive NotificationStatus : Type := N_QUEUED | N_SENT | N_FAILED.

Record NotificationEvent : Type := mkNotificationEvent {
  n_id : string;
  n_tenantId : string;
  n_channelId : string;
  n_alertEventId : option string;
  n_status : NotificationStatus;
  n_sentAt : option Z;
  n_errorMsg : option string;
  n_createdAt : Z;
}.

Record FirmwarePackage : Type := mkFirmwarePackage {
  f_id : string;
  f_version : string;
}.

Inductive OtaTargetType : Type := TARGET_DEVICE | TARGET_GROUP.

Inductive OtaJobStatus : Type :=
| O_SCHEDULED | O_IN_PROGRESS | O_SUCCESS | O_FAILED | O_CANCELED.

Record OtaJob : Type := mkOtaJob {
  j_id : string;
  j_tenantId : string;
  j_targetType : OtaTargetType;
  j_deviceId : option string;
  j_firmwarePackageId : string;
  j_status : OtaJobStatus;
  j_scheduledAt : Z;
  j_startedAt : option Z;
  j_finishedAt : option Z;
  j_progress : option (gmap string JsVal);
}.

Record DailyRollup : Type := mkDailyRollup {
  ro_tenantId : string;
  ro_deviceId : string;
  ro_dayDate : Z;
  ro_energyKwhDay : option Qc;
}.

Inductive ActorType : Type := ACTOR_USER | ACTOR_DEVICE | ACTOR_SYSTEM.

(** An audit row; its free-form [metadata] is not part of the model. *)
Record AuditLog : Type := mkAuditLog {
  al_tenantId : option string;
  al_actorUserId : option string;
  al_actorType : ActorType;
  al_action : string;
  al_entityType : string;
  al_entityId : string;
}.

Global Instance DeviceStatus_eq_dec : EqDecision DeviceStatus.
Proof. solve_decision. Defined.
Global Instance LocationSource_eq_dec : EqDecision LocationSource.
Proof. solve_decision. Defined.
Global Instance DeviceLocationSource_eq_dec : EqDecision DeviceLocationSource.
Proof. solve_decision. Defined.
Global Instance CommandType_eq_dec : EqDecision CommandType.
Proof. solve_decision. Defined.
Global Instance CommandStatus_eq_dec : EqDecision CommandStatus.
Proof. solve_decision. Defined.
Global Instance EntitlementScope_eq_dec : EqDecision EntitlementScope.
Proof. solve_decision. Defined.
Global Instance EntitlementKey_eq_dec : EqDecision EntitlementKey.
Proof. solve_decision. Defined.
Global Instance AlertRuleType_eq_dec : EqDecision AlertRuleType.
Proof. solve_decision. Defined.
Global Instance AlertSeverity_eq_dec : EqDecision AlertSeverity.
Proof. solve_decision. Defined.
Global Instance AlertEventStatus_eq_dec : EqDecision AlertEventStatus.
Proof. solve_decision. Defined.
Global Instance NotificationChannelType_eq_dec : EqDecision NotificationChannelType.
Proof. solve_decision. Defined.
Global Instance NotificationStatus_eq_dec : EqDecision NotificationStatus.
Proof. solve_decision. Defined.
Global Instance OtaJobStatus_eq_dec : EqDecision OtaJobStatus.
Proof. solve_decision. Defined.
Global Instance OtaTargetType_eq_dec : EqDecision OtaTargetType.
Proof. solve_decision. Defined.
Global Instance ActorType_eq_dec : EqDecision ActorType.
Proof. solve_decision. Defined.
Global Instance Site_eq_dec : EqDecision Site.
Proof. solve_decision. Defined.
Global Instance Command_eq_dec : EqDecision Command.
Proof. solve_decision. Defined.
Global Instance NotificationEvent_eq_dec : EqDecision NotificationEvent.
Proof. solve_decision. Defined.

(** ** common/audit.ts *)

(** [writeAuditLog] appends a row and swallows every failure of the write. *)
Definition writeAuditLog (tenantId actorUserId : option string)
    (actorType : ActorType) (action entityType entityId : string)
    (log : list AuditLog) : list AuditLog :=
  log ++ [mkAuditLog (or_str tenantId None) (or_str actorUserId None)
            actorType action entityType entityId].

(** ** Queries shared by the routers *)

(** [update({ where: { id }, data })] on a table whose key is [key]. *)
Definition updateWhere {A : Type} (key : A -> string) (id : string)
    (f : A -> A) (rows : list A) : list A :=
  map (fun r => if bool_decide (key r = id) then f r else r) rows.

(** [findUnique({ where: { id } })] *)
Definition findById {A : Type} (key : A -> string) (id : string)
    (rows : list A) : option A :=
  List.find (fun r => bool_decide (key r = id)) rows.

Record Store : Type := mkStore {
  devices : list Device;
  sites : list Site;
  twins : list DeviceTwin;
  telemetry : list Telemetry;
  commands : list Command;
  entitlements : list Entitlement;
  alertRules : list AlertRule;
  alertEvents : list AlertEvent;
  channels : list NotificationChannel;
  notificationEvents : list NotificationEvent;
  otaJobs : list OtaJob;
  firmwarePackages : list FirmwarePackage;
  dailyRollups : list DailyRollup;
  auditLogs : list AuditLog;
}.

Definition emptyStore : Store :=
  mkStore [] [] [] [] [] [] [] [] [] [] [] [] [] [].

Definition with_devices (x : list Device) (s : Store) : Store :=
  mkStore x (sites s) (twins s) (telemetry s) (commands s) (entitlements s)
    (alertRules s) (alertEvents s) (channels s) (notificationEvents s)
    (otaJobs s) (firmwarePackages s) (dailyRollups s) (auditLogs s).

Definition with_sites (x : list Site) (s : Store) : Store :=
  mkStore (devices s) x (twins s) (telemetry s) (commands s) (entitlements s)
    (alertRules s) (alertEvents s) (channels s) (notificationEvents s)
    (otaJobs s) (firmwarePackages s) (dailyRollups s) (auditLogs s).

Definition with_twins (x : list DeviceTwin) (s : Store) : Store :=
  mkStore (devices s) (sites s) x (telemetry s) (commands s) (entitlements s)
    (alertRules s) (alertEvents s) (channels s) (notificationEvents s)
    (otaJobs s) (firmwarePackages s) (dailyRollups s) (auditLogs s).

Definition with_telemetry (x : list Telemetry) (s : Store) : Store :=
  mkStore (devices s) (sites s) (twins s) x (commands s) (entitlements s)
    (alertRules s) (alertEvents s) (channels s) (notificationEvents s)
    (otaJobs s) (firmwarePackages s) (dailyRollups s) (auditLogs s).

Definition with_commands (x : list Command) (s : Store) : Store :=
  mkStore (devices s) (sites s) (twins s) (telemetry s) x (entitlements s)
    (alertRules s) (alertEvents s) (channels s) (notificationEvents s)
    (otaJobs s) (firmwarePackages s) (dailyRollups s) (auditLogs s).

Definition with_alertEvents (x : list AlertEvent) (s : Store) : Store :=
  mkStore (devices s) (sites s) (twins s) (telemetry s) (commands s)
    (entitlements s) (alertRules s) x (channels s) (notificationEvents s)
    (otaJobs s) (firmwarePackages s) (dailyRollups s) (auditLogs s).

Definition with_notificationEvents (x : list NotificationEvent) (s : Store)
    : Store :=
  mkStore (devices s) (sites s) (twins s) (telemetry s) (commands s)
    (entitlements s) (alertRules s) (alertEvents s) (channels s) x
    (otaJobs s) (firmwarePackages s) (dailyRollups s) (auditLogs s).

Definition with_otaJobs (x : list OtaJob) (s : Store) : Store :=
  mkStore (devices s) (sites s) (twins s) (telemetry s) (commands s)
    (entitlements s) (alertRules s) (alertEvents s) (channels s)
    (notificationEvents s) x (firmwarePackages s) (dailyRollups s)
    (auditLogs s).

Definition with_auditLogs (x : list AuditLog) (s : Store) : Store :=
  mkStore (devices s) (sites s) (twins s) (telemetry s) (commands s)
    (entitlements s) (alertRules s) (alertEvents s) (channels s)
    (notificationEvents s) (otaJobs s) (firmwarePackages s) (dailyRollups s)
    x.

(** A tenant filter [{ tenantId: req.tenantId! }]: Prisma ignores a filter
    whose value is [undefined]. *)
Definition tenantMatches (filter : option string) (t : string) : bool :=
  match filter with
  | Some f => bool_decide (t = f)
  | None => true
  end.

(** ** common/middleware/auth.ts: the role gate *)

Definition roleName (r : MembershipRole) : string :=
  match r with
  | PLATFORM_ADMIN => "PLATFORM_ADMIN"
  | TENANT_ADMIN => "TENANT_ADMIN"
  | INSTALLER => "INSTALLER"
  | SUPPORT_AGENT => "SUPPORT_AGENT"
  | END_USER => "END_USER"
  end.

Definition requireRoles (roles : list MembershipRole) (req : Request) : Next :=
  match user req with
  | None => Fail (UnauthorizedError "Authentication required")
  | Some u =>
    let tenantId :=
      or_str (tenantId req)
        (or_str (params req !! "tenantId") (headers req !! "x-tenant-id")) in
    if isPlatformAdmin u then Continue req
    else if negb (truthy_str tenantId) then
      Fail (ForbiddenError "Tenant context required")
    else
      match List.find (fun m => bool_decide (Some (m_tenantId m) = tenantId))
              (memberships u) with
      | None => Fail (ForbiddenError "Not a member of this tenant")
      | Some m =>
        if negb (bool_decide (m_role m ∈ roles)) then
          Fail (ForbiddenError
                  ("Requires one of: " ++ String.concat ", " (map roleName roles)))
        else Continue req
      end
  end.

(** ** modules/entitlements/router.ts *)

Module Entitlements.

Definition keyName (k : EntitlementKey) : string :=
  match k with
  | BASIC_REMOTE_BOOST => "BASIC_REMOTE_BOOST"
  | SMART_HOME_INTEGRATION => "SMART_HOME_INTEGRATION"
  end.

(** [where: { tenantId, key, deviceId, scope: 'DEVICE' }] *)
Definition isDeviceRow (tenantId : string) (key : EntitlementKey)
    (deviceId : string) (e : Entitlement) : bool :=
  bool_decide (e_tenantId e = tenantId) && bool_decide (e_key e = key)
  && bool_decide (e_deviceId e = Some deviceId)
  && bool_decide (e_scope e = SCOPE_DEVICE).

(** [where: { tenantId, key, scope: 'TENANT', deviceId: null }] *)
Definition isTenantRow (tenantId : string) (key : EntitlementKey)
    (e : Entitlement) : bool :=
  bool_decide (e_tenantId e = tenantId) && bool_decide (e_key e = key)
  && bool_decide (e_scope e = SCOPE_TENANT)
  && bool_decide (e_deviceId e = None).

(** The signature has [key: string]; the store's column only holds the
    values of the [EntitlementKey] enum. *)
Definition checkEntitlement (es : list Entitlement) (tenantId : string)
    (key : EntitlementKey) (deviceId : option string) : bool :=
  let deviceEntitlement :=
    match deviceId with
    | Some d =>
      if truthy_str deviceId then List.find (isDeviceRow tenantId key d) es
      else None
    | None => None
    end in
  match deviceEntitlement with
  | Some e => e_enabled e
  | None =>
    let tenantEntitlement := List.find (isTenantRow tenantId key) es in
    if negb (bool_decide (is_Some tenantEntitlement))
       && bool_decide (key = BASIC_REMOTE_BOOST)
    then true
    else
      match tenantEntitlement with
      | Some e => e_enabled e
      | None => false
      end
  end.

Definition requireEntitlement (key : EntitlementKey) (es : list Entitlement)
    (req : Request) : Next :=
  match tenantId req with
  | Some t =>
    if truthy_str (tenantId req) then
      let deviceId := or_str (params req !! "id") (params req !! "deviceId") in
      let enabled := checkEntitlement es t key deviceId in
      if negb enabled then Fail (EntitlementError (keyName key))
      else Continue req
    else Continue req
  | None => Continue req
  end.



End Entitlements.

(** ** modules/commands/router.ts *)

Module Commands.

Record CreateCommandBody : Type := mkCreateCommandBody {
  cb_type : CommandType;
  cb_payload : gmap string JsVal;
}.

(** The acknowledgement schema allows the two statuses only. *)
Inductive AckStatus : Type := ACKED | FAILED.

Definition ackStatus (a : AckStatus) : CommandStatus :=
  match a with ACKED => C_ACKED | FAILED => C_FAILED end.

Definition ackStatusName (a : AckStatus) : string :=
  match a with ACKED => "ACKED" | FAILED => "FAILED" end.

Record AckCommandBody : Type := mkAckCommandBody {
  ab_status : AckStatus;
  ab_errorMsg : option string;
}.

(** POST /:id/commands, after the middleware chain. [newId] is the id that
    the store draws for the row; the primary key rejects a taken id. *)
Definition createCommand (now : Z) (newId : string) (id : string)
    (body : CreateCommandBody) (req : Request) (s : Store)
    : Store * Response Command :=
  match List.find (fun d => bool_decide (d_id d = id)
                            && tenantMatches (tenantId req) (d_tenantId d))
          (devices s) with
  | None => (s, Err (NotFoundError "Device" (Some id)))
  | Some device =>
    if bool_decide (is_Some (findById c_id newId (commands s))) then
      (s, Err InternalError)
    else
      let command :=
        mkCommand newId (d_id device) (cb_type body) (cb_payload body)
          C_QUEUED (userId <$> user req) now None None None in
      let s1 := with_commands (commands s ++ [command]) s in
      let s2 := with_auditLogs
                  (writeAuditLog (tenantId req) (userId <$> user req)
                     ACTOR_USER "COMMAND_CREATED" "Command" (c_id command)
                     (auditLogs s1)) s1 in
      (s2, Ok 201 command)
  end.

(** The whole route: tenancy, role gate, entitlement gate, handler. *)
Definition createCommandRoute (now : Z) (newId : string) (id : string)
    (body : CreateCommandBody) (req : Request) (s : Store)
    : Store * Response Command :=
  match Tenancy.enforceTenancy req with
  | Fail e => (s, Err e)
  | Continue req1 =>
    match requireRoles
            [PLATFORM_ADMIN; TENANT_ADMIN; INSTALLER; SUPPORT_AGENT; END_USER]
            req1 with
    | Fail e => (s, Err e)
    | Continue req2 =>
      match Entitlements.requireEntitlement BASIC_REMOTE_BOOST
              (entitlements s) req2 with
      | Fail e => (s, Err e)
      | Continue req3 => createCommand now newId id body req3 s
      end
    end
  end.

(** [orderBy: { requestedAt: 'asc' }] *)
Definition byRequestedAt (a b : Command) : Prop :=
  c_requestedAt a <= c_requestedAt b.

Global Instance byRequestedAt_dec : RelDecision byRequestedAt.
Proof. intros a b. unfold byRequestedAt. apply _. Defined.

Definition queuedFor (id : string) (c : Command) : bool :=
  bool_decide (c_deviceId c = id) && bool_decide (c_status c = C_QUEUED).

Definition markDelivered (now : Z) (c : Command) : Command :=
  mkCommand (c_id c) (c_deviceId c) (c_type c) (c_payload c) C_DELIVERED
    (c_requestedByUserId c) (c_requestedAt c) (Some now) (c_ackAt c)
    (c_errorMsg c).

(** [updateMany({ where: { id: { in: ids } }, data })] *)
Definition updateManyIn (ids : list string) (f : Command -> Command)
    (rows : list Command) : list Command :=
  map (fun c => if bool_decide (c_id c ∈ ids) then f c else c) rows.

(** GET /:id/commands/pending, after [authenticateDevice]. *)
Definition pollPending (now : Z) (id : string) (req : Request) (s : Store)
    : Store * Response (list Command) :=
  if negb (bool_decide (deviceId req = Some id)) then
    (s, Err (ForbiddenError "Device ID mismatch"))
  else
    let commands_ :=
      merge_sort byRequestedAt (filter (fun c => queuedFor id c) (commands s)) in
    let s1 :=
      if bool_decide (0 < length commands_)%nat then
        with_commands
          (updateManyIn (map c_id commands_) (markDelivered now) (commands s)) s
      else s in
    (s1, Ok 200 commands_).

Definition acknowledge (now : Z) (body : AckCommandBody) (c : Command)
    : Command :=
  mkCommand (c_id c) (c_deviceId c) (c_type c) (c_payload c)
    (ackStatus (ab_status body)) (c_requestedByUserId c) (c_requestedAt c)
    (c_deliveredAt c) (Some now) (or_str (ab_errorMsg body) None).

(** POST /:id/commands/:commandId/ack, after [authenticateDevice] and the
    schema validation. *)
Definition ackCommand (now : Z) (id commandId : string)
    (body : AckCommandBody) (req : Request) (s : Store)
    : Store * Response Command :=
  if negb (bool_decide (deviceId req = Some id)) then
    (s, Err (ForbiddenError "Device ID mismatch"))
  else
    match List.find (fun c => bool_decide (c_id c = commandId)
                              && bool_decide (c_deviceId c = id))
            (commands s) with
    | None => (s, Err (NotFoundError "Command" (Some commandId)))
    | Some command =>
      let updated := acknowledge now body command in
      let s1 := with_commands
                  (updateWhere c_id (c_id command) (acknowledge now body)
                     (commands s)) s in
      let device := findById d_id id (devices s1) in
      let s2 := with_auditLogs
                  (writeAuditLog (d_tenantId <$> device) None ACTOR_DEVICE
                     ("COMMAND_" ++ ackStatusName (ab_status body)) "Command"
                     (c_id command) (auditLogs s1)) s1 in
      (s2, Ok 200 updated)
    end.




(** The commands that a response carries. *)
Definition returned {A : Type} (r : Response (list A)) : list A :=
  match r with Ok _ l => l | Err _ => [] end.



End Commands.

(** ** modules/telemetry/router.ts *)

Module TelemetryIngest.

Definition METRIC_RANGES : gmap string (Z * Z) :=
  list_to_map
    [("tankTempC", (-10, 120)); ("ambientTempC", (-50, 70));
     ("humidityPct", (0, 100)); ("lux", (0, 200000)); ("flowLpm", (0, 50));
     ("powerW", (0, 10000)); ("batteryPct", (0, 100)); ("rssiDbm", (-130, 0))].

(** A warning stands for the message built from its four parts. *)
Record Warning : Type := mkWarning {
  w_key : string;
  w_value : Qc;
  w_min : Z;
  w_max : Z;
}.

Definition validateMetricRanges (metrics : gmap string JsVal) : list Warning :=
  omap (fun kv =>
          match kv.2 with
          | JNum q =>
            match METRIC_RANGES !! kv.1 with
            | Some (lo, hi) =>
              if bool_decide (q < Qc_of_Z lo)%Qc
                 || bool_decide (Qc_of_Z hi < q)%Qc
              then Some (mkWarning kv.1 q lo hi)
              else None
            | None => None
            end
          | _ => None
          end)
       (map_to_list metrics).

(** [state.k = v]: a property that holds [undefined] is dropped when the
    state is written to the JSON column. *)
Definition assign (k : string) (v : option JsVal) (state : gmap string JsVal)
    : gmap string JsVal :=
  match v with
  | Some x => <[k := x]> state
  | None => delete k state
  end.

Definition sourceName (s : DeviceLocationSource) : string :=
  match s with DEV_EDGE_GNSS => "EDGE_GNSS" | DEV_EDGE_CELL => "EDGE_CELL" end.

Record TelemetryBody : Type := mkTelemetryBody {
  tb_deviceId : string;
  tb_ts : Z;
  tb_metrics : gmap string JsVal;
  tb_geo : option Geo;
}.

Record IngestResponse : Type := mkIngestResponse {
  ir_id : string;
  ir_warnings : option (list Warning);
}.

Section Host.
(** The host's conversion of a string to a number ([None] is [NaN]) and its
    floating-point evaluation of the great-circle distance. *)
Variable StringToNumber : string -> option Qc.
Variable haversineKm : Qc -> Qc -> Qc -> Qc -> Qc.

(** [metrics.k !== undefined && metrics.k < c] *)
Definition presentBelow (metrics : gmap string JsVal) (k : string) (c : Z)
    : bool :=
  bool_decide (is_Some (metrics !! k))
  && js_lt StringToNumber (metrics !! k) (Some (num c)).

(** [metrics.k !== undefined && metrics.k > c] *)
Definition presentAbove (metrics : gmap string JsVal) (k : string) (c : Z)
    : bool :=
  bool_decide (is_Some (metrics !! k))
  && js_gt StringToNumber (metrics !! k) (Some (num c)).

(** The loop over the entries: [state[`last_${key}`] = value]. *)
Definition mirrorMetrics (metrics state : gmap string JsVal)
    : gmap string JsVal :=
  map_fold (fun key value st => <["last_" ++ key := value]> st) state metrics.

(** The block of computed fields. *)
Definition computedFields (metrics state : gmap string JsVal)
    : gmap string JsVal :=
  let state := <["isOnline" := JBool true]> state in
  let state :=
    assign "lastRssi"
      (js_nullish (metrics !! "rssiDbm") (state !! "lastRssi")) state in
  let state :=
    assign "lastTankTempC"
      (js_nullish (metrics !! "tankTempC") (state !! "lastTankTempC")) state in
  let state :=
    assign "lastAmbientTempC"
      (js_nullish (metrics !! "ambientTempC") (state !! "lastAmbientTempC"))
      state in
  let state :=
    assign "heaterOn"
      (js_nullish (metrics !! "heaterOn") (state !! "heaterOn")) state in
  assign "lastPowerW"
    (js_nullish (metrics !! "powerW") (state !! "lastPowerW")) state.

(** The health score, [Math.max(0, health)]. *)
Definition healthScore (metrics : gmap string JsVal) : Z :=
  let health := 100 in
  let health :=
    if presentBelow metrics "rssiDbm" (-100) then health - 20 else health in
  let health :=
    if presentBelow metrics "batteryPct" 20 then health - 30 else health in
  let health :=
    if presentAbove metrics "tankTempC" 85 then health - 20 else health in
  Z.max 0 health.

(** [if (geo) { ... }] *)
Definition geoFields (geo : option Geo) (state : gmap string JsVal)
    : gmap string JsVal :=
  match geo with
  | Some g =>
    <["lastGeoSource" := JStr (sourceName (g_source g))]>
      (<["lastGeoLon" := JNum (g_lon g)]>
         (<["lastGeoLat" := JNum (g_lat g)]> state))
  | None => state
  end.

Definition computeDerivedState (metrics : gmap string JsVal)
    (geo : option Geo) (existingState : gmap string JsVal)
    : gmap string JsVal :=
  let state := existingState in
  let state := mirrorMetrics metrics state in
  let state := computedFields metrics state in
  let state := <["healthScore" := num (healthScore metrics)]> state in
  geoFields geo state.

Definition updateDevice (ts : Z) (geo : option Geo) (d : Device) : Device :=
  match geo with
  | None =>
    mkDevice (d_id d) (d_tenantId d) (d_siteId d) (d_status d) (Some ts)
      (d_firmwareVersion d) (d_deviceLat d) (d_deviceLon d)
      (d_deviceLocationTs d) (d_deviceLocationSource d)
      (d_deviceLocationAccuracyM d)
  | Some g =>
    mkDevice (d_id d) (d_tenantId d) (d_siteId d) (d_status d) (Some ts)
      (d_firmwareVersion d) (Some (g_lat g)) (Some (g_lon g)) (Some ts)
      (Some (g_source g))
      match g_accuracyM g with
      | Some a => Some a
      | None => d_deviceLocationAccuracyM d
      end
  end.

Definition upsertTwin (deviceId : string) (ts : Z)
    (newState : gmap string JsVal) (tws : list DeviceTwin) : list DeviceTwin :=
  match findById tw_deviceId deviceId tws with
  | Some _ =>
    updateWhere tw_deviceId deviceId
      (fun tw => mkDeviceTwin (tw_deviceId tw) (Some ts) (Some newState)) tws
  | None => tws ++ [mkDeviceTwin deviceId (Some ts) (Some newState)]
  end.

Definition setSiteLocation (now : Z) (g : Geo) (site : Site) : Site :=
  mkSite (s_id site) (s_tenantId site) (Some (g_lat g)) (Some (g_lon g))
    (Some (asLocationSource (g_source g)))
    match g_accuracyM g with
    | Some a => Some a
    | None => s_locationAccuracyM site
    end
    (Some now) (s_locationLock site).

Definition shouldUpdateSite (site : Site) : bool :=
  negb (s_locationLock site)
  && ((bool_decide (s_lat site = None) && bool_decide (s_lon site = None))
      || bool_decide (s_lat site = None)).

(** The site geo reconciliation of the ingest handler; [site] is the row
    that was read together with the device. *)
Definition reconcileSite (now : Z) (deviceId : string) (device : Device)
    (g : Geo) (site : Site) (s : Store) : Store :=
  let s1 :=
    if shouldUpdateSite site then
      let isFirstLocation := bool_decide (s_lat site = None) in
      let s' := with_sites
                  (updateWhere s_id (s_id site) (setSiteLocation now g)
                     (sites s)) s in
      if isFirstLocation then
        with_auditLogs
          (writeAuditLog (Some (d_tenantId device)) None ACTOR_DEVICE
             "SITE_LOCATION_SET_FROM_DEVICE" "Site" (s_id site)
             (auditLogs s')) s'
      else s'
    else s in
  match s_lat site, s_lon site with
  | Some lat, Some lon =>
    let distance := haversineKm lat lon (g_lat g) (g_lon g) in
    if bool_decide (1 < distance)%Qc then
      with_auditLogs
        (writeAuditLog (Some (d_tenantId device)) None ACTOR_DEVICE
           "DEVICE_GEO_LARGE_JUMP" "Device" deviceId (auditLogs s1)) s1
    else s1
  | _, _ => s1
  end.

(** POST /api/ingest/telemetry, after [authenticateDevice] and the schema
    validation. [newId] is the id that the store draws for the row. *)
Definition ingest (now : Z) (newId : string) (body : TelemetryBody)
    (req : Request) (s : Store) : Store * Response IngestResponse :=
  let authenticated := deviceId req in
  let deviceId := tb_deviceId body in
  let ts := tb_ts body in
  let metrics := tb_metrics body in
  let geo := tb_geo body in
  if negb (bool_decide (authenticated = Some deviceId)) then
    (s, Err (ValidationError "Device ID mismatch with authentication"))
  else
    match findById d_id deviceId (devices s) with
    | None => (s, Err (NotFoundError "Device" (Some deviceId)))
    | Some device =>
      let site := d_siteId device ≫= (fun sid => findById s_id sid (sites s)) in
      let warnings := validateMetricRanges metrics in
      if bool_decide (is_Some (findById t_id newId (telemetry s))) then
        (s, Err InternalError)
      else
        let s1 :=
          with_telemetry
            (telemetry s ++ [mkTelemetry newId deviceId ts metrics geo]) s in
        let s2 :=
          with_devices
            (updateWhere d_id deviceId (updateDevice ts geo) (devices s1)) s1 in
        let twin := findById tw_deviceId deviceId (twins s2) in
        let existingState := default ∅ (twin ≫= tw_derivedState) in
        let newState := computeDerivedState metrics geo existingState in
        let s3 := with_twins (upsertTwin deviceId ts newState (twins s2)) s2 in
        let s4 :=
          match geo, site with
          | Some g, Some site =>
            if truthy_str (d_siteId device) then
              reconcileSite now deviceId device g site s3
            else s3
          | _, _ => s3
          end in
        (s4, Ok 201 (mkIngestResponse newId
                       (if bool_decide (0 < length warnings)%nat
                        then Some warnings else None)))
    end.

End Host.


End TelemetryIngest.

(** ** common/config.ts *)

(** The alert settings read from the environment; [None] is the [NaN] that
    [parseFloat] returns for a value that is not a number. *)
Record Config : Type := mkConfig {
  noTelemetryThresholdMinutes : option Qc;
  overTempThresholdC : option Qc;
  sensorOutOfRangeRepeatCount : option Qc;
}.

Definition defaultConfig : Config :=
  mkConfig (Some (Qc_of_Z 30)) (Some (Qc_of_Z 85)) (Some (Qc_of_Z 3)).

(** ** modules/alerts/router.ts: the evaluation engine *)

Module Alerts.

Definition dedupeKeyOf (device : Device) (rule : AlertRule) : string :=
  d_id device ++ ":" ++ r_id rule.

(** [where: { dedupeKey, status: { in: ['OPEN', 'ACKNOWLEDGED'] } }] *)
Definition isOpenFor (dedupeKey : string) (e : AlertEvent) : bool :=
  bool_decide (ae_dedupeKey e = Some dedupeKey)
  && (bool_decide (ae_status e = A_OPEN)
      || bool_decide (ae_status e = A_ACKNOWLEDGED)).

(** [alertEvent.create]: the primary key and the unique index
    [AlertEvent_dedupeKey_key] reject the row; [None] is the thrown error. *)
Definition createAlertEvent (e : AlertEvent) (rows : list AlertEvent)
    : option (list AlertEvent) :=
  if existsb (fun x => bool_decide (ae_id x = ae_id e)) rows then None
  else if existsb (fun x => bool_decide (is_Some (ae_dedupeKey e))
                            && bool_decide (ae_dedupeKey x = ae_dedupeKey e))
            rows
  then None
  else Some (rows ++ [e])%list.

Definition shouldNotify (ch : NotificationChannel) (severity : AlertSeverity)
    : bool :=
  bool_decide (ch_type ch = WEBHOOK) || negb (bool_decide (severity = INFO)).

(** [{ tankTempC: state.lastTankTempC, thresholdC: threshold }] *)
Definition overTempDetails (tankTempC thresholdC : option JsVal)
    : gmap string JsVal :=
  TelemetryIngest.assign "thresholdC" thresholdC
    (TelemetryIngest.assign "tankTempC" tankTempC ∅).

Section Engine.
Variable StringToNumber : string -> option Qc.
Variable config : Config.
(** The ids that the store draws for new rows, by the number of rows that
    the table holds. *)
Variable uuid : nat -> string.
(** The three other cases of the switch (NO_TELEMETRY, POSSIBLE_LEAK and
    SENSOR_OUT_OF_RANGE), which read the device's [lastSeenAt] and its
    telemetry rows at the instant [now]: the details of the alert when the
    rule fires for the device, [None] when it does not or when the case
    throws. *)
Variable otherPredicate :
  Z -> AlertRule -> Device -> Store -> option (gmap string JsVal).

(** [dispatchAlertNotifications]; [false] is a thrown error, which leaves
    the rows created before it. *)
Fixpoint enqueue (now : Z) (tenantId alertEventId : string)
    (severity : AlertSeverity) (chs : list NotificationChannel) (s : Store)
    : Store * bool :=
  match chs with
  | [] => (s, true)
  | ch :: rest =>
    if shouldNotify ch severity then
      let id := uuid (length (notificationEvents s)) in
      if existsb (fun n => bool_decide (n_id n = id)) (notificationEvents s)
      then (s, false)
      else
        enqueue now tenantId alertEventId severity rest
          (with_notificationEvents
             (notificationEvents s
              ++ [mkNotificationEvent id tenantId (ch_id ch)
                    (Some alertEventId) N_QUEUED None None now]) s)
    else enqueue now tenantId alertEventId severity rest s
  end.

Definition dispatchAlertNotifications (now : Z) (tenantId alertEventId : string)
    (severity : AlertSeverity) (s : Store) : Store * bool :=
  enqueue now tenantId alertEventId severity
    (filter (fun ch => bool_decide (ch_tenantId ch = tenantId) && ch_enabled ch)
       (channels s)) s.

(** The OVER_TEMP case of the switch: the details when the rule fires. *)
Definition overTemp (rule : AlertRule) (device : Device) (s : Store)
    : option (gmap string JsVal) :=
  let twin := findById tw_deviceId (d_id device) (twins s) in
  let state := twin ≫= tw_derivedState in
  let threshold :=
    js_or (r_params rule !! "thresholdC") (JNum <$> overTempThresholdC config) in
  let lastTankTempC := state ≫= (fun st => st !! "lastTankTempC") in
  if truthy lastTankTempC && js_gt StringToNumber lastTankTempC threshold then
    Some (overTempDetails lastTankTempC threshold)
  else None.

(** The body of the inner loop: one rule evaluated for one device. The
    result is the store and whether the iteration counted a new alert; an
    error thrown inside the [try] is caught and the iteration counts none. *)
Definition evaluateDevice (now : Z) (rule : AlertRule) (device : Device)
    (s : Store) : Store * bool :=
  let dedupeKey := dedupeKeyOf device rule in
  match List.find (isOpenFor dedupeKey) (alertEvents s) with
  | Some _ => (s, false)
  | None =>
    let fired :=
      match r_type rule with
      | OVER_TEMP => overTemp rule device s
      | _ => otherPredicate now rule device s
      end in
    match fired with
    | None => (s, false)
    | Some details =>
      let alertEvent :=
        mkAlertEvent (uuid (length (alertEvents s))) (r_tenantId rule)
          (d_id device) (r_id rule) (r_severity rule) A_OPEN now details
          (Some dedupeKey) in
      match createAlertEvent alertEvent (alertEvents s) with
      | None => (s, false)
      | Some rows =>
        dispatchAlertNotifications now (r_tenantId rule) (ae_id alertEvent)
          (r_severity rule) (with_alertEvents rows s)
      end
    end
  end.

Definition sweptDevices (rule : AlertRule) (s : Store) : list Device :=
  filter (fun d => bool_decide (d_tenantId d = r_tenantId rule)
                   && (bool_decide (d_status d = D_ACTIVE)
                       || bool_decide (d_status d = D_INSTALLED)))
    (devices s).

Definition evaluateRule (now : Z) (rule : AlertRule) (acc : Store * nat)
    : Store * nat :=
  foldl (fun acc device =>
           let r := evaluateDevice now rule device acc.1 in
           (r.1, if r.2 then S acc.2 else acc.2))
    acc (sweptDevices rule acc.1).

Definition evaluateAlerts (now : Z) (s : Store) : Store * nat :=
  foldl (fun acc rule => evaluateRule now rule acc) (s, 0%nat)
    (filter (fun r => r_enabled r) (alertRules s)).

End Engine.

(** The OVER_TEMP predicate in the specification's words: the last tank
    temperature is defined and exceeds the rule's [thresholdC], 85 when the
    rule has none. *)
Definition overTemp_spec (thresholdC lastTankTempC : option Qc) : bool :=
  match lastTankTempC with
  | Some t => bool_decide (default (Qc_of_Z 85) thresholdC < t)%Qc
  | None => false
  end.

End Alerts.

(** ** modules/notifications/router.ts: the queue processor *)

Module Notifications.

(** The thrown [TypeError]'s message when a property of [null] is read. *)
Definition nullRead (prop : string) : string :=
  "Cannot read properties of null (reading '" ++ prop ++ "')".

(** The body of the [try]: reading the channel's configuration and writing
    the stub's log line. [Some msg] is the message of the error it throws. *)
Definition send (channel : option NotificationChannel) : option string :=
  match channel with
  | None => Some (nullRead "config")
  | Some ch =>
    match ch_type ch, ch_config ch with
    | EMAIL, None => Some (nullRead "to")
    | SMS, None => Some (nullRead "phone")
    | WEBHOOK, None => Some (nullRead "url")
    | _, Some _ => None
    end
  end.

Definition markSent (now : Z) (n : NotificationEvent) : NotificationEvent :=
  mkNotificationEvent (n_id n) (n_tenantId n) (n_channelId n)
    (n_alertEventId n) N_SENT (Some now) (n_errorMsg n) (n_createdAt n).

Definition markFailed (msg : string) (n : NotificationEvent)
    : NotificationEvent :=
  mkNotificationEvent (n_id n) (n_tenantId n) (n_channelId n)
    (n_alertEventId n) N_FAILED (n_sentAt n) (Some msg) (n_createdAt n).

(** One iteration of the loop over the selected events. *)
Definition processOne (now : Z) (chs : list NotificationChannel)
    (acc : list NotificationEvent * nat) (event : NotificationEvent)
    : list NotificationEvent * nat :=
  match send (findById ch_id (n_channelId event) chs) with
  | None => (updateWhere n_id (n_id event) (markSent now) acc.1, S acc.2)
  | Some msg => (updateWhere n_id (n_id event) (markFailed msg) acc.1, acc.2)
  end.

(** [findMany({ where: { status: 'QUEUED' }, take: 100 })]: no order is
    requested, the rows come as the store returns them. *)
Definition selectQueued (rows : list NotificationEvent)
    : list NotificationEvent :=
  take 100 (filter (fun n => bool_decide (n_status n = N_QUEUED)) rows).

Definition processNotificationQueue (now : Z) (s : Store) : Store * nat :=
  let queued := selectQueued (notificationEvents s) in
  let r := foldl (processOne now (channels s)) (notificationEvents s, 0%nat)
             queued in
  (with_notificationEvents r.1 s, r.2).

(** The row that the run leaves for a selected event. *)
Definition outcome (now : Z) (chs : list NotificationChannel)
    (event : NotificationEvent) : NotificationEvent :=
  match send (findById ch_id (n_channelId event) chs) with
  | None => markSent now event
  | Some msg => markFailed msg event
  end.

Definition delivered (chs : list NotificationChannel)
    (event : NotificationEvent) : bool :=
  bool_decide (send (findById ch_id (n_channelId event) chs) = None).

(** The selection in the specification's words: up to 100 queued events,
    oldest first. *)
Definition byCreatedAt (a b : NotificationEvent) : Prop :=
  n_createdAt a <= n_createdAt b.

Global Instance byCreatedAt_dec : RelDecision byCreatedAt.
Proof. intros a b. unfold byCreatedAt. apply _. Defined.

Definition selectOldestFirst_spec (rows : list NotificationEvent)
    : list NotificationEvent :=
  take 100 (merge_sort byCreatedAt
              (filter (fun n => bool_decide (n_status n = N_QUEUED)) rows)).

End Notifications.

(** ** modules/ota/router.ts: the device-side report *)

Module Ota.

(** The report's body is not validated: [status] is any string. *)
Record ReportBody : Type := mkReportBody {
  rb_jobId : string;
  rb_status : string;
  rb_progress : option (gmap string JsVal);
  rb_errorMsg : option string;
}.

(** [updateData], applied to the row; a field that it does not set keeps
    its value. *)
Definition applyReport (now : Z) (status : string)
    (progress : option (gmap string JsVal)) (jobStatus : OtaJobStatus)
    (j : OtaJob) : OtaJob :=
  let j1 :=
    mkOtaJob (j_id j) (j_tenantId j) (j_targetType j) (j_deviceId j)
      (j_firmwarePackageId j) (j_status j) (j_scheduledAt j) (j_startedAt j)
      (j_finishedAt j)
      match progress with Some p => Some p | None => j_progress j end in
  let j2 :=
    if bool_decide (status = "SUCCESS") then
      mkOtaJob (j_id j1) (j_tenantId j1) (j_targetType j1) (j_deviceId j1)
        (j_firmwarePackageId j1) O_SUCCESS (j_scheduledAt j1) (j_startedAt j1)
        (Some now) (j_progress j1)
    else if bool_decide (status = "FAILED") then
      mkOtaJob (j_id j1) (j_tenantId j1) (j_targetType j1) (j_deviceId j1)
        (j_firmwarePackageId j1) O_FAILED (j_scheduledAt j1) (j_startedAt j1)
        (Some now) (j_progress j1)
    else j1 in
  if bool_decide (status = "IN_PROGRESS")
     && bool_decide (jobStatus = O_SCHEDULED)
  then
    mkOtaJob (j_id j2) (j_tenantId j2) (j_targetType j2) (j_deviceId j2)
      (j_firmwarePackageId j2) O_IN_PROGRESS (j_scheduledAt j2) (Some now)
      (j_finishedAt j2) (j_progress j2)
  else j2.

Definition setFirmwareVersion (v : string) (d : Device) : Device :=
  mkDevice (d_id d) (d_tenantId d) (d_siteId d) (d_status d) (d_lastSeenAt d)
    (Some v) (d_deviceLat d) (d_deviceLon d) (d_deviceLocationTs d)
    (d_deviceLocationSource d) (d_deviceLocationAccuracyM d).

(** POST /devices/:id/ota/report, after [authenticateDevice]. The writes
    are not in a transaction: an error leaves the earlier ones in place. *)
Definition report (now : Z) (id : string) (body : ReportBody) (req : Request)
    (s : Store) : Store * Response OtaJob :=
  if negb (bool_decide (deviceId req = Some id)) then
    (s, Err (ForbiddenError "Device ID mismatch"))
  else
    let jobId := rb_jobId body in
    let status := rb_status body in
    match findById j_id jobId (otaJobs s) with
    | None => (s, Err (NotFoundError "OtaJob" (Some jobId)))
    | Some job =>
      let change := applyReport now status (rb_progress body) (j_status job) in
      let updated := change job in
      let s1 := with_otaJobs (updateWhere j_id jobId change (otaJobs s)) s in
      if bool_decide (status = "SUCCESS") then
        match findById f_id (j_firmwarePackageId job) (firmwarePackages s1) with
        | Some firmware =>
          match findById d_id id (devices s1) with
          | Some _ =>
            (with_devices
               (updateWhere d_id id (setFirmwareVersion (f_version firmware))
                  (devices s1)) s1,
             Ok 200 updated)
          | None => (s1, Err InternalError)
          end
        | None => (s1, Ok 200 updated)
        end
      else (s1, Ok 200 updated)
    end.

End Ota.

(** ** modules/analytics/router.ts and modules/devices/router.ts *)

Module Analytics.

Record Summary : Type := mkSummary {
  totalDevices : nat;
  devicesByStatus : list (DeviceStatus * nat);
  onlineCount : nat;
  onlinePercentage : Z;
  activeAlerts : nat;
  alertsBySeverity : list (AlertSeverity * nat);
  todayEnergyKwh : Qc;
  sitesCount : nat;
}.

(** [groupBy({ by, where, _count: true })] over the values [keys] of the
    grouping column: one group for each value that occurs. *)
Definition groupCount {A K : Type} `{EqDecision K} (keys : list K)
    (by_ : A -> K) (rows : list A) : list (K * nat) :=
  filter (fun g => bool_decide (0 < g.2)%nat)
    (map (fun k => (k, length (filter (fun r => bool_decide (by_ r = k)) rows)))
       keys).

(** [Math.round], evaluated on the rationals. *)
Definition round (q : Qc) : Z := Qfloor (q + Q2Qc (1 # 2))%Qc.

Definition isActiveAlert (tenantId : string) (e : AlertEvent) : bool :=
  bool_decide (ae_tenantId e = tenantId)
  && (bool_decide (ae_status e = A_OPEN)
      || bool_decide (ae_status e = A_ACKNOWLEDGED)).

(** [lastSeenAt: { gte: since }] *)
Definition seenSince (since : Z) (d : Device) : bool :=
  match d_lastSeenAt d with
  | Some t => bool_decide (since <= t)
  | None => false
  end.

(** The handler of GET /tenants/:tenantId/dashboard/summary. [today] is the
    local midnight before [now]. *)
Definition dashboardSummary (now today : Z) (tenantId : string) (s : Store)
    : Summary :=
  let ofTenant := filter (fun d => bool_decide (d_tenantId d = tenantId))
                    (devices s) in
  let devicesByStatus :=
    groupCount [D_PROVISIONED; D_INSTALLED; D_ACTIVE; D_SUSPENDED; D_RETIRED]
      d_status ofTenant in
  let totalDevices := foldl (fun sum g => (sum + g.2)%nat) 0%nat devicesByStatus in
  let thirtyMinAgo := now - 30 * 60 * 1000 in
  let onlineCount :=
    length (filter (fun d => seenSince thirtyMinAgo d) ofTenant) in
  let active := filter (isActiveAlert tenantId) (alertEvents s) in
  let todayRollups :=
    filter (fun r => bool_decide (ro_tenantId r = tenantId)
                     && bool_decide (today <= ro_dayDate r))
      (dailyRollups s) in
  mkSummary totalDevices devicesByStatus onlineCount
    (if bool_decide (0 < totalDevices)%nat
     then round (Qc_of_Z (Z.of_nat onlineCount)
                 / Qc_of_Z (Z.of_nat totalDevices) * Qc_of_Z 100)%Qc
     else 0%Z)
    (length active)
    (groupCount [INFO; WARNING; CRITICAL] ae_severity active)
    (foldl (fun (sum : Qc) r => (sum + default 0%Qc (ro_energyKwhDay r))%Qc) 0%Qc
       todayRollups)
    (length (filter (fun x => bool_decide (s_tenantId x = tenantId)) (sites s))).

(** The route as it is mounted: [authenticateUser], [loadUserContext] and
    the handler; [req] is the request that the two have authenticated. *)
Definition dashboardSummaryRoute (now today : Z) (tenantId : string)
    (req : Request) (s : Store) : Response Summary :=
  Ok 200 (dashboardSummary now today tenantId s).

(** GET /api/devices: [authenticateUser], [loadUserContext],
    [enforceTenancy] and the handler (without its search filters and its
    paging). *)
Definition listDevicesRoute (req : Request) (s : Store)
    : Response (list Device) :=
  match Tenancy.enforceTenancy req with
  | Fail e => Err e
  | Continue req1 =>
    Ok 200 (filter (fun d => tenantMatches (tenantId req1) (d_tenantId d))
              (devices s))
  end.

(** GET /api/devices/:id, likewise (without the rows it joins). *)
Definition getDeviceRoute (id : string) (req : Request) (s : Store)
    : Response Device :=
  match Tenancy.enforceTenancy req with
  | Fail e => Err e
  | Continue req1 =>
    match List.find (fun d => bool_decide (d_id d = id)
                              && tenantMatches (tenantId req1) (d_tenantId d))
            (devices s) with
    | Some device => Ok 200 device
    | None => Err (NotFoundError "Device" (Some id))
    end
  end.

End Analytics.

(** ** common/middleware/auth.ts: device authentication *)

Module DeviceAuth.

(** [s.substring(n)] *)
Fixpoint dropChars (n : nat) (s : string) : string :=
  match n, s with
  | O, _ => s
  | S n, String _ rest => dropChars n rest
  | S _, EmptyString => EmptyString
  end.

(** [s.split(sep)] for a separator of one character. *)
Fixpoint splitOn (sep : Ascii.ascii) (s : string) : list string :=
  match s with
  | EmptyString => [EmptyString]
  | String c rest =>
    if bool_decide (c = sep) then EmptyString :: splitOn sep rest
    else
      match splitOn sep rest with
      | p :: ps => String c p :: ps
      | [] => [String c EmptyString]
      end
  end.

(** The character [:]. *)
Definition colon : Ascii.ascii := Ascii.ascii_of_nat 58.

Definition hexVal (c : Ascii.ascii) : option N :=
  let n := Ascii.N_of_ascii c in
  if (48 <=? n)%N && (n <=? 57)%N then Some (n - 48)%N
  else if (97 <=? n)%N && (n <=? 102)%N then Some (n - 87)%N
  else if (65 <=? n)%N && (n <=? 70)%N then Some (n - 55)%N
  else None.

(** [Buffer.from(s, 'hex')]: the bytes of the pairs of hexadecimal digits,
    up to the first pair that is not one; a last single character is
    dropped. *)
Fixpoint hexDecode (s : string) : list N :=
  match s with
  | String a (String b rest) =>
    match hexVal a, hexVal b with
    | Some x, Some y => (16 * x + y)%N :: hexDecode rest
    | _, _ => []
    end
  | _ => []
  end.

(** [crypto.timingSafeEqual]: [None] is the error that it throws for
    buffers of different lengths. *)
Definition timingSafeEqual (a b : list N) : option bool :=
  if bool_decide (length a = length b) then Some (bool_decide (a = b))
  else None.

(** [req.deviceId = deviceId; req.isDeviceAuth = true] *)
Definition set_device (d : string) (req : Request) : Request :=
  {| user := user req; tenantId := tenantId req; deviceId := Some d;
     isDeviceAuth := true; params := params req; headers := headers req;
     query := query req |}.

Section Hmac.
(** [crypto.createHmac('sha256', secret).update(message).digest('hex')] and
    the deployment's [config.deviceHmacSecret]. *)
Variable hmacSha256Hex : string -> string -> string.
Variable deviceHmacSecret : string.

(** The token that the registration of a device hands out. *)
Definition deviceToken (deviceId : string) : string :=
  deviceId ++ ":" ++ hmacSha256Hex deviceHmacSecret deviceId.

Definition authenticateDevice (req : Request) : Next :=
  match headers req !! "authorization" with
  | Some authHeader =>
    if String.prefix "Bearer " authHeader then
      let token := dropChars 7 authHeader in
      match splitOn colon token with
      | [deviceId; hmac] =>
        let expectedHmac := hmacSha256Hex deviceHmacSecret deviceId in
        match timingSafeEqual (hexDecode hmac) (hexDecode expectedHmac) with
        | Some true => Continue (set_device deviceId req)
        | Some false => Fail (UnauthorizedError "Invalid device credentials")
        | None => Fail (UnauthorizedError "Invalid device credentials")
        end
      | _ => Fail (UnauthorizedError "Invalid device token format")
      end
    else Fail (UnauthorizedError "Missing device authorization")
  | None => Fail (UnauthorizedError "Missing device authorization")
  end.

End Hmac.

End DeviceAuth.

(** ** common/middleware/tenancy.ts: the tenant filter *)

Module TenantFilter.

(** [{ tenantId }] or [{}] *)
Inductive Filter : Type :=
| OfTenant (t : string)
| Unfiltered.

Definition getTenantFilter (req : Request) : Filter + AppError :=
  match tenantId req with
  | Some t =>
    if truthy_str (tenantId req) then inl (OfTenant t)
    else if default false (isPlatformAdmin <$> user req) then inl Unfiltered
    else inr (ForbiddenError "Tenant context required")
  | None =>
    if default false (isPlatformAdmin <$> user req) then inl Unfiltered
    else inr (ForbiddenError "Tenant context required")
  end.

End TenantFilter.

(** ** modules/ota/router.ts: the device-side pull *)

Module OtaPending.

(** The [where] of the pull: the jobs of the device's tenant that are
    SCHEDULED or IN_PROGRESS and target the device or a group. *)
Definition isOfferedTo (device : Device) (j : OtaJob) : bool :=
  bool_decide (j_tenantId j = d_tenantId device)
  && (bool_decide (j_status j = O_SCHEDULED)
      || bool_decide (j_status j = O_IN_PROGRESS))
  && ((bool_decide (j_targetType j = TARGET_DEVICE)
       && bool_decide (j_deviceId j = Some (d_id device)))
      || bool_decide (j_targetType j = TARGET_GROUP)).

(** [orderBy: { scheduledAt: 'asc' }] *)
Definition byScheduledAt (a b : OtaJob) : Prop :=
  j_scheduledAt a <= j_scheduledAt b.

Global Instance byScheduledAt_dec : RelDecision byScheduledAt.
Proof. intros a b. unfold byScheduledAt. apply _. Defined.

(** GET /devices/:id/ota/pending, after [authenticateDevice]: the job and
    the firmware package that it includes, or [null]. *)
Definition pending (id : string) (req : Request) (s : Store)
    : Response (option (OtaJob * option FirmwarePackage)) :=
  if negb (bool_decide (deviceId req = Some id)) then
    Err (ForbiddenError "Device ID mismatch")
  else
    match findById d_id id (devices s) with
    | None => Err (NotFoundError "Device" (Some id))
    | Some device =>
      let jobs :=
        take 1 (merge_sort byScheduledAt
                  (filter (fun j => isOfferedTo device j) (otaJobs s))) in
      Ok 200
        ((fun j => (j, findById f_id (j_firmwarePackageId j)
                         (firmwarePackages s))) <$> head jobs)
    end.

End OtaPending.

(** ** modules/sites/router.ts: the location of a site *)

Module Sites.

(** The two sources that the schema of the update allows. *)
Inductive UserLocationSource : Type := USER_MOBILE_GPS | USER_MANUAL.

Definition userSource (s : UserLocationSource) : LocationSource :=
  match s with USER_MOBILE_GPS => MOBILE_GPS | USER_MANUAL => MANUAL end.

(** The body of the update; the address fields, which the model's [Site]
    does not hold, are left out. *)
Record UpdateLocationBody : Type := mkUpdateLocationBody {
  ul_lat : Qc;
  ul_lon : Qc;
  ul_accuracyM : option Qc;
  ul_source : UserLocationSource;
  ul_lock : option bool;
}.

Definition applyLocation (now : Z) (body : UpdateLocationBody) (lock : bool)
    (site : Site) : Site :=
  mkSite (s_id site) (s_tenantId site) (Some (ul_lat body))
    (Some (ul_lon body)) (Some (userSource (ul_source body)))
    match ul_accuracyM body with
    | Some a => Some a
    | None => s_locationAccuracyM site
    end
    (Some now) lock.

Section Ownership.
(** The [ownerUserId] column of a device, which the model's [Device] does
    not hold. *)
Variable ownerUserId : Device -> option string.

(** PATCH /:siteId/location, after [authenticateUser], [loadUserContext],
    [enforceTenancy] and the schema validation. *)
Definition updateLocation (now : Z) (siteId : string)
    (body : UpdateLocationBody) (req : Request) (s : Store)
    : Store * Response Site :=
  match List.find (fun x => bool_decide (s_id x = siteId)
                            && tenantMatches (tenantId req) (s_tenantId x))
          (sites s) with
  | None => (s, Err (NotFoundError "Site" (Some siteId)))
  | Some site =>
    let ms := default [] (memberships <$> user req) in
    let membership :=
      List.find (fun m => bool_decide (Some (m_tenantId m) = tenantId req)) ms in
    let role := m_role <$> membership in
    let isPlatformAdmin :=
      existsb (fun m => bool_decide (m_role m = PLATFORM_ADMIN)) ms in
    let hasAccess :=
      List.find (fun d => bool_decide (d_siteId d = Some (s_id site))
                          && bool_decide (ownerUserId d = userId <$> user req))
        (devices s) in
    if negb isPlatformAdmin && bool_decide (role = Some END_USER)
       && negb (bool_decide (is_Some hasAccess))
    then
      (s, Err (ForbiddenError
                 "END_USER can only update sites they have access to"))
    else
      let lock := default (s_locationLock site) (ul_lock body) in
      let updated := applyLocation now body lock site in
      let s1 := with_sites
                  (updateWhere s_id (s_id site) (applyLocation now body lock)
                     (sites s)) s in
      let s2 := with_auditLogs
                  (writeAuditLog (tenantId req) (userId <$> user req)
                     ACTOR_USER "SITE_LOCATION_UPDATED" "Site" (s_id site)
                     (auditLogs s1)) s1 in
      (s2, Ok 200 updated)
  end.

(** The whole route. *)
Definition updateLocationRoute (now : Z) (siteId : string)
    (body : UpdateLocationBody) (req : Request) (s : Store)
    : Store * Response Site :=
  match Tenancy.enforceTenancy req with
  | Fail e => (s, Err e)
  | Continue req1 => updateLocation now siteId body req1 s
  end.

End Ownership.

End Sites.

(** ** Vocabulary of the further properties *)

(** [s] holds the character [c]. *)
Fixpoint hasChar (c : Ascii.ascii) (s : string) : bool :=
  match s with
  | EmptyString => false
  | String x rest => bool_decide (x = c) || hasChar c rest
  end.

(** ** The invariant of the alert sweep *)

Module AlertSweep.

(** An alert that a sweep over the store [s0] may have raised: an OPEN
    alert of an enabled rule and an ACTIVE or INSTALLED device of the
    rule's tenant. *)
Definition raisedFrom (s0 : Store) (e : AlertEvent) : Prop :=
  ae_status e = A_OPEN
  /\ exists rule device,
       rule ∈ alertRules s0 /\ r_enabled rule = true
       /\ device ∈ devices s0
       /\ d_tenantId device = r_tenantId rule
       /\ (d_status device = D_ACTIVE \/ d_status device = D_INSTALLED)
       /\ ae_tenantId e = r_tenantId rule
       /\ ae_deviceId e = d_id device
       /\ ae_ruleId e = r_id rule
       /\ ae_severity e = r_severity rule
       /\ ae_dedupeKey e = Some (Alerts.dedupeKeyOf device rule).

(** A notification that such a sweep may have queued: on an enabled
    channel of the notification's own tenant. *)
Definition queuedOn (s0 : Store) (n : NotificationEvent) : Prop :=
  n_status n = N_QUEUED
  /\ exists ch, ch ∈ channels s0 /\ n_channelId n = ch_id ch
                /\ ch_tenantId ch = n_tenantId n /\ ch_enabled ch = true.

(** The state of the sweep's loops: only alerts and notifications have
    been appended to the store [s0] that the sweep started from, and the
    count is at most the number of alerts. *)
Definition sweptFrom (s0 : Store) (acc : Store * nat) : Prop :=
  exists addedA addedN,
    acc.1
    = with_notificationEvents (notificationEvents s0 ++ addedN)%list
        (with_alertEvents (alertEvents s0 ++ addedA)%list s0)
    /\ (acc.2 <= length addedA)%nat
    /\ Forall (raisedFrom s0) addedA
    /\ Forall (queuedOn s0) addedN.

End AlertSweep.

(** ** Example data *)

Module Examples.

(** The examples compare no string with a number, so any conversion serves:
    this one reads every string as [NaN]. *)
Definition noNumericStrings (s : string) : option Qc := None.

(** A distance for the examples: far apart unless the points coincide. *)
Definition coarseDistance (lat1 lon1 lat2 lon2 : Qc) : Qc :=
  if bool_decide (lat1 = lat2) && bool_decide (lon1 = lon2) then 0%Qc
  else Qc_of_Z 100.

Definition userOfB : User :=
  mkUser "u-b" "b@example.com" [mkMembership "tenant-b" TENANT_ADMIN].

(** A request of [userOfB] that names no tenant anywhere. *)
Definition requestWithoutTenant : Request :=
  mkRequest (Some userOfB) None None false ∅ ∅ ∅.

(** GET /api/tenants/tenant-a/dashboard/summary sent by [userOfB]. *)
Definition requestDashboardOfA : Request :=
  mkRequest (Some userOfB) None None false {["tenantId" := "tenant-a"]} ∅ ∅.

(** A request of [userOfB] with the header [x-tenant-id: tenant-a]. *)
Definition requestHeaderA : Request :=
  mkRequest (Some userOfB) None None false ∅ {["x-tenant-id" := "tenant-a"]} ∅.

(** A request of [userOfB] with the header [x-tenant-id: tenant-b]. *)
Definition requestHeaderB : Request :=
  mkRequest (Some userOfB) None None false ∅ {["x-tenant-id" := "tenant-b"]} ∅.

Definition siteOfA : Site :=
  mkSite "site-a" "tenant-a" (Some (Qc_of_Z 37)) (Some (Qc_of_Z 23))
    (Some MANUAL) None None true.

Definition deviceOfA : Device :=
  mkDevice "dev-a" "tenant-a" (Some "site-a") D_ACTIVE (Some 1000) None None
    None None None None.

Definition deviceOfB : Device :=
  mkDevice "dev-b" "tenant-b" None D_ACTIVE (Some 1000) None None None None
    None None.

Definition openAlertOfA : AlertEvent :=
  mkAlertEvent "alert-1" "tenant-a" "dev-a" "rule-a" CRITICAL A_OPEN 900 ∅
    (Some "dev-a:rule-x").

Definition rollupOfA : DailyRollup :=
  mkDailyRollup "tenant-a" "dev-a" 0 (Some (Qc_of_Z 4)).

(** Tenant A owns a site, a device, an open alert and a rollup; tenant B
    owns one device. *)
Definition twoTenants : Store :=
  mkStore [deviceOfA; deviceOfB] [siteOfA] [] [] [] [] [] [openAlertOfA] [] []
    [] [] [rollupOfA] [].

(** Tenant A enables the remote boost and switches it off for one device. *)
Definition entitlementsOfA : list Entitlement :=
  [mkEntitlement "tenant-a" SCOPE_TENANT None BASIC_REMOTE_BOOST true;
   mkEntitlement "tenant-a" SCOPE_DEVICE (Some "dev-a") BASIC_REMOTE_BOOST
     false].

Definition queuedCommand (id : string) (requestedAt : Z) : Command :=
  mkCommand id "dev-a" REMOTE_BOOST_SET ∅ C_QUEUED (Some "u-a") requestedAt
    None None None.

(** Two commands wait for the device of tenant A, the later one first. *)
Definition withCommands : Store :=
  with_commands [queuedCommand "cmd-2" 200; queuedCommand "cmd-1" 100]
    twoTenants.

(** A request that [authenticateDevice] has accepted for the device. *)
Definition requestOfDevice (id : string) : Request :=
  mkRequest None None (Some id) true ∅ ∅ ∅.

(** A rollout of tenant A for its own device, and the firmware it names. *)
Definition jobOfA : OtaJob :=
  mkOtaJob "job-a" "tenant-a" TARGET_DEVICE (Some "dev-a") "fw-2" O_SCHEDULED
    3000 None None None.

Definition withRollout : Store :=
  mkStore [deviceOfA; deviceOfB] [siteOfA] [] [] [] [] [] [] [] [] [jobOfA]
    [mkFirmwarePackage "fw-2" "2.0.0"] [] [].

(** The reading of scenario S2: a healthy device. *)
Definition healthyMetrics : gmap string JsVal :=
  {[ "tankTempC" := JNum (Q2Qc (582 # 10)); "rssiDbm" := num (-88);
     "batteryPct" := num 92; "heaterOn" := JBool true; "powerW" := num 1800 ]}.

(** A weak signal, a low battery and a hot tank at once. *)
Definition poorMetrics : gmap string JsVal :=
  {[ "tankTempC" := num 90; "rssiDbm" := num (-110); "batteryPct" := num 10 ]}.

(** A reading of the device of tenant A with a position far from its
    locked site. *)
Definition farAway : Geo :=
  mkGeo (Q2Qc (385 # 10)) (Q2Qc (245 # 10)) (Some (Qc_of_Z 50)) DEV_EDGE_GNSS.

Definition readingOfA : TelemetryIngest.TelemetryBody :=
  TelemetryIngest.mkTelemetryBody "dev-a" 1700 poorMetrics (Some farAway).

Definition queuedEvent (id channelId : string) (createdAt : Z)
    : NotificationEvent :=
  mkNotificationEvent id "tenant-a" channelId (Some "alert-1") N_QUEUED None
    None createdAt.

(** A hundred events queued at 2000 come back from the store before the one
    that was queued at 1000. *)
Definition backlog : list NotificationEvent :=
  (map (fun i : nat => queuedEvent ("n-" ++ pretty i) "ch-1" 2000) (seq 1 100)
   ++ [queuedEvent "n-oldest" "ch-1" 1000])%list.

Definition webhookOfA : NotificationChannel :=
  mkNotificationChannel "ch-1" "tenant-a" WEBHOOK
    (Some {["url" := JStr "https://hook.example"]}) true.

(** A channel whose configuration is the JSON value [null]. *)
Definition brokenEmailOfA : NotificationChannel :=
  mkNotificationChannel "ch-2" "tenant-a" EMAIL None true.

Definition withBacklog : Store :=
  mkStore [] [] [] [] [] [] [] [] [webhookOfA] backlog [] [] [] [].

(** Two queued events, one for each channel, and one that was sent. *)
Definition withTwoQueued : Store :=
  mkStore [] [] [] [] [] [] [] [] [webhookOfA; brokenEmailOfA]
    [queuedEvent "n-1" "ch-1" 100;
     mkNotificationEvent "n-0" "tenant-a" "ch-1" None N_SENT (Some 50) None 10;
     queuedEvent "n-2" "ch-2" 200]
    [] [] [] [].

(** The ids that the store draws in the examples. *)
Definition freshIds (n : nat) : string := "new-" ++ pretty n.

(** No rule of another type fires in the examples. *)
Definition neverFires (now : Z) (rule : AlertRule) (device : Device)
    (s : Store) : option (gmap string JsVal) := None.

Definition overTempRule (thresholdC : Z) : AlertRule :=
  mkAlertRule "rule-ot" "tenant-a" true OVER_TEMP
    {["thresholdC" := num thresholdC]} CRITICAL.

Definition twinOfA (lastTankTempC : Z) : DeviceTwin :=
  mkDeviceTwin "dev-a" (Some 1000)
    (Some {["lastTankTempC" := num lastTankTempC; "isOnline" := JBool true]}).

(** An alert of the same device and rule that a user has closed. *)
Definition closedAlertOfA : AlertEvent :=
  mkAlertEvent "alert-0" "tenant-a" "dev-a" "rule-ot" CRITICAL A_CLOSED 500 ∅
    (Some "dev-a:rule-ot").

(** The device of tenant A reports [lastTankTempC]; the tenant has one
    OVER_TEMP rule with [thresholdC] and the alerts [events]. *)
Definition overheating (thresholdC lastTankTempC : Z)
    (events : list AlertEvent) : Store :=
  mkStore [deviceOfA] [siteOfA] [twinOfA lastTankTempC] [] [] []
    [overTempRule thresholdC] events [webhookOfA] [] [] [] [] [].

End Examples.

(** ** Further example data *)

Module MoreExamples.

(** A stand-in for the keyed digest of the examples: sixteen hexadecimal
    digits that depend on the length of the message. *)
Definition toyHmac (secret message : string) : string :=
  if Nat.even (String.length secret + String.length message)
  then "00112233445566aa" else "ffeeddccbbaa9988".

Definition bearer (token : string) : Request :=
  mkRequest None None None false ∅ {["authorization" := "Bearer " ++ token]} ∅.

(** A user with the platform role in tenant A only. *)
Definition platformAdmin : User :=
  mkUser "u-root" "root@example.com" [mkMembership "tenant-a" PLATFORM_ADMIN].

(** A user with an installer membership in tenant A. *)
Definition installerOfA : User :=
  mkUser "u-inst" "inst@example.com" [mkMembership "tenant-a" INSTALLER].

Definition requestOf (u : User) (tenant : string) : Request :=
  mkRequest (Some u) None None false ∅ {["x-tenant-id" := tenant]} ∅.

(** A site of tenant A without a position and without the lock, and a
    device that is bound to it. *)
Definition emptySite : Site :=
  mkSite "site-e" "tenant-a" None None None None None false.

Definition deviceOnEmptySite : Device :=
  mkDevice "dev-e" "tenant-a" (Some "site-e") D_INSTALLED None None None None
    None None None.

Definition withEmptySite : Store :=
  mkStore [deviceOnEmptySite] [emptySite] [] [] [] [] [] [] [] [] [] [] [] [].

Definition readingOfE : TelemetryIngest.TelemetryBody :=
  TelemetryIngest.mkTelemetryBody "dev-e" 1700 Examples.healthyMetrics
    (Some Examples.farAway).

(** An end user of tenant A, and a request for the device of tenant A. *)
Definition endUserOfA : User :=
  mkUser "u-end" "end@example.com" [mkMembership "tenant-a" END_USER].

Definition requestForDeviceA : Request :=
  mkRequest (Some endUserOfA) None None false {["id" := "dev-a"]}
    {["x-tenant-id" := "tenant-a"]} ∅.

(** Tenant A has switched the remote boost off for the device. *)
Definition boostOffForA : Store :=
  mkStore [Examples.deviceOfA; Examples.deviceOfB] [Examples.siteOfA] [] []
    [] Examples.entitlementsOfA [] [] [] [] [] [] [] [].

Definition boostCommand : Commands.CreateCommandBody :=
  Commands.mkCreateCommandBody REMOTE_BOOST_SET {["enabled" := JBool true]}.

(** A command of the device of tenant B beside those of tenant A. *)
Definition commandOfB : Command :=
  mkCommand "cmd-b" "dev-b" SET_CONFIG ∅ C_QUEUED (Some "u-b") 150 None None
    None.

Definition withCommandsOfBoth : Store :=
  with_commands
    [Examples.queuedCommand "cmd-2" 200; commandOfB;
     Examples.queuedCommand "cmd-1" 100] Examples.twoTenants.

(** Two jobs for the devices of tenant A: a later one for the device and an
    earlier one for the group; and a job of tenant B that is earlier still. *)
Definition groupJobOfA : OtaJob :=
  mkOtaJob "job-g" "tenant-a" TARGET_GROUP None "fw-2" O_SCHEDULED 2500 None
    None None.

Definition groupJobOfB : OtaJob :=
  mkOtaJob "job-b" "tenant-b" TARGET_GROUP None "fw-2" O_SCHEDULED 1000 None
    None None.

Definition withThreeJobs : Store :=
  with_otaJobs [Examples.jobOfA; groupJobOfB; groupJobOfA]
    Examples.withRollout.

Definition successOf (jobId : string) : Ota.ReportBody :=
  Ota.mkReportBody jobId "SUCCESS" None None.

(** Nobody owns a device in the examples. *)
Definition nobodyOwns (d : Device) : option string := None.

Definition moveSite : Sites.UpdateLocationBody :=
  Sites.mkUpdateLocationBody (Qc_of_Z 38) (Qc_of_Z 24) None Sites.USER_MANUAL
    None.

(** The site of the example without a position, and an installer who sets
    it by hand. *)
Definition requestOfInstaller : Request :=
  set_tenantId "tenant-a"
    (mkRequest (Some installerOfA) None None false ∅
       {["x-tenant-id" := "tenant-a"]} ∅).

Definition requestOfEndUser : Request :=
  set_tenantId "tenant-a"
    (mkRequest (Some endUserOfA) None None false ∅
       {["x-tenant-id" := "tenant-a"]} ∅).

(** The rows that the examples expect: the command that the creation
    stores, the group job after its report, and the site after the
    installer's update. *)
Definition createdBoost : Command :=
  mkCommand "cmd-9" "dev-a" REMOTE_BOOST_SET {["enabled" := JBool true]}
    C_QUEUED (Some "u-end") 3000 None None None.


Definition movedSite : Site :=
  mkSite "site-e" "tenant-a" (Some (Qc_of_Z 38)) (Some (Qc_of_Z 24))
    (Some MANUAL) None (Some 2000) false.

End MoreExamples.

(** * Properties *)

(** ** Tenancy *)

Section TenancyProps.
Import Tenancy.

Lemma existsb_member_false (u : User) (t : string) :
  (forall m, m ∈ memberships u -> m_tenantId m <> t) ->
  existsb (fun m => bool_decide (m_tenantId m = t)) (memberships u) = false.
Proof.
  intros H. induction (memberships u) as [|m ms IH]; [done|].
  simpl. rewrite bool_decide_eq_false_2.
  - apply IH. intros m' Hm'. apply H. by right.
  - apply H. by left.
Qed.

(** C6, as the code has it: a user who is not a platform admin and whose
    request supplies no tenant id in the path, in the [x-tenant-id] header
    or in the [tenantId] query value is refused by [enforceTenancy] with the
    code VALIDATION_ERROR and the status 400. *)
Theorem missing_tenant_is_validation_error (req : Request) (u : User) :
  isDeviceAuth req = false ->
  user req = Some u ->
  isPlatformAdmin u = false ->
  params req !! "tenantId" = None ->
  headers req !! "x-tenant-id" = None ->
  query req !! "tenantId" = None ->
  exists e, enforceTenancy req = Fail e
            /\ code e = "VALIDATION_ERROR" /\ statusCode e = 400.
Proof.
  intros Hdev Hu Hadm Hp Hh Hq.
  exists (ValidationError "x-tenant-id header or tenantId parameter is required").
  unfold enforceTenancy, suppliedTenantId.
  rewrite Hdev, Hu, Hadm, Hp, Hh, Hq. done.
Qed.

Lemma missing_tenant_is_validation_error_witness :
  exists e, enforceTenancy Examples.requestWithoutTenant = Fail e
            /\ code e = "VALIDATION_ERROR" /\ statusCode e = 400.
Proof.
  apply (missing_tenant_is_validation_error Examples.requestWithoutTenant
           Examples.userOfB); reflexivity.
Defined.

(** C6 as stated fails: the request of a tenant admin that names no tenant
    is refused with VALIDATION_ERROR (400), not with FORBIDDEN (403). *)
Lemma missing_tenant_not_forbidden :
  user Examples.requestWithoutTenant = Some Examples.userOfB
  /\ isPlatformAdmin Examples.userOfB = false
  /\ suppliedTenantId Examples.requestWithoutTenant = None
  /\ ~ (exists e, enforceTenancy Examples.requestWithoutTenant = Fail e
                  /\ code e = "FORBIDDEN").
Proof.
  repeat split. intros (e & He & Hc).
  vm_compute in He. injection He as <-. vm_compute in Hc. discriminate.
Qed.

(** A user without a membership in the tenant that the request names, and
    without the platform role, is refused with FORBIDDEN. *)
Lemma cross_tenant_forbidden (req : Request) (u : User) (t : string) :
  isDeviceAuth req = false ->
  user req = Some u ->
  isPlatformAdmin u = false ->
  suppliedTenantId req = Some t ->
  t <> "" ->
  (forall m, m ∈ memberships u -> m_tenantId m <> t) ->
  enforceTenancy req
  = Fail (ForbiddenError "Access denied: not a member of this tenant").
Proof.
  intros Hdev Hu Hadm Ht Hne Hm. unfold enforceTenancy.
  rewrite Hdev, Hu, Hadm, Ht. simpl.
  rewrite bool_decide_eq_false_2 by done. simpl.
  by rewrite existsb_member_false.
Qed.

(** A request that passes [enforceTenancy] for a user without the platform
    role carries a tenant in which the user holds a membership. *)
Lemma enforceTenancy_member (req req1 : Request) (u : User) :
  isDeviceAuth req = false ->
  user req = Some u ->
  isPlatformAdmin u = false ->
  enforceTenancy req = Continue req1 ->
  exists t m, tenantId req1 = Some t /\ m ∈ memberships u /\ m_tenantId m = t.
Proof.
  intros Hdev Hu Hadm. unfold enforceTenancy. rewrite Hdev, Hu, Hadm. simpl.
  destruct (suppliedTenantId req) as [t|] eqn:Ht; simpl; [|done].
  destruct (bool_decide (t = "")) eqn:He; simpl; [done|].
  destruct (existsb _ _) eqn:Hex; simpl; [|done].
  intros [= <-]. apply existsb_exists in Hex as (m & Hin & Hm).
  exists t, m. split; [done|]. split.
  - by apply list_elem_of_In.
  - by apply bool_decide_eq_true_1 in Hm.
Qed.

End TenancyProps.

(** ** Tenant isolation of the dashboard summary *)

Section IsolationProps.
Import Tenancy Analytics.

(** C1 fails on the dashboard summary: the route does not run
    [enforceTenancy]. A user whose only membership is a tenant-admin
    membership in tenant B asks for the summary of tenant A and is answered
    200 with the device, alert, rollup and site figures of tenant A, while
    the device list of tenant A is refused to the same user and the device
    of tenant A is not found in the user's own tenant. *)
Theorem dashboard_summary_leaks_other_tenant :
  memberships Examples.userOfB = [mkMembership "tenant-b" TENANT_ADMIN]
  /\ (exists body,
        dashboardSummaryRoute 2000 0 "tenant-a" Examples.requestDashboardOfA
          Examples.twoTenants = Ok 200 body
        /\ totalDevices body = 1%nat
        /\ devicesByStatus body = [(D_ACTIVE, 1%nat)]
        /\ activeAlerts body = 1%nat
        /\ todayEnergyKwh body = Qc_of_Z 4
        /\ sitesCount body = 1%nat)
  /\ enforceTenancy Examples.requestDashboardOfA
     = Fail (ForbiddenError "Access denied: not a member of this tenant")
  /\ listDevicesRoute Examples.requestHeaderA Examples.twoTenants
     = Err (ForbiddenError "Access denied: not a member of this tenant")
  /\ getDeviceRoute "dev-a" Examples.requestHeaderB Examples.twoTenants
     = Err (NotFoundError "Device" (Some "dev-a")).
Proof.
  split; [reflexivity|]. split.
  - eexists. split; [reflexivity|].
    repeat split; try (vm_compute; reflexivity).
    apply Qc_is_canon. vm_compute. reflexivity.
  - repeat split; vm_compute; reflexivity.
Qed.

(** The summary is computed for the tenant of the path, whoever asks. *)
Lemma dashboard_summary_is_unguarded now today t req s :
  dashboardSummaryRoute now today t req s
  = Ok 200 (dashboardSummary now today t s).
Proof. reflexivity. Qed.

(** On the routes that run [enforceTenancy], the list of another tenant is
    refused with FORBIDDEN. *)
Lemma list_of_other_tenant_forbidden (req : Request) (u : User) (t : string)
    (s : Store) :
  isDeviceAuth req = false ->
  user req = Some u ->
  isPlatformAdmin u = false ->
  suppliedTenantId req = Some t ->
  t <> "" ->
  (forall m, m ∈ memberships u -> m_tenantId m <> t) ->
  exists e, listDevicesRoute req s = Err e /\ code e = "FORBIDDEN".
Proof.
  intros. unfold listDevicesRoute.
  erewrite cross_tenant_forbidden by eauto. by eexists.
Qed.

(** On those routes, a point lookup only answers with a device of a tenant
    in which the user holds a membership. *)
Lemma point_lookup_is_scoped (id : string) (req : Request) (u : User)
    (s : Store) (st : Z) (d : Device) :
  isDeviceAuth req = false ->
  user req = Some u ->
  isPlatformAdmin u = false ->
  getDeviceRoute id req s = Ok st d ->
  exists m, m ∈ memberships u /\ m_tenantId m = d_tenantId d.
Proof.
  intros Hdev Hu Hadm. unfold getDeviceRoute.
  destruct (enforceTenancy req) as [req1|e] eqn:He; [|done].
  destruct (enforceTenancy_member req req1 u Hdev Hu Hadm He)
    as (t & m & Ht & Hin & Hm).
  destruct (List.find _ _) as [d'|] eqn:Hf; [|done].
  intros [= _ <-]. apply find_some in Hf as [_ Hf].
  apply andb_prop in Hf as [_ Hf]. rewrite Ht in Hf. simpl in Hf.
  apply bool_decide_eq_true_1 in Hf. exists m. split; [done|]. congruence.
Qed.

End IsolationProps.

(** ** Entitlements *)

Section EntitlementProps.
Import Entitlements.



End EntitlementProps.


(** ** The command queue *)

Section CommandProps.
Import Commands.

Global Instance byRequestedAt_total : Total byRequestedAt.
Proof. intros a b. unfold byRequestedAt. lia. Qed.

Global Instance byRequestedAt_trans : Transitive byRequestedAt.
Proof. intros a b c. unfold byRequestedAt. lia. Qed.

Lemma markDelivered_id now c : c_id (markDelivered now c) = c_id c.
Proof. reflexivity. Qed.

Lemma acknowledge_id now body c : c_id (acknowledge now body c) = c_id c.
Proof. reflexivity. Qed.





Lemma findById_elem {A : Type} (key : A -> string) (id : string)
    (rows : list A) (r : A) :
  r ∈ rows -> key r = id -> is_Some (findById key id rows).
Proof.
  intros Hin Hk. unfold findById.
  destruct (List.find _ rows) eqn:Hf; [eauto|].
  eapply find_none in Hf; [|by apply list_elem_of_In].
  by rewrite bool_decide_eq_true_2 in Hf.
Qed.




Lemma pollPending_eq now id req s :
  deviceId req = Some id ->
  pollPending now id req s
  = let cs := merge_sort byRequestedAt
                (filter (fun c => queuedFor id c) (commands s)) in
    (if bool_decide (0 < length cs)%nat
     then with_commands
            (updateManyIn (map c_id cs) (markDelivered now) (commands s)) s
     else s, Ok 200 cs).
Proof.
  intros H. unfold pollPending. by rewrite bool_decide_eq_true_2.
Qed.





(** The two waiting commands are handed out oldest first and stored as
    DELIVERED. *)
Example poll_pending_example :
  let r := pollPending 5000 "dev-a" (Examples.requestOfDevice "dev-a")
             Examples.withCommands in
  map c_id (returned r.2) = ["cmd-1"; "cmd-2"]
  /\ map (fun c => (c_id c, c_status c, c_deliveredAt c)) (commands r.1)
     = [("cmd-2", C_DELIVERED, Some 5000); ("cmd-1", C_DELIVERED, Some 5000)].
Proof. vm_compute. done. Qed.

(** C10: the acknowledgement has no precondition on the status of the
    command. Whatever the status of a stored command of the authenticated
    device (QUEUED and never delivered, or already ACKED or FAILED), the
    acknowledgement answers 200 and every row of that command gets the
    reported status and [ackAt]. *)
Theorem ack_has_no_precondition now id commandId body req s c :
  deviceId req = Some id ->
  c ∈ commands s -> c_id c = commandId -> c_deviceId c = id ->
  exists s1 updated,
    ackCommand now id commandId body req s = (s1, Ok 200 updated)
    /\ c_id updated = commandId
    /\ c_status updated = ackStatus (ab_status body)
    /\ c_ackAt updated = Some now
    /\ acknowledge now body c ∈ commands s1
    /\ (forall c', c' ∈ commands s1 -> c_id c' = commandId ->
          c_status c' = ackStatus (ab_status body) /\ c_ackAt c' = Some now).
Proof.
  intros Hauth Hin Hid Hdev. unfold ackCommand.
  rewrite bool_decide_eq_true_2 by done. simpl.
  destruct (List.find _ (commands s)) as [c0|] eqn:Hfind.
  - apply find_some in Hfind as [_ Hc0].
    apply andb_prop in Hc0 as [Hc0 _]. apply bool_decide_eq_true_1 in Hc0.
    eexists _, _. split; [reflexivity|]. simpl.
    split; [done|]. split; [done|]. split; [done|]. split.
    + unfold updateWhere. apply list_elem_of_fmap. exists c.
      split; [|done]. rewrite bool_decide_eq_true_2; [done|congruence].
    + intros c' Hc' Hid'. unfold updateWhere in Hc'.
      apply list_elem_of_fmap in Hc' as (r & -> & Hr).
      case_bool_decide as Hr'; [done|]. congruence.
  - eapply find_none in Hfind; [|by apply list_elem_of_In].
    rewrite !bool_decide_eq_true_2 in Hfind by done. done.
Qed.

Lemma ack_has_no_precondition_witness :
  exists s1 updated,
    ackCommand 6000 "dev-a" "cmd-1" (mkAckCommandBody ACKED None)
      (Examples.requestOfDevice "dev-a") Examples.withCommands
    = (s1, Ok 200 updated)
    /\ c_id updated = "cmd-1"
    /\ c_status updated = C_ACKED
    /\ c_ackAt updated = Some 6000
    /\ acknowledge 6000 (mkAckCommandBody ACKED None)
         (Examples.queuedCommand "cmd-1" 100) ∈ commands s1
    /\ (forall c', c' ∈ commands s1 -> c_id c' = "cmd-1" ->
          c_status c' = C_ACKED /\ c_ackAt c' = Some 6000).
Proof.
  apply (ack_has_no_precondition 6000 "dev-a" "cmd-1"
           (mkAckCommandBody ACKED None) (Examples.requestOfDevice "dev-a")
           Examples.withCommands (Examples.queuedCommand "cmd-1" 100)).
  - reflexivity.
  - right. left.
  - reflexivity.
  - reflexivity.
Defined.

(** A command that was never delivered is acknowledged, and an acknowledged
    command is overwritten by a later report of failure. *)
Example ack_overwrites_example :
  let s1 := (ackCommand 6000 "dev-a" "cmd-1" (mkAckCommandBody ACKED None)
               (Examples.requestOfDevice "dev-a") Examples.withCommands).1 in
  let s2 := (ackCommand 7000 "dev-a" "cmd-1"
               (mkAckCommandBody FAILED (Some "late"))
               (Examples.requestOfDevice "dev-a") s1).1 in
  map (fun c => (c_id c, c_status c, c_deliveredAt c, c_ackAt c)) (commands s1)
  = [("cmd-2", C_QUEUED, None, None); ("cmd-1", C_ACKED, None, Some 6000)]
  /\ map (fun c => (c_id c, c_status c, c_ackAt c, c_errorMsg c)) (commands s2)
     = [("cmd-2", C_QUEUED, None, None);
        ("cmd-1", C_FAILED, Some 7000, Some "late")].
Proof. vm_compute. done. Qed.

End CommandProps.

(** ** The device-side OTA report *)

Section OtaProps.
Import Ota.

Lemma findById_updateWhere {A : Type} (key : A -> string) (id : string)
    (f : A -> A) (rows : list A) :
  (forall r, key (f r) = key r) ->
  findById key id (updateWhere key id f rows) = f <$> findById key id rows.
Proof.
  intros Hkey. unfold findById, updateWhere.
  induction rows as [|r rows IH]; [done|]. simpl.
  destruct (decide (key r = id)) as [Hr|Hr].
  - rewrite (bool_decide_eq_true_2 (key r = id)) by done.
    by rewrite (bool_decide_eq_true_2 (key (f r) = id)) by (by rewrite Hkey).
  - rewrite !(bool_decide_eq_false_2 (key r = id)) by done. exact IH.
Qed.




End OtaProps.

(** ** Telemetry ingest *)

Section TelemetryProps.
Import TelemetryIngest.
Variable StringToNumber : string -> option Qc.
Variable haversineKm : Qc -> Qc -> Qc -> Qc -> Qc.

#[local] Abbreviation ingest := (ingest StringToNumber haversineKm).
#[local] Abbreviation computeDerivedState := (computeDerivedState StringToNumber).
#[local] Abbreviation presentBelow := (presentBelow StringToNumber).
#[local] Abbreviation presentAbove := (presentAbove StringToNumber).
#[local] Abbreviation healthScore := (healthScore StringToNumber).

Lemma sites_reconcileSite_locked now deviceId device g site s :
  s_locationLock site = true ->
  sites (reconcileSite haversineKm now deviceId device g site s) = sites s.
Proof.
  intros Hlock. unfold reconcileSite, shouldUpdateSite. rewrite Hlock. simpl.
  destruct (s_lat site), (s_lon site); try done.
  by destruct (bool_decide _).
Qed.

(** C3: when the device of an ingest with a [geo] payload is bound to a
    site whose [locationLock] is set, the ingest leaves the Site table as it
    was: the site keeps its [lat], [lon], [locationSource] and
    [locationAccuracyM], whatever coordinates the device reports. *)
Theorem locked_site_is_not_moved now newId body req s device sid site g :
  tb_geo body = Some g ->
  findById d_id (tb_deviceId body) (devices s) = Some device ->
  d_siteId device = Some sid ->
  findById s_id sid (sites s) = Some site ->
  s_locationLock site = true ->
  let s1 := (ingest now newId body req s).1 in
  sites s1 = sites s
  /\ exists site1,
       findById s_id sid (sites s1) = Some site1
       /\ s_lat site1 = s_lat site /\ s_lon site1 = s_lon site
       /\ s_locationSource site1 = s_locationSource site
       /\ s_locationAccuracyM site1 = s_locationAccuracyM site.
Proof.
  intros Hgeo Hdev Hsid Hsite Hlock s1.
  assert (Hsites : sites s1 = sites s).
  { unfold s1, TelemetryIngest.ingest. destruct (negb _); [done|].
    rewrite Hdev, Hgeo, Hsid. simpl. rewrite Hsite.
    destruct (bool_decide (is_Some _)); [done|]. simpl.
    destruct (negb (bool_decide (sid = ""))); [|done].
    by rewrite sites_reconcileSite_locked. }
  split; [done|]. exists site. by rewrite Hsites.
Qed.

Lemma assign_lookup_ne k k' v (st : gmap string JsVal) :
  k <> k' -> assign k v st !! k' = st !! k'.
Proof.
  intros Hne. unfold assign. destruct v.
  - by rewrite lookup_insert_ne.
  - by rewrite lookup_delete_ne.
Qed.



Lemma computedFields_lookup_ne metrics (st : gmap string JsVal) k :
  k <> "isOnline" -> k <> "lastRssi" -> k <> "lastTankTempC" ->
  k <> "lastAmbientTempC" -> k <> "heaterOn" -> k <> "lastPowerW" ->
  computedFields metrics st !! k = st !! k.
Proof.
  intros. unfold computedFields. cbv zeta.
  rewrite !assign_lookup_ne by done. by rewrite lookup_insert_ne.
Qed.


Lemma geoFields_lookup_ne geo (st : gmap string JsVal) k :
  k <> "lastGeoLat" -> k <> "lastGeoLon" -> k <> "lastGeoSource" ->
  geoFields geo st !! k = st !! k.
Proof.
  intros. unfold geoFields. destruct geo; [|done].
  by rewrite !lookup_insert_ne.
Qed.



Lemma presentBelow_num (metrics : gmap string JsVal) k q c :
  metrics !! k = Some (JNum q) ->
  presentBelow metrics k c = bool_decide (q < Qc_of_Z c)%Qc.
Proof.
  intros H. unfold TelemetryIngest.presentBelow. rewrite H. reflexivity.
Qed.

Lemma presentAbove_num (metrics : gmap string JsVal) k q c :
  metrics !! k = Some (JNum q) ->
  presentAbove metrics k c = bool_decide (Qc_of_Z c < q)%Qc.
Proof.
  intros H. unfold TelemetryIngest.presentAbove. rewrite H. reflexivity.
Qed.

Lemma presentBelow_absent (metrics : gmap string JsVal) k c :
  metrics !! k = None -> presentBelow metrics k c = false.
Proof. intros H. unfold TelemetryIngest.presentBelow. by rewrite H. Qed.

Lemma presentAbove_absent (metrics : gmap string JsVal) k c :
  metrics !! k = None -> presentAbove metrics k c = false.
Proof. intros H. unfold TelemetryIngest.presentAbove. by rewrite H. Qed.





End TelemetryProps.

Lemma locked_site_is_not_moved_witness :
  let s1 := (TelemetryIngest.ingest Examples.noNumericStrings
               Examples.coarseDistance 1800 "t-1" Examples.readingOfA
               (Examples.requestOfDevice "dev-a") Examples.twoTenants).1 in
  sites s1 = sites Examples.twoTenants
  /\ exists site1,
       findById s_id "site-a" (sites s1) = Some site1
       /\ s_lat site1 = s_lat Examples.siteOfA
       /\ s_lon site1 = s_lon Examples.siteOfA
       /\ s_locationSource site1 = s_locationSource Examples.siteOfA
       /\ s_locationAccuracyM site1 = s_locationAccuracyM Examples.siteOfA.
Proof.
  apply (locked_site_is_not_moved Examples.noNumericStrings
           Examples.coarseDistance 1800 "t-1" Examples.readingOfA
           (Examples.requestOfDevice "dev-a") Examples.twoTenants
           Examples.deviceOfA "site-a" Examples.siteOfA Examples.farAway);
    reflexivity.
Defined.

(** Scenario S3: the ingest is accepted, the locked site stays where it was
    and the audit log records the jump. *)
Example locked_site_example :
  let r := TelemetryIngest.ingest Examples.noNumericStrings
             Examples.coarseDistance 1800 "t-1" Examples.readingOfA
             (Examples.requestOfDevice "dev-a") Examples.twoTenants in
  (exists resp, r.2 = Ok 201 resp)
  /\ sites r.1 = [Examples.siteOfA]
  /\ map al_action (auditLogs r.1) = ["DEVICE_GEO_LARGE_JUMP"].
Proof.
  split; [eexists; vm_compute; reflexivity|].
  split; vm_compute; reflexivity.
Qed.


(** The three deductions add up to 70 and leave a score of 30; the reading
    of scenario S2 keeps the score at 100. *)
Example health_score_example :
  TelemetryIngest.computeDerivedState Examples.noNumericStrings
    Examples.poorMetrics None ∅ !! "healthScore" = Some (num 30)
  /\ TelemetryIngest.computeDerivedState Examples.noNumericStrings
       Examples.healthyMetrics None ∅ !! "healthScore" = Some (num 100)
  /\ TelemetryIngest.computeDerivedState Examples.noNumericStrings
       Examples.healthyMetrics None ∅ !! "lastTankTempC"
     = Some (JNum (Q2Qc (582 # 10)))
  /\ TelemetryIngest.computeDerivedState Examples.noNumericStrings
       Examples.healthyMetrics None ∅ !! "last_tankTempC"
     = Some (JNum (Q2Qc (582 # 10))).
Proof. repeat split; vm_compute; reflexivity. Qed.

(** ** The notification queue *)

Section NotificationProps.
Import Notifications.

(** C7 as stated fails on "oldest first": the run asks the store for 100
    queued events in no order. With 101 events queued, of which the store
    returns the oldest last, the run selects the hundred others; the oldest
    stays QUEUED, although it is the first of the oldest-first selection. *)
Lemma oldest_event_is_not_selected :
  let oldest := Examples.queuedEvent "n-oldest" "ch-1" 1000 in
  map n_id (selectQueued Examples.backlog)
  = map (fun i : nat => "n-" ++ pretty i) (seq 1 100)
  /\ head (selectOldestFirst_spec Examples.backlog) = Some oldest
  /\ selectQueued Examples.backlog <> selectOldestFirst_spec Examples.backlog
  /\ findById n_id "n-oldest"
       (notificationEvents
          (processNotificationQueue 5000 Examples.withBacklog).1)
     = Some oldest.
Proof.
  split; [vm_compute; reflexivity|]. split; [vm_compute; reflexivity|].
  split; [|vm_compute; reflexivity].
  intros H. apply (f_equal head) in H. vm_compute in H. discriminate.
Qed.

Lemma findById_updateWhere_ne {A : Type} (key : A -> string) (id id' : string)
    (f : A -> A) (rows : list A) :
  (forall r, key (f r) = key r) -> id <> id' ->
  findById key id' (updateWhere key id f rows) = findById key id' rows.
Proof.
  intros Hkey Hne. unfold findById, updateWhere.
  induction rows as [|r rows IH]; [done|]. simpl.
  destruct (decide (key r = id)) as [Hr|Hr].
  - rewrite (bool_decide_eq_true_2 (key r = id)) by done.
    rewrite (bool_decide_eq_false_2 (key (f r) = id')) by (rewrite Hkey; congruence).
    by rewrite (bool_decide_eq_false_2 (key r = id')) by congruence.
  - rewrite (bool_decide_eq_false_2 (key r = id)) by done.
    by rewrite IH.
Qed.

Lemma findById_NoDup {A : Type} (key : A -> string) (rows : list A) (r : A) :
  NoDup (map key rows) -> r ∈ rows -> findById key (key r) rows = Some r.
Proof.
  unfold findById. induction rows as [|x rows IH]; intros Hnd Hin.
  - by apply elem_of_nil in Hin.
  - simpl in *. apply NoDup_cons in Hnd as [Hx Hnd].
    apply elem_of_cons in Hin as [->|Hin].
    + by rewrite bool_decide_eq_true_2.
    + rewrite bool_decide_eq_false_2; [by apply IH|].
      intros Heq. apply Hx. rewrite Heq. apply list_elem_of_fmap. eauto.
Qed.

Lemma processOne_rows now chs acc event :
  (processOne now chs acc event).1
  = updateWhere n_id (n_id event)
      (fun r => match send (findById ch_id (n_channelId event) chs) with
                | None => markSent now r
                | Some msg => markFailed msg r
                end) acc.1.
Proof. unfold processOne. by destruct (send _). Qed.

Lemma processOne_count now chs acc event :
  (processOne now chs acc event).2
  = if delivered chs event then S acc.2 else acc.2.
Proof. unfold processOne, delivered. by destruct (send _). Qed.

(** The rows whose id is none of the processed ones stay as they are. *)
Lemma foldl_processOne_other now chs q acc id :
  id ∉ map n_id q ->
  findById n_id id (foldl (processOne now chs) acc q).1 = findById n_id id acc.1.
Proof.
  revert acc. induction q as [|x q IH]; intros acc Hid; [done|].
  simpl in *. apply not_elem_of_cons in Hid as [Hne Hid].
  rewrite IH by done. rewrite processOne_rows.
  apply findById_updateWhere_ne; [|done].
  intros r. by destruct (send _).
Qed.

(** A processed event is left in the state that its own iteration wrote. *)
Lemma foldl_processOne_outcome now chs q acc e :
  NoDup (map n_id q) -> e ∈ q -> findById n_id (n_id e) acc.1 = Some e ->
  findById n_id (n_id e) (foldl (processOne now chs) acc q).1
  = Some (outcome now chs e).
Proof.
  revert acc. induction q as [|x q IH]; intros acc Hnd Hin Hfind.
  - by apply elem_of_nil in Hin.
  - simpl in *. apply NoDup_cons in Hnd as [Hx Hnd].
    assert (Hkey : forall r,
              n_id match send (findById ch_id (n_channelId x) chs) with
                   | None => markSent now r
                   | Some msg => markFailed msg r
                   end = n_id r) by (intros r; by destruct (send _)).
    destruct (decide (n_id x = n_id e)) as [Heq|Hne].
    + assert (x = e) as ->.
      { apply elem_of_cons in Hin as [->|Hin]; [done|].
        destruct Hx. rewrite Heq. apply list_elem_of_fmap. eauto. }
      rewrite foldl_processOne_other by done.
      rewrite processOne_rows, findById_updateWhere by done.
      rewrite Hfind. unfold outcome. simpl. by destruct (send _).
    + apply elem_of_cons in Hin as [->|Hin]; [done|].
      apply IH; [done|done|].
      rewrite processOne_rows, findById_updateWhere_ne by done. done.
Qed.

Lemma foldl_processOne_count now chs q acc :
  (foldl (processOne now chs) acc q).2
  = (acc.2 + length (filter (fun e => delivered chs e) q))%nat.
Proof.
  revert acc. induction q as [|x q IH]; intros acc; simpl; [lia|].
  rewrite IH, processOne_count.
  destruct (delivered chs x) eqn:Hx.
  - rewrite filter_cons_True by (rewrite Hx; exact I). simpl. lia.
  - rewrite filter_cons_False by (rewrite Hx; intros []). simpl. lia.
Qed.

Lemma selectQueued_sublist rows : selectQueued rows `sublist_of` rows.
Proof.
  unfold selectQueued. etrans; [apply sublist_take|apply sublist_filter].
Qed.

Lemma NoDup_key_inj {A : Type} (key : A -> string) (rows : list A) x y :
  NoDup (map key rows) -> x ∈ rows -> y ∈ rows -> key x = key y -> x = y.
Proof.
  intros Hnd Hx Hy Hk. pose proof (findById_NoDup key rows x Hnd Hx) as H1.
  pose proof (findById_NoDup key rows y Hnd Hy) as H2.
  rewrite Hk in H1. congruence.
Qed.

(** C7, as the code has it: a run selects the first QUEUED events that the
    store returns, at most 100, in the order in which it returns them;
    every selected event ends SENT with [sentAt] set when its delivery
    succeeds and FAILED with [errorMsg] set when it throws; the other rows
    are left as they are; the run itself does not fail and returns the
    number of events sent. *)
Theorem notification_queue_run now s :
  NoDup (map n_id (notificationEvents s)) ->
  let queued := selectQueued (notificationEvents s) in
  let r := processNotificationQueue now s in
  (length queued <= 100)%nat
  /\ queued `prefix_of`
       filter (fun n => bool_decide (n_status n = N_QUEUED))
         (notificationEvents s)
  /\ (forall e, e ∈ queued ->
        e ∈ notificationEvents s /\ n_status e = N_QUEUED)
  /\ (forall e, e ∈ queued ->
        exists e',
          findById n_id (n_id e) (notificationEvents r.1) = Some e'
          /\ e' = outcome now (channels s) e
          /\ match send (findById ch_id (n_channelId e) (channels s)) with
             | None => n_status e' = N_SENT /\ n_sentAt e' = Some now
             | Some msg => n_status e' = N_FAILED /\ n_errorMsg e' = Some msg
             end)
  /\ (forall e, e ∈ notificationEvents s -> e ∉ queued ->
        findById n_id (n_id e) (notificationEvents r.1) = Some e)
  /\ r.2 = length (filter (fun e => delivered (channels s) e) queued).
Proof.
  intros Hnd queued r.
  pose proof (selectQueued_sublist (notificationEvents s)) as Hsub.
  fold queued in Hsub.
  assert (Hin : forall e, e ∈ queued -> e ∈ notificationEvents s).
  { intros e He. by eapply elem_of_sublist. }
  assert (Hndq : NoDup (map n_id queued)).
  { eapply sublist_NoDup; [exact Hnd|]. by apply (fmap_sublist n_id). }
  split; [|split; [|split; [|split; [|split]]]].
  - unfold queued, selectQueued. rewrite length_take. lia.
  - unfold queued, selectQueued. apply prefix_take.
  - intros e He. split; [by apply Hin|].
    unfold queued, selectQueued in He. apply elem_of_take in He as (i & He & _).
    apply list_elem_of_lookup_2 in He.
    apply list_elem_of_filter in He as [He _].
    by apply bool_decide_unpack in He.
  - intros e He. exists (outcome now (channels s) e). split; [|split; [done|]].
    + unfold r, processNotificationQueue. simpl.
      apply foldl_processOne_outcome; [done|done|]. simpl.
      apply findById_NoDup; auto.
    + unfold outcome. by destruct (send _).
  - intros e He Hne. unfold r, processNotificationQueue. simpl.
    rewrite foldl_processOne_other.
    + simpl. by apply findById_NoDup.
    + intros Hid. apply list_elem_of_fmap in Hid as (q & Hq & Hqin).
      apply Hne. rewrite (NoDup_key_inj n_id (notificationEvents s) e q); auto.
  - unfold r, processNotificationQueue. simpl.
    by rewrite foldl_processOne_count.
Qed.

Lemma notification_queue_run_witness :
  let queued := selectQueued (notificationEvents Examples.withTwoQueued) in
  let r := processNotificationQueue 5000 Examples.withTwoQueued in
  (length queued <= 100)%nat
  /\ queued `prefix_of`
       filter (fun n => bool_decide (n_status n = N_QUEUED))
         (notificationEvents Examples.withTwoQueued)
  /\ (forall e, e ∈ queued ->
        e ∈ notificationEvents Examples.withTwoQueued
        /\ n_status e = N_QUEUED)
  /\ (forall e, e ∈ queued ->
        exists e',
          findById n_id (n_id e) (notificationEvents r.1) = Some e'
          /\ e' = outcome 5000 (channels Examples.withTwoQueued) e
          /\ match send (findById ch_id (n_channelId e)
                           (channels Examples.withTwoQueued)) with
             | None => n_status e' = N_SENT /\ n_sentAt e' = Some 5000
             | Some msg => n_status e' = N_FAILED /\ n_errorMsg e' = Some msg
             end)
  /\ (forall e, e ∈ notificationEvents Examples.withTwoQueued ->
        e ∉ queued ->
        findById n_id (n_id e) (notificationEvents r.1) = Some e)
  /\ r.2 = length (filter (fun e => delivered
                                      (channels Examples.withTwoQueued) e)
                     queued).
Proof.
  apply (notification_queue_run 5000 Examples.withTwoQueued).
  apply (bool_decide_unpack (NoDup _)). vm_compute. exact I.
Defined.

(** The webhook event is sent, the event of the channel without a
    configuration fails, and the run counts one. *)
Example notification_queue_example :
  let r := processNotificationQueue 5000 Examples.withTwoQueued in
  map (fun n => (n_id n, n_status n, n_sentAt n, n_errorMsg n))
    (notificationEvents r.1)
  = [("n-1", N_SENT, Some 5000, None); ("n-0", N_SENT, Some 50, None);
     ("n-2", N_FAILED, None,
      Some "Cannot read properties of null (reading 'to')")]
  /\ r.2 = 1%nat.
Proof. vm_compute. done. Qed.

End NotificationProps.

(** ** The alert sweep *)

Section AlertProps.
Import Alerts.

(** With a numeric temperature and a numeric threshold, neither of them
    zero, the OVER_TEMP case fires exactly when the temperature is strictly
    above the threshold. *)
Lemma overTemp_numeric stn config rule device s tw st (t th : Qc) :
  findById tw_deviceId (d_id device) (twins s) = Some tw ->
  tw_derivedState tw = Some st ->
  st !! "lastTankTempC" = Some (JNum t) ->
  r_params rule !! "thresholdC" = Some (JNum th) ->
  t <> 0%Qc -> th <> 0%Qc ->
  is_Some (overTemp stn config rule device s) <-> (th < t)%Qc.
Proof.
  intros Htw Hst Ht Hth Ht0 Hth0. unfold overTemp.
  rewrite Htw. simpl. rewrite Hst. simpl. rewrite Ht, Hth.
  unfold js_or, js_gt, js_lt. simpl.
  rewrite (bool_decide_eq_false_2 (th = 0%Qc)) by done.
  rewrite (bool_decide_eq_false_2 (t = 0%Qc)) by done. simpl.
  case_bool_decide as Hlt; split; intros H; try done.
Qed.

(** X29: Once an alert of a device and a rule is stored, in whatever status,
    the sweep opens no further alert for them: either the lookup finds it
    OPEN or ACKNOWLEDGED, or the unique index rejects the new row. *)
Lemma stored_alert_blocks_new_one stn config uuid other now rule device s e :
  e ∈ alertEvents s ->
  ae_dedupeKey e = Some (dedupeKeyOf device rule) ->
  evaluateDevice stn config uuid other now rule device s = (s, false).
Proof.
  intros Hin Hkey. unfold evaluateDevice.
  destruct (List.find _ (alertEvents s)); [done|].
  destruct (match r_type rule with OVER_TEMP => _ | _ => _ end); [|done].
  unfold createAlertEvent. destruct (existsb _ _); [done|].
  match goal with
  | |- context [existsb ?f ?l] => assert (existsb f l = true) as Hdup
  end.
  { apply existsb_exists. exists e. split; [by apply list_elem_of_In|].
    simpl. rewrite Hkey. by rewrite bool_decide_eq_true_2. }
  by rewrite Hdup.
Qed.

(** At the threshold itself the rule does not fire. *)
Lemma overTemp_at_threshold :
  overTemp Examples.noNumericStrings defaultConfig (Examples.overTempRule 85)
    Examples.deviceOfA (Examples.overheating 85 85 []) = None.
Proof. vm_compute. reflexivity. Qed.

(** C8 fails on the code: the sweep looks for an OPEN or ACKNOWLEDGED alert
    of the dedupe key only, but the unique index on [dedupeKey] rejects the
    new row as soon as any alert of the key is stored. With a CLOSED alert
    of the device and the rule, a tank at 90 against a threshold of 85
    opens no alert, sweep after sweep; without the closed alert the same
    reading opens one. *)
Theorem over_temp_blocked_by_closed_alert :
  let s := Examples.overheating 85 90 [Examples.closedAlertOfA] in
  let sweep := evaluateAlerts Examples.noNumericStrings defaultConfig
                 Examples.freshIds Examples.neverFires 5000 in
  List.find (isOpenFor (dedupeKeyOf Examples.deviceOfA (Examples.overTempRule 85)))
    (alertEvents s) = None
  /\ overTemp_spec (Some (Qc_of_Z 85)) (Some (Qc_of_Z 90)) = true
  /\ sweep s = (s, 0%nat)
  /\ (sweep (Examples.overheating 85 90 [])).2 = 1%nat
  /\ map (fun e => (ae_dedupeKey e, ae_status e))
       (alertEvents (sweep (Examples.overheating 85 90 [])).1)
     = [(Some "dev-a:rule-ot", A_OPEN)].
Proof. repeat split; vm_compute; reflexivity. Qed.

(** The two further departures of the OVER_TEMP case: a [thresholdC] of 0
    is replaced by the default of 85, and a tank temperature of 0 counts as
    absent. *)
Lemma over_temp_zero_is_unset :
  let sweep := evaluateAlerts Examples.noNumericStrings defaultConfig
                 Examples.freshIds Examples.neverFires 5000 in
  overTemp_spec (Some (Qc_of_Z 0)) (Some (Qc_of_Z 50)) = true
  /\ (sweep (Examples.overheating 0 50 [])).2 = 0%nat
  /\ overTemp_spec (Some (Qc_of_Z (-5))) (Some (Qc_of_Z 0)) = true
  /\ (sweep (Examples.overheating (-5) 0 [])).2 = 0%nat.
Proof. repeat split; vm_compute; reflexivity. Qed.

End AlertProps.

(** * Further properties of the code *)

(** ** Tenancy and roles *)

Section MoreTenancyProps.
Import Tenancy.

Lemma existsb_member_true (u : User) (t : string) (m : Membership) :
  m ∈ memberships u -> m_tenantId m = t ->
  existsb (fun m => bool_decide (m_tenantId m = t)) (memberships u) = true.
Proof.
  intros Hin Hm. apply existsb_exists. exists m.
  split; [by apply list_elem_of_In|]. by apply bool_decide_eq_true_2.
Qed.

(** X1: A user without the platform role passes [enforceTenancy] exactly
    when the user holds a membership in the tenant that the request names;
    the request then continues with that tenant as [req.tenantId]. *)
Theorem tenancy_passes_iff_member (req : Request) (u : User) (t : string) :
  isDeviceAuth req = false ->
  user req = Some u ->
  isPlatformAdmin u = false ->
  suppliedTenantId req = Some t ->
  t <> "" ->
  ((exists m, m ∈ memberships u /\ m_tenantId m = t) <->
   enforceTenancy req = Continue (set_tenantId t req))
  /\ ((forall m, m ∈ memberships u -> m_tenantId m <> t) <->
      exists e, enforceTenancy req = Fail e /\ code e = "FORBIDDEN").
Proof.
  intros Hdev Hu Hadm Ht Hne.
  assert (Hyes : (exists m, m ∈ memberships u /\ m_tenantId m = t) ->
                 enforceTenancy req = Continue (set_tenantId t req)).
  { intros (m & Hin & Hm). unfold enforceTenancy.
    rewrite Hdev, Hu, Hadm, Ht. simpl.
    rewrite (bool_decide_eq_false_2 (t = "")) by done. simpl.
    by rewrite (existsb_member_true u t m). }
  assert (Hno : (forall m, m ∈ memberships u -> m_tenantId m <> t) ->
                enforceTenancy req
                = Fail (ForbiddenError
                          "Access denied: not a member of this tenant"))
    by (intros; by apply (cross_tenant_forbidden req u t)).
  assert (Hdec : (exists m, m ∈ memberships u /\ m_tenantId m = t)
                 \/ (forall m, m ∈ memberships u -> m_tenantId m <> t)).
  { destruct (existsb (fun m => bool_decide (m_tenantId m = t))
                (memberships u)) eqn:Hex.
    - left. apply existsb_exists in Hex as (m & Hin & Hm).
      exists m. split; [by apply list_elem_of_In|].
      by apply bool_decide_eq_true_1 in Hm.
    - right. intros m Hin Hm.
      rewrite (existsb_member_true u t m Hin Hm) in Hex. done. }
  split; split.
  - exact Hyes.
  - intros Hc. destruct Hdec as [?|Hn]; [done|].
    rewrite (Hno Hn) in Hc. done.
  - intros Hn. rewrite (Hno Hn). by eexists.
  - intros (e & He & _). destruct Hdec as [Hy|?]; [|done].
    rewrite (Hyes Hy) in He. done.
Qed.

Lemma tenancy_passes_iff_member_witness :
  ((exists m, m ∈ memberships MoreExamples.installerOfA
              /\ m_tenantId m = "tenant-a") <->
   enforceTenancy (MoreExamples.requestOf MoreExamples.installerOfA "tenant-a")
   = Continue (set_tenantId "tenant-a"
                 (MoreExamples.requestOf MoreExamples.installerOfA "tenant-a")))
  /\ ((forall m, m ∈ memberships MoreExamples.installerOfA ->
                 m_tenantId m <> "tenant-a") <->
      exists e,
        enforceTenancy
          (MoreExamples.requestOf MoreExamples.installerOfA "tenant-a")
        = Fail e /\ code e = "FORBIDDEN").
Proof.
  apply (tenancy_passes_iff_member
           (MoreExamples.requestOf MoreExamples.installerOfA "tenant-a")
           MoreExamples.installerOfA "tenant-a"); try reflexivity.
  discriminate.
Defined.

(** X2: The tenant of the path wins over the header: a member of the tenant
    that the header names is refused when the path names a tenant in which
    the user holds no membership. *)
Theorem header_cannot_override_path (req : Request) (u : User)
    (t h : string) :
  isDeviceAuth req = false ->
  user req = Some u ->
  isPlatformAdmin u = false ->
  params req !! "tenantId" = Some t ->
  t <> "" ->
  headers req !! "x-tenant-id" = Some h ->
  (exists m, m ∈ memberships u /\ m_tenantId m = h) ->
  (forall m, m ∈ memberships u -> m_tenantId m <> t) ->
  exists e, enforceTenancy req = Fail e /\ code e = "FORBIDDEN"
            /\ statusCode e = 403.
Proof.
  intros Hdev Hu Hadm Hp Hne Hh _ Hno.
  rewrite (cross_tenant_forbidden req u t); [by eexists|done..| |done|done].
  unfold suppliedTenantId. rewrite Hp. unfold or_str at 1. simpl.
  by rewrite (bool_decide_eq_false_2 (t = "")).
Qed.

Lemma header_cannot_override_path_witness :
  exists e,
    enforceTenancy
      (mkRequest (Some Examples.userOfB) None None false
         {["tenantId" := "tenant-a"]} {["x-tenant-id" := "tenant-b"]} ∅)
    = Fail e /\ code e = "FORBIDDEN" /\ statusCode e = 403.
Proof.
  apply (header_cannot_override_path
           (mkRequest (Some Examples.userOfB) None None false
              {["tenantId" := "tenant-a"]} {["x-tenant-id" := "tenant-b"]} ∅)
           Examples.userOfB "tenant-a" "tenant-b"); try reflexivity.
  - discriminate.
  - eexists. split; [left|reflexivity].
  - intros m Hm. apply list_elem_of_singleton in Hm as ->. discriminate.
Defined.

(** X3: A PLATFORM_ADMIN membership in any one tenant opens every tenant and
    every role gate: the request passes [enforceTenancy] for whatever tenant
    it names and then [requireRoles] for whatever roles the route lists,
    even none. *)
Theorem platform_admin_passes_everywhere (req : Request) (u : User)
    (t : string) (roles : list MembershipRole) :
  isDeviceAuth req = false ->
  user req = Some u ->
  isPlatformAdmin u = true ->
  suppliedTenantId req = Some t ->
  t <> "" ->
  enforceTenancy req = Continue (set_tenantId t req)
  /\ requireRoles roles (set_tenantId t req) = Continue (set_tenantId t req).
Proof.
  intros Hdev Hu Hadm Ht Hne. split.
  - unfold enforceTenancy. rewrite Hdev, Hu, Hadm, Ht. simpl.
    by rewrite (bool_decide_eq_false_2 (t = "")).
  - unfold requireRoles. simpl. by rewrite Hu, Hadm.
Qed.

Lemma platform_admin_passes_everywhere_witness :
  enforceTenancy (MoreExamples.requestOf MoreExamples.platformAdmin "tenant-b")
  = Continue (set_tenantId "tenant-b"
                (MoreExamples.requestOf MoreExamples.platformAdmin "tenant-b"))
  /\ requireRoles []
       (set_tenantId "tenant-b"
          (MoreExamples.requestOf MoreExamples.platformAdmin "tenant-b"))
     = Continue (set_tenantId "tenant-b"
                   (MoreExamples.requestOf MoreExamples.platformAdmin
                      "tenant-b")).
Proof.
  apply (platform_admin_passes_everywhere
           (MoreExamples.requestOf MoreExamples.platformAdmin "tenant-b")
           MoreExamples.platformAdmin "tenant-b" []); try reflexivity.
  discriminate.
Defined.

Lemma find_NoDup_key {A : Type} (key : A -> string) (rows : list A) (r : A) :
  NoDup (map key rows) -> r ∈ rows ->
  List.find (fun x => bool_decide (key x = key r)) rows = Some r.
Proof.
  induction rows as [|x rows IH]; intros Hnd Hin.
  - by apply elem_of_nil in Hin.
  - simpl in *. apply NoDup_cons in Hnd as [Hx Hnd].
    apply elem_of_cons in Hin as [->|Hin].
    + by rewrite bool_decide_eq_true_2.
    + rewrite bool_decide_eq_false_2; [by apply IH|].
      intros Heq. apply Hx. rewrite Heq. apply list_elem_of_fmap. eauto.
Qed.

Lemma find_pointwise {A : Type} (f g : A -> bool) (l : list A) :
  (forall x, f x = g x) -> List.find f l = List.find g l.
Proof.
  intros H. induction l as [|x l IH]; [done|]. simpl. by rewrite H, IH.
Qed.

(** X4: After [enforceTenancy], the role gate of a user without the platform
    role is decided by the role of the user's membership in the active
    tenant: it passes when that role is listed and fails with FORBIDDEN when
    it is not. *)
Theorem role_gate_follows_membership (req : Request) (u : User) (t : string)
    (m : Membership) (roles : list MembershipRole) :
  user req = Some u ->
  isPlatformAdmin u = false ->
  tenantId req = Some t ->
  t <> "" ->
  NoDup (map m_tenantId (memberships u)) ->
  m ∈ memberships u ->
  m_tenantId m = t ->
  (m_role m ∈ roles -> requireRoles roles req = Continue req)
  /\ (m_role m ∉ roles ->
      exists e, requireRoles roles req = Fail e /\ code e = "FORBIDDEN"
                /\ statusCode e = 403).
Proof.
  intros Hu Hadm Ht Hne Hnd Hin Hm.
  assert (Hor : forall x, or_str (Some t) x = Some t).
  { intros x. unfold or_str. simpl.
    by rewrite (bool_decide_eq_false_2 (t = "")). }
  unfold requireRoles. rewrite Hu, Hadm, Ht. cbv zeta. rewrite !Hor. simpl.
  rewrite (bool_decide_eq_false_2 (t = "")) by done. simpl.
  assert (List.find (fun m0 => bool_decide (Some (m_tenantId m0) = Some t))
            (memberships u) = Some m) as ->.
  { rewrite <- (find_NoDup_key m_tenantId (memberships u) m Hnd Hin).
    apply find_pointwise. intros x. rewrite Hm.
    apply bool_decide_ext. split; congruence. }
  split.
  - intros Hr. by rewrite bool_decide_eq_true_2.
  - intros Hr. rewrite bool_decide_eq_false_2 by done. simpl. by eexists.
Qed.

Lemma role_gate_follows_membership_witness :
  (INSTALLER ∈ [PLATFORM_ADMIN; TENANT_ADMIN] ->
   requireRoles [PLATFORM_ADMIN; TENANT_ADMIN]
     (set_tenantId "tenant-a"
        (MoreExamples.requestOf MoreExamples.installerOfA "tenant-a"))
   = Continue (set_tenantId "tenant-a"
                 (MoreExamples.requestOf MoreExamples.installerOfA "tenant-a")))
  /\ (INSTALLER ∉ [PLATFORM_ADMIN; TENANT_ADMIN] ->
      exists e,
        requireRoles [PLATFORM_ADMIN; TENANT_ADMIN]
          (set_tenantId "tenant-a"
             (MoreExamples.requestOf MoreExamples.installerOfA "tenant-a"))
        = Fail e /\ code e = "FORBIDDEN" /\ statusCode e = 403).
Proof.
  apply (role_gate_follows_membership
           (set_tenantId "tenant-a"
              (MoreExamples.requestOf MoreExamples.installerOfA "tenant-a"))
           MoreExamples.installerOfA "tenant-a"
           (mkMembership "tenant-a" INSTALLER)); try reflexivity.
  - discriminate.
  - apply (bool_decide_unpack (NoDup _)). vm_compute. exact I.
  - left.
Defined.

(** X5: A request of a user that has passed [enforceTenancy] always has a
    tenant filter: [getTenantFilter] does not throw, and for a user without
    the platform role the filter is a tenant in which the user holds a
    membership. *)
Theorem tenant_filter_after_tenancy (req req1 : Request) (u : User) :
  isDeviceAuth req = false ->
  user req = Some u ->
  enforceTenancy req = Continue req1 ->
  exists f,
    TenantFilter.getTenantFilter req1 = inl f
    /\ (isPlatformAdmin u = false ->
        exists t m, f = TenantFilter.OfTenant t /\ m ∈ memberships u
                    /\ m_tenantId m = t).
Proof.
  intros Hdev Hu He.
  assert (Huser : user req1 = Some u).
  { revert He. unfold enforceTenancy. rewrite Hdev, Hu.
    repeat (case_match; simpl); intros [= <-]; done. }
  destruct (isPlatformAdmin u) eqn:Hadm.
  - unfold TenantFilter.getTenantFilter. rewrite Huser. simpl. rewrite Hadm.
    destruct (tenantId req1) as [t|]; [destruct (truthy_str _)|];
      eexists; (split; [reflexivity|done]).
  - destruct (enforceTenancy_member req req1 u Hdev Hu Hadm He)
      as (t & m & Ht & Hin & Hm).
    assert (t <> "") as Hne.
    { revert He Ht. unfold enforceTenancy. rewrite Hdev, Hu, Hadm. simpl.
      destruct (suppliedTenantId req) as [t'|] eqn:Hs; simpl; [|done].
      destruct (bool_decide (t' = "")) eqn:Hb; simpl; [done|].
      destruct (existsb _ _); simpl; [|done].
      intros [= <-] [= <-]. by apply bool_decide_eq_false_1 in Hb. }
    unfold TenantFilter.getTenantFilter. rewrite Ht. simpl.
    rewrite (bool_decide_eq_false_2 (t = "")) by done. simpl.
    eexists. split; [reflexivity|]. intros _. eauto.
Qed.

Lemma tenant_filter_after_tenancy_witness :
  exists f,
    TenantFilter.getTenantFilter
      (set_tenantId "tenant-a"
         (MoreExamples.requestOf MoreExamples.installerOfA "tenant-a"))
    = inl f
    /\ (isPlatformAdmin MoreExamples.installerOfA = false ->
        exists t m, f = TenantFilter.OfTenant t
                    /\ m ∈ memberships MoreExamples.installerOfA
                    /\ m_tenantId m = t).
Proof.
  apply (tenant_filter_after_tenancy
           (MoreExamples.requestOf MoreExamples.installerOfA "tenant-a")
           _ MoreExamples.installerOfA); reflexivity.
Defined.

End MoreTenancyProps.

(** ** Device authentication *)

Section DeviceAuthProps.
Import DeviceAuth.
Variable hmacSha256Hex : string -> string -> string.
Variable deviceHmacSecret : string.

#[local] Abbreviation authenticateDevice :=
  (authenticateDevice hmacSha256Hex deviceHmacSecret).
#[local] Abbreviation deviceToken :=
  (deviceToken hmacSha256Hex deviceHmacSecret).

Lemma splitOn_without (sep : Ascii.ascii) (s : string) :
  hasChar sep s = false -> splitOn sep s = [s].
Proof.
  induction s as [|c s IH]; [done|]. simpl. intros H.
  apply orb_false_elim in H as [Hc Hs].
  rewrite Hc. by rewrite IH.
Qed.

Lemma splitOn_two (sep : Ascii.ascii) (a b : string) :
  hasChar sep a = false -> hasChar sep b = false ->
  splitOn sep (a ++ String sep b) = [a; b].
Proof.
  intros Ha Hb. induction a as [|c a IH]; simpl in *.
  - rewrite bool_decide_eq_true_2 by done. by rewrite splitOn_without.
  - apply orb_false_elim in Ha as [Hc Ha]. rewrite Hc. by rewrite IH.
Qed.

Lemma timingSafeEqual_true (a b : list N) :
  timingSafeEqual a b = Some true <-> a = b.
Proof.
  unfold timingSafeEqual. split.
  - case_bool_decide; [|done]. intros [= Heq].
    by apply bool_decide_eq_true_1 in Heq.
  - intros ->. rewrite bool_decide_eq_true_2 by done.
    by rewrite bool_decide_eq_true_2.
Qed.

(** X6: A bearer token [deviceId:digest] is accepted exactly when the digest
    decodes, as hexadecimal, to the same bytes as the keyed digest of the
    device id; the request then continues as that device. *)
Theorem token_accepted_iff_digest_matches (req : Request)
    (id digest : string) :
  hasChar colon id = false ->
  hasChar colon digest = false ->
  headers req !! "authorization" = Some ("Bearer " ++ id ++ ":" ++ digest) ->
  authenticateDevice req = Continue (set_device id req)
  <-> hexDecode digest = hexDecode (hmacSha256Hex deviceHmacSecret id).
Proof.
  intros Hid Hdig Hh. unfold DeviceAuth.authenticateDevice. rewrite Hh.
  assert (String.prefix "Bearer " ("Bearer " ++ id ++ ":" ++ digest) = true)
    as -> by (simpl; by destruct (id ++ ":" ++ digest)).
  assert (dropChars 7 ("Bearer " ++ id ++ ":" ++ digest)
          = id ++ String colon digest) as -> by reflexivity.
  rewrite (splitOn_two colon id digest Hid Hdig).
  destruct (timingSafeEqual _ _) as [[|]|] eqn:Ht.
  - apply timingSafeEqual_true in Ht. done.
  - split; [done|]. intros Heq. apply timingSafeEqual_true in Heq. congruence.
  - split; [done|]. intros Heq. apply timingSafeEqual_true in Heq. congruence.
Qed.

(** X7: The token that the registration hands out for a device authenticates
    as that device, and the authenticated request passes [enforceTenancy]
    unchanged. *)
Theorem issued_token_authenticates (req : Request) (id : string) :
  hasChar colon id = false ->
  hasChar colon (hmacSha256Hex deviceHmacSecret id) = false ->
  headers req !! "authorization" = Some ("Bearer " ++ deviceToken id) ->
  authenticateDevice req = Continue (set_device id req)
  /\ deviceId (set_device id req) = Some id
  /\ Tenancy.enforceTenancy (set_device id req) = Continue (set_device id req).
Proof.
  intros Hid Hdig Hh. split; [|done].
  unfold DeviceAuth.deviceToken in Hh.
  unfold DeviceAuth.authenticateDevice. rewrite Hh.
  set (digest := hmacSha256Hex deviceHmacSecret id) in *.
  assert (String.prefix "Bearer " ("Bearer " ++ id ++ ":" ++ digest) = true)
    as -> by (simpl; by destruct (id ++ ":" ++ digest)).
  assert (dropChars 7 ("Bearer " ++ id ++ ":" ++ digest)
          = id ++ String colon digest) as -> by reflexivity.
  rewrite (splitOn_two colon id digest Hid Hdig).
  assert (Heq : hexDecode digest = hexDecode digest) by done.
  apply timingSafeEqual_true in Heq. unfold digest in *. cbv beta iota.
  by rewrite Heq.
Qed.

(** X8: Whatever the request, device authentication either continues as the
    device named before the colon, whose keyed digest the token matches, or
    fails with UNAUTHORIZED (401). *)
Theorem device_authentication_is_sound (req : Request) :
  match authenticateDevice req with
  | Continue req1 =>
    exists h id digest,
      headers req !! "authorization" = Some h
      /\ String.prefix "Bearer " h = true
      /\ splitOn colon (dropChars 7 h) = [id; digest]
      /\ hexDecode digest = hexDecode (hmacSha256Hex deviceHmacSecret id)
      /\ req1 = set_device id req
  | Fail e => code e = "UNAUTHORIZED" /\ statusCode e = 401
  end.
Proof.
  unfold DeviceAuth.authenticateDevice.
  destruct (headers req !! "authorization") as [h|] eqn:Hh; [|done].
  destruct (String.prefix "Bearer " h) eqn:Hp; [|done].
  destruct (splitOn colon (dropChars 7 h)) as [|id [|digest [|? ?]]] eqn:Hs;
    try done.
  destruct (timingSafeEqual _ _) as [[|]|] eqn:Ht; try done.
  apply timingSafeEqual_true in Ht. by exists h, id, digest.
Qed.

End DeviceAuthProps.

Lemma token_accepted_iff_digest_matches_witness :
  DeviceAuth.authenticateDevice MoreExamples.toyHmac "secret!"
    (MoreExamples.bearer "dev-a:00112233445566AAzz")
  = Continue (DeviceAuth.set_device "dev-a"
                (MoreExamples.bearer "dev-a:00112233445566AAzz"))
  <-> DeviceAuth.hexDecode "00112233445566AAzz"
      = DeviceAuth.hexDecode (MoreExamples.toyHmac "secret!" "dev-a").
Proof.
  apply (token_accepted_iff_digest_matches MoreExamples.toyHmac "secret!"
           (MoreExamples.bearer "dev-a:00112233445566AAzz") "dev-a"
           "00112233445566AAzz"); reflexivity.
Defined.

Lemma issued_token_authenticates_witness :
  DeviceAuth.authenticateDevice MoreExamples.toyHmac "secret!"
    (MoreExamples.bearer
       (DeviceAuth.deviceToken MoreExamples.toyHmac "secret!" "dev-a"))
  = Continue
      (DeviceAuth.set_device "dev-a"
         (MoreExamples.bearer
            (DeviceAuth.deviceToken MoreExamples.toyHmac "secret!" "dev-a")))
  /\ deviceId
       (DeviceAuth.set_device "dev-a"
          (MoreExamples.bearer
             (DeviceAuth.deviceToken MoreExamples.toyHmac "secret!" "dev-a")))
     = Some "dev-a"
  /\ Tenancy.enforceTenancy
       (DeviceAuth.set_device "dev-a"
          (MoreExamples.bearer
             (DeviceAuth.deviceToken MoreExamples.toyHmac "secret!" "dev-a")))
     = Continue
         (DeviceAuth.set_device "dev-a"
            (MoreExamples.bearer
               (DeviceAuth.deviceToken MoreExamples.toyHmac "secret!" "dev-a"))).
Proof.
  apply (issued_token_authenticates MoreExamples.toyHmac "secret!"
           (MoreExamples.bearer
              (DeviceAuth.deviceToken MoreExamples.toyHmac "secret!" "dev-a"))
           "dev-a"); reflexivity.
Defined.

(** A digest in capitals with two characters after it decodes to the same
    bytes and is accepted as well; a digest that differs is not. *)
Example lenient_digest_example :
  DeviceAuth.authenticateDevice MoreExamples.toyHmac "secret!"
    (MoreExamples.bearer "dev-a:00112233445566AAzz")
  = Continue (DeviceAuth.set_device "dev-a"
                (MoreExamples.bearer "dev-a:00112233445566AAzz"))
  /\ DeviceAuth.authenticateDevice MoreExamples.toyHmac "secret!"
       (MoreExamples.bearer "dev-a:00112233445566ab")
     = Fail (UnauthorizedError "Invalid device credentials").
Proof. split; vm_compute; reflexivity. Qed.

(** ** Telemetry ingest: validation and fan-out *)

Section MoreTelemetryProps.
Import TelemetryIngest.
Variable StringToNumber : string -> option Qc.
Variable haversineKm : Qc -> Qc -> Qc -> Qc -> Qc.

#[local] Abbreviation ingest := (ingest StringToNumber haversineKm).
#[local] Abbreviation computeDerivedState :=
  (computeDerivedState StringToNumber).

(** X9: The warnings of a reading are exactly its numeric metrics that the
    plausibility table lists and whose value lies strictly outside the
    listed range: a value on a bound, a metric that is not a number and a
    metric that the table does not list raise none. *)
Theorem range_warnings_characterised (metrics : gmap string JsVal)
    (w : Warning) :
  w ∈ validateMetricRanges metrics <->
  metrics !! w_key w = Some (JNum (w_value w))
  /\ METRIC_RANGES !! w_key w = Some (w_min w, w_max w)
  /\ ((w_value w < Qc_of_Z (w_min w))%Qc \/ (Qc_of_Z (w_max w) < w_value w)%Qc).
Proof.
  unfold validateMetricRanges. rewrite list_elem_of_omap. split.
  - intros ([k v] & Hin & Hw). apply elem_of_map_to_list in Hin. simpl in Hw.
    destruct v as [| |q|]; try done.
    destruct (METRIC_RANGES !! k) as [[lo hi]|] eqn:Hr; [|done].
    destruct (bool_decide (q < Qc_of_Z lo)%Qc || bool_decide (Qc_of_Z hi < q)%Qc)
      eqn:Hout; [|done].
    injection Hw as <-. simpl. split; [done|]. split; [done|].
    apply orb_prop in Hout as [H|H]; apply bool_decide_eq_true_1 in H; auto.
  - intros (Hm & Hr & Hout). exists (w_key w, JNum (w_value w)).
    split; [by apply elem_of_map_to_list|]. simpl. rewrite Hr.
    assert (bool_decide (w_value w < Qc_of_Z (w_min w))%Qc
            || bool_decide (Qc_of_Z (w_max w) < w_value w)%Qc = true) as ->.
    { destruct Hout as [H|H].
      - by rewrite (bool_decide_eq_true_2 _ H).
      - rewrite (bool_decide_eq_true_2 _ H). by rewrite orb_true_r. }
    by destruct w.
Qed.



(** X10: An ingest that is refused writes nothing: the store is left as it
    was. A body whose device id is not the authenticated one is refused with
    VALIDATION_ERROR, an unknown device with NOT_FOUND. *)
Theorem refused_ingest_writes_nothing now newId body req s :
  let r := ingest now newId body req s in
  (forall e, r.2 = Err e -> r.1 = s)
  /\ (deviceId req <> Some (tb_deviceId body) ->
      exists e, r.2 = Err e /\ code e = "VALIDATION_ERROR"
                /\ statusCode e = 400)
  /\ (deviceId req = Some (tb_deviceId body) ->
      findById d_id (tb_deviceId body) (devices s) = None ->
      exists e, r.2 = Err e /\ code e = "NOT_FOUND" /\ statusCode e = 404).
Proof.
  intros r. unfold r, TelemetryIngest.ingest. cbv zeta.
  split; [|split].
  - intros e. case_bool_decide as Hauth; simpl; [|done].
    destruct (findById d_id _ _); [|done].
    destruct (bool_decide (is_Some _)); [done|]. simpl. done.
  - intros Hne. rewrite bool_decide_eq_false_2 by done. simpl. by eexists.
  - intros Hauth Hnone. rewrite bool_decide_eq_true_2 by done. simpl.
    rewrite Hnone. by eexists.
Qed.

Lemma elem_of_updateWhere_other {A : Type} (key : A -> string) id f
    (rows : list A) r :
  r ∈ rows -> key r <> id -> r ∈ updateWhere key id f rows.
Proof.
  intros Hin Hne. unfold updateWhere. apply list_elem_of_fmap.
  exists r. by rewrite bool_decide_eq_false_2.
Qed.



Lemma sites_reconcileSite_located now deviceId device g site s :
  is_Some (s_lat site) ->
  sites (reconcileSite haversineKm now deviceId device g site s) = sites s.
Proof.
  intros [lat Hlat]. unfold reconcileSite, shouldUpdateSite. rewrite Hlat.
  simpl. rewrite andb_false_r. simpl.
  destruct (s_lon site); [|done]. by destruct (bool_decide _).
Qed.

(** X12: An ingest never moves a site that has a latitude, whether the site
    is locked or not: the Site table is left as it was. *)
Theorem located_site_is_not_moved now newId body req s device sid site :
  findById d_id (tb_deviceId body) (devices s) = Some device ->
  d_siteId device = Some sid ->
  findById s_id sid (sites s) = Some site ->
  is_Some (s_lat site) ->
  sites (ingest now newId body req s).1 = sites s.
Proof.
  intros Hdev Hsid Hsite Hlat. unfold TelemetryIngest.ingest.
  destruct (negb _); [done|]. rewrite Hdev, Hsid. simpl. rewrite Hsite.
  destruct (bool_decide (is_Some _)); [done|]. simpl.
  destruct (tb_geo body); [|done].
  destruct (negb (bool_decide (sid = ""))); [|done].
  by rewrite sites_reconcileSite_located.
Qed.


End MoreTelemetryProps.


Lemma located_site_is_not_moved_witness :
  sites (TelemetryIngest.ingest Examples.noNumericStrings
           Examples.coarseDistance 1800 "t-1" Examples.readingOfA
           (Examples.requestOfDevice "dev-a") Examples.twoTenants).1
  = sites Examples.twoTenants.
Proof.
  apply (located_site_is_not_moved Examples.noNumericStrings
           Examples.coarseDistance 1800 "t-1" Examples.readingOfA
           (Examples.requestOfDevice "dev-a") Examples.twoTenants
           Examples.deviceOfA "site-a" Examples.siteOfA);
    try reflexivity.
  by eexists.
Defined.


(** ** The derived state of the twin *)

Section DerivedStateProps.
Import TelemetryIngest.
Variable StringToNumber : string -> option Qc.

#[local] Abbreviation computeDerivedState :=
  (computeDerivedState StringToNumber).
#[local] Abbreviation healthScore := (healthScore StringToNumber).

Lemma assign_lookup_eq k v (st : gmap string JsVal) :
  assign k v st !! k = v.
Proof.
  unfold assign. destruct v.
  - by rewrite lookup_insert_eq.
  - by rewrite lookup_delete_eq.
Qed.

(** The loop over the metrics writes mirrors only. *)
Lemma mirror_lookup_other (metrics st : gmap string JsVal) key :
  (forall k, is_Some (metrics !! k) -> key <> "last_" ++ k) ->
  mirrorMetrics metrics st !! key = st !! key.
Proof.
  unfold mirrorMetrics.
  apply (map_fold_weak_ind
           (fun (r : gmap string JsVal) (m : gmap string JsVal) =>
              (forall k, is_Some (m !! k) -> key <> "last_" ++ k) ->
              r !! key = st !! key)).
  - done.
  - intros i x m r Hi IH Hkey.
    rewrite lookup_insert_ne.
    + apply IH. intros k Hk. apply Hkey.
      destruct (decide (i = k)) as [->|Hne].
      * rewrite lookup_insert_eq. eauto.
      * by rewrite lookup_insert_ne.
    + intros Heq. apply (Hkey i); [|done]. rewrite lookup_insert_eq. eauto.
Qed.

Lemma not_a_mirror (key k : string) :
  (forall rest, key <> "last_" ++ rest) -> key <> "last_" ++ k.
Proof. auto. Qed.

(** X14: The five distinguished fields take the value of the reading when
    the reading has one that is not [null], and keep the stored value
    otherwise. *)
Theorem distinguished_fields_keep_prior (metrics existing : gmap string JsVal)
    (geo : option Geo) (metric field : string) :
  (metric, field) ∈ [("rssiDbm", "lastRssi"); ("tankTempC", "lastTankTempC");
                     ("ambientTempC", "lastAmbientTempC");
                     ("heaterOn", "heaterOn"); ("powerW", "lastPowerW")] ->
  computeDerivedState metrics geo existing !! field
  = js_nullish (metrics !! metric) (existing !! field).
Proof.
  intros Hin. unfold TelemetryIngest.computeDerivedState. cbv zeta.
  assert (Hfield : field <> "lastGeoLat" /\ field <> "lastGeoLon"
                   /\ field <> "lastGeoSource" /\ field <> "healthScore"
                   /\ field <> "isOnline"
                   /\ forall k, field <> "last_" ++ k).
  { repeat (apply elem_of_cons in Hin as [[= -> ->]|Hin];
            [repeat split; solve [done | intros k; simpl; discriminate]|]).
    by apply elem_of_nil in Hin. }
  destruct Hfield as (G1 & G2 & G3 & G4 & G5 & G6).
  rewrite geoFields_lookup_ne by done. rewrite lookup_insert_ne by done.
  assert (Hprior : (<["isOnline" := JBool true]>
                      (mirrorMetrics metrics existing)) !! field
                   = existing !! field).
  { rewrite lookup_insert_ne by done. apply mirror_lookup_other. auto. }
  unfold computedFields. cbv zeta.
  repeat (apply elem_of_cons in Hin as [[= -> ->]|Hin];
          [rewrite ?assign_lookup_ne by done;
           rewrite assign_lookup_eq;
           rewrite ?assign_lookup_ne by done;
           by rewrite Hprior|]).
  by apply elem_of_nil in Hin.
Qed.

(** X15: What a reading does not write stays in the twin: a key of the
    stored state that is neither a mirror of an incoming metric nor one of
    the computed fields keeps its value. *)
Theorem derived_state_keeps_other_keys (metrics existing : gmap string JsVal)
    (geo : option Geo) (key : string) :
  (forall k, is_Some (metrics !! k) -> key <> "last_" ++ k) ->
  key ∉ ["isOnline"; "lastRssi"; "lastTankTempC"; "lastAmbientTempC";
         "heaterOn"; "lastPowerW"; "healthScore"; "lastGeoLat"; "lastGeoLon";
         "lastGeoSource"] ->
  computeDerivedState metrics geo existing !! key = existing !! key.
Proof.
  intros Hmirror Hkey. unfold TelemetryIngest.computeDerivedState. cbv zeta.
  repeat (apply not_elem_of_cons in Hkey as [? Hkey]).
  rewrite geoFields_lookup_ne by done. rewrite lookup_insert_ne by done.
  rewrite computedFields_lookup_ne by done.
  by apply mirror_lookup_other.
Qed.

(** X16: The health score of a twin lies between 30 and 100: the three
    deductions add up to 70 at most, so the floor at 0 is never reached. *)
Theorem health_score_bounds (metrics existing : gmap string JsVal)
    (geo : option Geo) :
  exists h,
    computeDerivedState metrics geo existing !! "healthScore" = Some (num h)
    /\ 30 <= h <= 100.
Proof.
  exists (healthScore metrics). split.
  - unfold TelemetryIngest.computeDerivedState. cbv zeta.
    rewrite geoFields_lookup_ne by done. by rewrite lookup_insert_eq.
  - unfold TelemetryIngest.healthScore.
    destruct (presentBelow _ _ "rssiDbm" _), (presentBelow _ _ "batteryPct" _),
      (presentAbove _ _ _ _); simpl; lia.
Qed.

(** The last reported position: a reading with a [geo] payload records its
    latitude, longitude and source; a reading without one keeps the stored
    ones. *)
Theorem derived_state_records_position (metrics existing : gmap string JsVal)
    (geo : option Geo) :
  match geo with
  | Some g =>
    computeDerivedState metrics geo existing !! "lastGeoLat"
    = Some (JNum (g_lat g))
    /\ computeDerivedState metrics geo existing !! "lastGeoLon"
       = Some (JNum (g_lon g))
    /\ computeDerivedState metrics geo existing !! "lastGeoSource"
       = Some (JStr (sourceName (g_source g)))
  | None =>
    forall key, key ∈ ["lastGeoLat"; "lastGeoLon"; "lastGeoSource"] ->
                computeDerivedState metrics geo existing !! key
                = existing !! key
  end.
Proof.
  destruct geo as [g|].
  - unfold TelemetryIngest.computeDerivedState, geoFields. cbv zeta.
    split; [|split].
    + rewrite !lookup_insert_ne by done. by rewrite lookup_insert_eq.
    + rewrite lookup_insert_ne by done. by rewrite lookup_insert_eq.
    + by rewrite lookup_insert_eq.
  - intros key Hkey. unfold TelemetryIngest.computeDerivedState. cbv zeta.
    unfold geoFields.
    assert (key <> "healthScore" /\ key <> "isOnline" /\ key <> "lastRssi"
            /\ key <> "lastTankTempC" /\ key <> "lastAmbientTempC"
            /\ key <> "heaterOn" /\ key <> "lastPowerW"
            /\ forall k, key <> "last_" ++ k) as (? & ? & ? & ? & ? & ? & ? & ?).
    { repeat (apply elem_of_cons in Hkey as [->|Hkey];
              [repeat split; solve [done | intros k; simpl; discriminate]|]).
      by apply elem_of_nil in Hkey. }
    rewrite lookup_insert_ne by done.
    rewrite computedFields_lookup_ne by done.
    apply mirror_lookup_other. auto.
Qed.

End DerivedStateProps.

Lemma distinguished_fields_keep_prior_witness :
  TelemetryIngest.computeDerivedState Examples.noNumericStrings
    Examples.poorMetrics None {["lastPowerW" := num 1800]} !! "lastPowerW"
  = js_nullish (Examples.poorMetrics !! "powerW")
      (({["lastPowerW" := num 1800]} : gmap string JsVal) !! "lastPowerW").
Proof.
  apply (distinguished_fields_keep_prior Examples.noNumericStrings
           Examples.poorMetrics {["lastPowerW" := num 1800]} None "powerW"
           "lastPowerW").
  do 4 right. left.
Defined.

Lemma derived_state_keeps_other_keys_witness :
  TelemetryIngest.computeDerivedState Examples.noNumericStrings
    Examples.poorMetrics None {["last_flowLpm" := num 3]} !! "last_flowLpm"
  = ({["last_flowLpm" := num 3]} : gmap string JsVal) !! "last_flowLpm".
Proof.
  apply (derived_state_keeps_other_keys Examples.noNumericStrings
           Examples.poorMetrics {["last_flowLpm" := num 3]} None
           "last_flowLpm").
  - intros k [v Hk] Heq.
    injection Heq as Heq. change ("flowLpm" = k) in Heq. subst k.
    vm_compute in Hk. discriminate.
  - apply (bool_decide_unpack _). vm_compute. exact I.
Defined.


(** ** The command queue: creation, gating and confinement *)

Section MoreCommandProps.
Import Commands.

(** X17: A command that the creation has stored is QUEUED for the device of
    the path and is handed out by the next poll of that device. *)
Theorem created_command_is_polled now newId id body req s s1 c now' req' :
  createCommand now newId id body req s = (s1, Ok 201 c) ->
  deviceId req' = Some id ->
  c_id c = newId /\ c_deviceId c = id /\ c_status c = C_QUEUED
  /\ c_requestedAt c = now
  /\ c ∈ commands s1
  /\ c ∈ returned (pollPending now' id req' s1).2.
Proof.
  unfold createCommand. intros Hc Hauth.
  destruct (List.find _ (devices s)) as [device|] eqn:Hd; [|done].
  case_bool_decide; [done|]. injection Hc as <- <-. simpl.
  apply find_some in Hd as [_ Hd]. apply andb_prop in Hd as [Hd _].
  apply bool_decide_eq_true_1 in Hd.
  assert (Hin : mkCommand newId (d_id device) (cb_type body) (cb_payload body)
                  C_QUEUED (userId <$> user req) now None None None
                ∈ (commands s
                   ++ [mkCommand newId (d_id device) (cb_type body)
                         (cb_payload body) C_QUEUED (userId <$> user req) now
                         None None None])%list).
  { apply elem_of_app. right. by left. }
  repeat split; try done.
  rewrite pollPending_eq by done. cbv zeta. simpl.
  rewrite merge_sort_Permutation. apply list_elem_of_filter. split; [|done].
  unfold queuedFor. simpl. rewrite Hd.
  by rewrite !bool_decide_eq_true_2.
Qed.

Lemma created_command_is_polled_witness :
  let s1 := (createCommand 3000 "cmd-9" "dev-a" MoreExamples.boostCommand
               (set_tenantId "tenant-a" MoreExamples.requestForDeviceA)
               Examples.twoTenants).1 in
  let c := MoreExamples.createdBoost in
  c_id c = "cmd-9" /\ c_deviceId c = "dev-a" /\ c_status c = C_QUEUED
  /\ c_requestedAt c = 3000
  /\ c ∈ commands s1
  /\ c ∈ returned (pollPending 4000 "dev-a" (Examples.requestOfDevice "dev-a")
                     s1).2.
Proof.
  intros s1 c.
  apply (created_command_is_polled 3000 "cmd-9" "dev-a"
           MoreExamples.boostCommand
           (set_tenantId "tenant-a" MoreExamples.requestForDeviceA)
           Examples.twoTenants s1 c 4000 (Examples.requestOfDevice "dev-a"));
    reflexivity.
Defined.

(** X18: The whole route refuses a member of the tenant with
    FEATURE_DISABLED, and stores nothing, when BASIC_REMOTE_BOOST resolves
    to false for the device of the path; every role passes the route's role
    gate. *)
Theorem disabled_feature_blocks_create now newId id body req s u t m :
  isDeviceAuth req = false ->
  user req = Some u ->
  isPlatformAdmin u = false ->
  Tenancy.suppliedTenantId req = Some t ->
  t <> "" ->
  m ∈ memberships u ->
  m_tenantId m = t ->
  Entitlements.checkEntitlement (entitlements s) t BASIC_REMOTE_BOOST
    (or_str (params req !! "id") (params req !! "deviceId")) = false ->
  createCommandRoute now newId id body req s
  = (s, Err (EntitlementError "BASIC_REMOTE_BOOST")).
Proof.
  intros Hdev Hu Hadm Ht Hne Hin Hm Hoff. unfold createCommandRoute.
  assert (Tenancy.enforceTenancy req = Continue (set_tenantId t req)) as ->.
  { unfold Tenancy.enforceTenancy. rewrite Hdev, Hu, Hadm, Ht. simpl.
    rewrite (bool_decide_eq_false_2 (t = "")) by done. simpl.
    by rewrite (existsb_member_true u t m). }
  assert (Hor : forall x, or_str (Some t) x = Some t).
  { intros x. unfold or_str. simpl.
    by rewrite (bool_decide_eq_false_2 (t = "")). }
  assert (requireRoles
            [PLATFORM_ADMIN; TENANT_ADMIN; INSTALLER; SUPPORT_AGENT; END_USER]
            (set_tenantId t req) = Continue (set_tenantId t req)) as ->.
  { unfold requireRoles. simpl. rewrite Hu, Hadm. cbv zeta. rewrite !Hor.
    simpl. rewrite (bool_decide_eq_false_2 (t = "")) by done. simpl.
    destruct (List.find _ (memberships u)) as [m0|] eqn:Hf.
    - rewrite bool_decide_eq_true_2; [done|].
      destruct (m_role m0); set_solver.
    - eapply find_none in Hf; [|by apply list_elem_of_In].
      rewrite bool_decide_eq_true_2 in Hf by congruence. done. }
  unfold Entitlements.requireEntitlement. simpl.
  rewrite (bool_decide_eq_false_2 (t = "")) by done. simpl.
  by rewrite Hoff.
Qed.

Lemma disabled_feature_blocks_create_witness :
  createCommandRoute 3000 "cmd-9" "dev-a" MoreExamples.boostCommand
    MoreExamples.requestForDeviceA MoreExamples.boostOffForA
  = (MoreExamples.boostOffForA, Err (EntitlementError "BASIC_REMOTE_BOOST")).
Proof.
  apply (disabled_feature_blocks_create 3000 "cmd-9" "dev-a"
           MoreExamples.boostCommand MoreExamples.requestForDeviceA
           MoreExamples.boostOffForA MoreExamples.endUserOfA "tenant-a"
           (mkMembership "tenant-a" END_USER)); try reflexivity.
  - discriminate.
  - left.
Defined.

(** A command is created only for a device of the active tenant: when no
    device of that tenant has the id of the path, the creation answers
    NOT_FOUND and stores nothing. *)
Theorem create_is_tenant_scoped now newId id body req s t :
  tenantId req = Some t ->
  (forall d, d ∈ devices s -> d_id d = id -> d_tenantId d <> t) ->
  createCommand now newId id body req s
  = (s, Err (NotFoundError "Device" (Some id))).
Proof.
  intros Ht Hnone. unfold createCommand.
  destruct (List.find _ (devices s)) as [d|] eqn:Hd; [|done].
  apply find_some in Hd as [Hin Hd]. apply andb_prop in Hd as [Hid Hten].
  apply bool_decide_eq_true_1 in Hid. rewrite Ht in Hten. simpl in Hten.
  apply bool_decide_eq_true_1 in Hten.
  destruct (Hnone d); [by apply list_elem_of_In|done|done].
Qed.

Lemma create_is_tenant_scoped_witness :
  createCommand 3000 "cmd-9" "dev-a" MoreExamples.boostCommand
    (set_tenantId "tenant-b" Examples.requestHeaderB) Examples.twoTenants
  = (Examples.twoTenants, Err (NotFoundError "Device" (Some "dev-a"))).
Proof.
  apply (create_is_tenant_scoped 3000 "cmd-9" "dev-a"
           MoreExamples.boostCommand
           (set_tenantId "tenant-b" Examples.requestHeaderB)
           Examples.twoTenants "tenant-b"); [reflexivity|].
  intros d Hd Hid.
  apply elem_of_cons in Hd as [->|Hd]; [discriminate|].
  apply list_elem_of_singleton in Hd as ->. discriminate.
Defined.

(** X19: With distinct command ids, a poll changes only what it hands out:
    every stored command that is not a QUEUED command of the polling device
    is left as it was; and a poll for an id other than the authenticated one
    is refused with FORBIDDEN and changes nothing. *)
Theorem poll_changes_only_what_it_returns now id req s :
  NoDup (map c_id (commands s)) ->
  (deviceId req = Some id ->
   forall c, c ∈ commands s -> queuedFor id c = false ->
             c ∈ commands (pollPending now id req s).1)
  /\ (deviceId req <> Some id ->
      pollPending now id req s = (s, Err (ForbiddenError "Device ID mismatch"))).
Proof.
  intros Hnd. split.
  - intros Hauth c Hin Hq. rewrite pollPending_eq by done. cbv zeta.
    destruct (bool_decide (0 < _)%nat); [|done]. simpl.
    unfold updateManyIn. apply list_elem_of_fmap. exists c. split; [|done].
    rewrite bool_decide_eq_false_2; [done|].
    intros Hid. apply list_elem_of_fmap in Hid as (c' & Hcid & Hc').
    rewrite merge_sort_Permutation in Hc'.
    apply list_elem_of_filter in Hc' as [Hq' Hin'].
    assert (c = c') as <- by (by apply (NoDup_key_inj c_id (commands s))).
    rewrite Hq in Hq'. done.
  - intros Hne. unfold pollPending. by rewrite bool_decide_eq_false_2.
Qed.

Lemma poll_changes_only_what_it_returns_witness :
  (deviceId (Examples.requestOfDevice "dev-a") = Some "dev-a" ->
   forall c, c ∈ commands MoreExamples.withCommandsOfBoth ->
             queuedFor "dev-a" c = false ->
             c ∈ commands (pollPending 5000 "dev-a"
                             (Examples.requestOfDevice "dev-a")
                             MoreExamples.withCommandsOfBoth).1)
  /\ (deviceId (Examples.requestOfDevice "dev-a") <> Some "dev-a" ->
      pollPending 5000 "dev-a" (Examples.requestOfDevice "dev-a")
        MoreExamples.withCommandsOfBoth
      = (MoreExamples.withCommandsOfBoth,
         Err (ForbiddenError "Device ID mismatch"))).
Proof.
  apply (poll_changes_only_what_it_returns 5000 "dev-a"
           (Examples.requestOfDevice "dev-a") MoreExamples.withCommandsOfBoth).
  apply (bool_decide_unpack (NoDup _)). vm_compute. exact I.
Defined.

(** X20: A device acknowledges its own commands only: for a command id that
    no command of the authenticated device has, the acknowledgement answers
    NOT_FOUND and changes nothing, whatever other device the id belongs to. *)
Theorem ack_is_confined_to_own_commands now id commandId body req s :
  deviceId req = Some id ->
  (forall c, c ∈ commands s -> c_id c = commandId -> c_deviceId c <> id) ->
  ackCommand now id commandId body req s
  = (s, Err (NotFoundError "Command" (Some commandId))).
Proof.
  intros Hauth Hnone. unfold ackCommand.
  rewrite bool_decide_eq_true_2 by done. simpl.
  destruct (List.find _ (commands s)) as [c|] eqn:Hc; [|done].
  apply find_some in Hc as [Hin Hc]. apply andb_prop in Hc as [Hid Hdev].
  apply bool_decide_eq_true_1 in Hid, Hdev.
  destruct (Hnone c); [by apply list_elem_of_In|done|done].
Qed.

Lemma ack_is_confined_to_own_commands_witness :
  ackCommand 6000 "dev-a" "cmd-b" (mkAckCommandBody ACKED None)
    (Examples.requestOfDevice "dev-a") MoreExamples.withCommandsOfBoth
  = (MoreExamples.withCommandsOfBoth,
     Err (NotFoundError "Command" (Some "cmd-b"))).
Proof.
  apply (ack_is_confined_to_own_commands 6000 "dev-a" "cmd-b"
           (mkAckCommandBody ACKED None) (Examples.requestOfDevice "dev-a")
           MoreExamples.withCommandsOfBoth); [reflexivity|].
  intros c Hc Hid.
  repeat (apply elem_of_cons in Hc as [->|Hc]; [try discriminate|]).
  by apply elem_of_nil in Hc.
Defined.

End MoreCommandProps.

(** ** The firmware job that a device pulls *)

Section OtaPendingProps.
Import OtaPending.

Global Instance byScheduledAt_total : Total byScheduledAt.
Proof. intros a b. unfold byScheduledAt. lia. Qed.

Global Instance byScheduledAt_trans : Transitive byScheduledAt.
Proof. intros a b c. unfold byScheduledAt. lia. Qed.




(** The earlier group job of tenant A is the one that the device of tenant
    A pulls, not the still earlier job of tenant B. *)
Example pending_example :
  fst <$> (match pending "dev-a" (Examples.requestOfDevice "dev-a")
                   MoreExamples.withThreeJobs with
           | Ok _ r => r | Err _ => None end)
  = Some MoreExamples.groupJobOfA.
Proof. vm_compute. reflexivity. Qed.




(** After the group job is reported as done, the device pulls its own
    job. *)
Example pending_after_report_example :
  fst <$> (match pending "dev-a" (Examples.requestOfDevice "dev-a")
                   (Ota.report 4000 "dev-a" (MoreExamples.successOf "job-g")
                      (Examples.requestOfDevice "dev-a")
                      MoreExamples.withThreeJobs).1 with
           | Ok _ r => r | Err _ => None end)
  = Some Examples.jobOfA.
Proof. vm_compute. reflexivity. Qed.

End OtaPendingProps.

(** ** The location of a site, set by a user *)

Section SitesProps.
Import Sites.
Variable ownerUserId : Device -> option string.
Variable StringToNumber : string -> option Qc.
Variable haversineKm : Qc -> Qc -> Qc -> Qc -> Qc.

#[local] Abbreviation updateLocation := (updateLocation ownerUserId).
#[local] Abbreviation ingest :=
  (TelemetryIngest.ingest StringToNumber haversineKm).

(** X23: An end user moves only the sites of devices that they own: for a
    user without the platform role whose memberships in the active tenant
    are END_USER ones, and who owns no device on the site, the update is
    refused (NOT_FOUND when the tenant has no such site, FORBIDDEN
    otherwise) and the store is left as it was. *)
Theorem end_user_needs_owned_device now siteId body req s u t :
  user req = Some u ->
  tenantId req = Some t ->
  (forall m, m ∈ memberships u -> m_role m <> PLATFORM_ADMIN) ->
  (exists m, m ∈ memberships u /\ m_tenantId m = t) ->
  (forall m, m ∈ memberships u -> m_tenantId m = t -> m_role m = END_USER) ->
  (forall d, d ∈ devices s -> d_siteId d = Some siteId ->
             ownerUserId d <> Some (userId u)) ->
  updateLocation now siteId body req s
  = (s, Err (NotFoundError "Site" (Some siteId)))
  \/ updateLocation now siteId body req s
     = (s, Err (ForbiddenError
                  "END_USER can only update sites they have access to")).
Proof.
  intros Hu Ht Hadm (m & Hm & Hmt) Hrole Hown. unfold Sites.updateLocation.
  destruct (List.find _ (sites s)) as [site|] eqn:Hs; [right|by left].
  apply find_some in Hs as [_ Hs]. apply andb_prop in Hs as [Hid _].
  apply bool_decide_eq_true_1 in Hid.
  rewrite Hu, Ht. simpl.
  assert (existsb (fun m => bool_decide (m_role m = PLATFORM_ADMIN))
            (memberships u) = false) as ->.
  { destruct (existsb _ _) eqn:Hex; [|done].
    apply existsb_exists in Hex as (m0 & Hin & Hr).
    apply bool_decide_eq_true_1 in Hr.
    destruct (Hadm m0); [by apply list_elem_of_In|done]. }
  destruct (List.find _ (memberships u)) as [m0|] eqn:Hf.
  - apply find_some in Hf as [Hin Hf]. apply bool_decide_eq_true_1 in Hf.
    simpl. rewrite (Hrole m0) by (by apply list_elem_of_In || congruence).
    simpl.
    destruct (List.find _ (devices s)) as [d|] eqn:Hd.
    + apply find_some in Hd as [Hdin Hd]. apply andb_prop in Hd as [H1 H2].
      apply bool_decide_eq_true_1 in H1, H2.
      destruct (Hown d); [by apply list_elem_of_In|congruence|done].
    + rewrite bool_decide_eq_false_2; [done|]. by intros [? ?].
  - eapply find_none in Hf; [|by apply list_elem_of_In].
    rewrite bool_decide_eq_true_2 in Hf by congruence. done.
Qed.

(** X24: After a user has set the location of a site, the site that an
    ingest reads for a device bound to it holds the user's coordinates, and
    no ingest moves it, whatever [geo] the device reports and whether the
    user locked the site or not. *)
Theorem user_set_location_survives_ingest now siteId body req s s1 r
    now' newId reading dreq device :
  updateLocation now siteId body req s = (s1, Ok 200 r) ->
  findById d_id (TelemetryIngest.tb_deviceId reading) (devices s1)
  = Some device ->
  d_siteId device = Some siteId ->
  (exists site1,
      findById s_id siteId (sites s1) = Some site1
      /\ s_lat site1 = Some (ul_lat body) /\ s_lon site1 = Some (ul_lon body)
      /\ s_locationSource site1 = Some (userSource (ul_source body)))
  /\ sites (ingest now' newId reading dreq s1).1 = sites s1.
Proof.
  intros Hup Hdev Hsid. unfold Sites.updateLocation in Hup.
  destruct (List.find _ (sites s)) as [site|] eqn:Hs; [|done].
  apply find_some in Hs as [Hin Hs]. apply andb_prop in Hs as [Hid _].
  apply bool_decide_eq_true_1 in Hid. apply list_elem_of_In in Hin.
  destruct (_ && _) in Hup; [done|]. injection Hup as <- _. simpl.
  rewrite Hid. rewrite findById_updateWhere by done.
  destruct (findById_elem s_id siteId (sites s) site Hin Hid) as [site0 H0].
  rewrite H0. simpl.
  assert (Hfirst : exists site1,
             Some (applyLocation now body
                     (default (s_locationLock site) (ul_lock body)) site0)
             = Some site1
             /\ s_lat site1 = Some (ul_lat body)
             /\ s_lon site1 = Some (ul_lon body)
             /\ s_locationSource site1 = Some (userSource (ul_source body)))
    by (by eexists).
  split; [exact Hfirst|].
  unfold TelemetryIngest.ingest. destruct (negb _); [done|].
  simpl in Hdev. simpl. rewrite Hdev, Hsid. simpl.
  rewrite findById_updateWhere by done. rewrite H0. simpl.
  destruct (bool_decide (is_Some _)); [done|]. simpl.
  destruct (TelemetryIngest.tb_geo reading); [|done].
  destruct (negb (bool_decide (siteId = ""))); [|done].
  by rewrite sites_reconcileSite_located.
Qed.

(** X25: With distinct site ids, the update touches no site of another
    tenant: every stored site whose tenant is not the active one is still
    stored afterwards, whatever the outcome. *)
Theorem update_location_is_tenant_scoped now siteId body req s t x :
  NoDup (map s_id (sites s)) ->
  tenantId req = Some t ->
  x ∈ sites s ->
  s_tenantId x <> t ->
  x ∈ sites (updateLocation now siteId body req s).1.
Proof.
  intros Hnd Ht Hx Hten. unfold Sites.updateLocation.
  destruct (List.find _ (sites s)) as [site|] eqn:Hs; [|done].
  apply find_some in Hs as [Hin Hs]. apply andb_prop in Hs as [Hid Hst].
  apply bool_decide_eq_true_1 in Hid. apply list_elem_of_In in Hin.
  rewrite Ht in Hst. simpl in Hst. apply bool_decide_eq_true_1 in Hst.
  destruct (_ && _); [done|]. simpl.
  apply elem_of_updateWhere_other; [done|]. intros Hk.
  assert (x = site) by (by apply (NoDup_key_inj s_id (sites s))).
  congruence.
Qed.

End SitesProps.

Lemma end_user_needs_owned_device_witness :
  Sites.updateLocation MoreExamples.nobodyOwns 2000 "site-a"
    MoreExamples.moveSite MoreExamples.requestOfEndUser Examples.twoTenants
  = (Examples.twoTenants, Err (NotFoundError "Site" (Some "site-a")))
  \/ Sites.updateLocation MoreExamples.nobodyOwns 2000 "site-a"
       MoreExamples.moveSite MoreExamples.requestOfEndUser Examples.twoTenants
     = (Examples.twoTenants,
        Err (ForbiddenError
               "END_USER can only update sites they have access to")).
Proof.
  apply (end_user_needs_owned_device MoreExamples.nobodyOwns 2000 "site-a"
           MoreExamples.moveSite MoreExamples.requestOfEndUser
           Examples.twoTenants MoreExamples.endUserOfA "tenant-a");
    try reflexivity.
  - intros m Hm. apply list_elem_of_singleton in Hm as ->. discriminate.
  - exists (mkMembership "tenant-a" END_USER). split; [left|reflexivity].
  - intros m Hm _. by apply list_elem_of_singleton in Hm as ->.
  - intros d _ _. discriminate.
Defined.

Lemma user_set_location_survives_ingest_witness :
  let s1 := (Sites.updateLocation MoreExamples.nobodyOwns 2000 "site-e"
               MoreExamples.moveSite MoreExamples.requestOfInstaller
               MoreExamples.withEmptySite).1 in
  (exists site1,
      findById s_id "site-e" (sites s1) = Some site1
      /\ s_lat site1 = Some (Qc_of_Z 38) /\ s_lon site1 = Some (Qc_of_Z 24)
      /\ s_locationSource site1 = Some MANUAL)
  /\ sites (TelemetryIngest.ingest Examples.noNumericStrings
              Examples.coarseDistance 2100 "t-9" MoreExamples.readingOfE
              (Examples.requestOfDevice "dev-e") s1).1 = sites s1.
Proof.
  intros s1.
  apply (user_set_location_survives_ingest MoreExamples.nobodyOwns
           Examples.noNumericStrings Examples.coarseDistance 2000 "site-e"
           MoreExamples.moveSite MoreExamples.requestOfInstaller
           MoreExamples.withEmptySite s1 MoreExamples.movedSite 2100 "t-9"
           MoreExamples.readingOfE (Examples.requestOfDevice "dev-e")
           MoreExamples.deviceOnEmptySite); reflexivity.
Defined.

Lemma update_location_is_tenant_scoped_witness :
  Examples.siteOfA
  ∈ sites (Sites.updateLocation MoreExamples.nobodyOwns 2000 "site-a"
             MoreExamples.moveSite
             (set_tenantId "tenant-b" Examples.requestHeaderB)
             Examples.twoTenants).1.
Proof.
  apply (update_location_is_tenant_scoped MoreExamples.nobodyOwns 2000
           "site-a" MoreExamples.moveSite
           (set_tenantId "tenant-b" Examples.requestHeaderB)
           Examples.twoTenants "tenant-b" Examples.siteOfA).
  - apply (bool_decide_unpack (NoDup _)). vm_compute. exact I.
  - reflexivity.
  - left.
  - discriminate.
Defined.

(** ** The alert sweep and the notifications it queues *)

Section AlertSweepProps.
Import Alerts.
Variable StringToNumber : string -> option Qc.
Variable config : Config.
Variable uuid : nat -> string.
Variable otherPredicate :
  Z -> AlertRule -> Device -> Store -> option (gmap string JsVal).

#[local] Abbreviation enqueue := (enqueue uuid).
#[local] Abbreviation dispatchAlertNotifications :=
  (dispatchAlertNotifications uuid).
#[local] Abbreviation evaluateDevice :=
  (evaluateDevice StringToNumber config uuid otherPredicate).
#[local] Abbreviation evaluateRule :=
  (evaluateRule StringToNumber config uuid otherPredicate).
#[local] Abbreviation evaluateAlerts :=
  (evaluateAlerts StringToNumber config uuid otherPredicate).

Lemma with_notificationEvents_same s :
  with_notificationEvents (notificationEvents s) s = s.
Proof. by destruct s. Qed.

Lemma enqueue_extends now t aid sev chs s :
  exists added,
    (enqueue now t aid sev chs s).1
    = with_notificationEvents (notificationEvents s ++ added)%list s
    /\ Forall (fun n =>
                 n_status n = N_QUEUED /\ n_tenantId n = t
                 /\ n_alertEventId n = Some aid
                 /\ exists ch, ch ∈ chs /\ n_channelId n = ch_id ch
                               /\ shouldNotify ch sev = true) added
    /\ ((enqueue now t aid sev chs s).2 = true ->
        forall ch, ch ∈ chs -> shouldNotify ch sev = true ->
                   exists n, n ∈ added /\ n_channelId n = ch_id ch).
Proof.
  revert s. induction chs as [|ch rest IH]; intros s; simpl.
  - exists []. rewrite app_nil_r, with_notificationEvents_same.
    split; [done|]. split; [constructor|].
    intros _ ch Hch. by apply elem_of_nil in Hch.
  - destruct (shouldNotify ch sev) eqn:Hn.
    + destruct (existsb _ _).
      * exists []. rewrite app_nil_r, with_notificationEvents_same.
        split; [done|]. split; [constructor|]. simpl. done.
      * match goal with
        | |- context [Alerts.enqueue uuid now t aid sev rest ?s'] =>
          destruct (IH s') as (added & Hs & Hall & Hcov)
        end.
        eexists (_ :: added). split; [|split].
        -- rewrite Hs. simpl. by rewrite <- app_assoc.
        -- constructor.
           ++ simpl. repeat split; try done. exists ch. split; [left|done].
           ++ eapply Forall_impl; [exact Hall|]. simpl.
              intros n (H1 & H2 & H3 & c & Hc & H4). repeat split; try done.
              exists c. split; [by right|done].
        -- intros Hok c Hc Hsn. apply elem_of_cons in Hc as [->|Hc].
           ++ eexists. split; [left|done].
           ++ destruct (Hcov Hok c Hc Hsn) as (n & Hin & Hch).
              exists n. split; [by right|done].
    + destruct (IH s) as (added & Hs & Hall & Hcov).
      exists added. split; [done|]. split.
      * eapply Forall_impl; [exact Hall|]. simpl.
        intros n (H1 & H2 & H3 & c & Hc & H4). repeat split; try done.
        exists c. split; [by right|done].
      * intros Hok c Hc Hsn. apply elem_of_cons in Hc as [->|Hc].
        -- congruence.
        -- by apply Hcov.
Qed.

(** X26: The dispatch of an alert only appends to the notification table,
    and every row it appends is QUEUED, carries the tenant and the alert,
    and belongs to an enabled channel of that tenant; for an INFO alert the
    channel is a webhook. When the dispatch does not fail, every such
    channel has its row. *)
Theorem dispatch_queues_for_own_channels now t aid sev s :
  let r := dispatchAlertNotifications now t aid sev s in
  exists added,
    r.1 = with_notificationEvents (notificationEvents s ++ added)%list s
    /\ Forall (fun n =>
                 n_status n = N_QUEUED /\ n_tenantId n = t
                 /\ n_alertEventId n = Some aid
                 /\ exists ch, ch ∈ channels s /\ n_channelId n = ch_id ch
                               /\ ch_tenantId ch = t /\ ch_enabled ch = true
                               /\ (sev = INFO -> ch_type ch = WEBHOOK)) added
    /\ (r.2 = true ->
        forall ch, ch ∈ channels s -> ch_tenantId ch = t ->
                   ch_enabled ch = true ->
                   ch_type ch = WEBHOOK \/ sev <> INFO ->
                   exists n, n ∈ added /\ n_channelId n = ch_id ch).
Proof.
  intros r. unfold r, Alerts.dispatchAlertNotifications.
  match goal with
  | |- context [Alerts.enqueue uuid now t aid sev ?chs s] =>
    destruct (enqueue_extends now t aid sev chs s) as (added & Hs & Hall & Hcov)
  end.
  exists added. split; [done|]. split.
  - eapply Forall_impl; [exact Hall|]. simpl.
    intros n (H1 & H2 & H3 & c & Hc & H4 & H5). repeat split; try done.
    apply list_elem_of_filter in Hc as [Hc Hin].
    apply andb_prop_elim in Hc as [Hc1 Hc2].
    apply bool_decide_unpack in Hc1. apply Is_true_true_1 in Hc2.
    exists c. repeat split; try done.
    intros ->. unfold shouldNotify in H5. rewrite orb_false_r in H5.
    by apply bool_decide_eq_true_1 in H5.
  - intros Hok c Hc Hten Hen Hty. apply Hcov; [done| |].
    + apply list_elem_of_filter. split; [|done].
      rewrite Hen. rewrite bool_decide_eq_true_2 by done. exact I.
    + unfold shouldNotify. destruct Hty as [Hw|Hs'].
      * by rewrite bool_decide_eq_true_2.
      * rewrite (bool_decide_eq_false_2 (sev = INFO)) by done.
        by rewrite orb_true_r.
Qed.

Lemma evaluateDevice_step now s0 rule device (acc : Store * nat) :
  rule ∈ alertRules s0 -> r_enabled rule = true ->
  device ∈ devices s0 -> d_tenantId device = r_tenantId rule ->
  d_status device = D_ACTIVE \/ d_status device = D_INSTALLED ->
  AlertSweep.sweptFrom s0 acc ->
  AlertSweep.sweptFrom s0
    ((evaluateDevice now rule device acc.1).1,
     if (evaluateDevice now rule device acc.1).2 then S acc.2 else acc.2).
Proof.
  intros Hrule Hen Hdev Hten Hst (addedA & addedN & Hs & Hc & HA & HN).
  destruct acc as [s c]. simpl in *. subst s.
  unfold Alerts.evaluateDevice.
  destruct (List.find _ _); [by exists addedA, addedN|].
  destruct (match r_type rule with OVER_TEMP => _ | _ => _ end) as [details|];
    [|by exists addedA, addedN].
  destruct (createAlertEvent _ _) as [rows|] eqn:Hcreate;
    [|by exists addedA, addedN].
  unfold createAlertEvent in Hcreate.
  destruct (existsb _ _) in Hcreate; [done|].
  destruct (existsb _ _) in Hcreate; [done|].
  injection Hcreate as <-.
  unfold Alerts.dispatchAlertNotifications.
  match goal with
  | |- context [Alerts.enqueue uuid now ?t ?aid ?sev ?chs ?s'] =>
    destruct (enqueue_extends now t aid sev chs s')
      as (added & Hs & Hall & _);
    remember (Alerts.enqueue uuid now t aid sev chs s') as r eqn:Er
  end.
  clear Er. simpl in Hs, Hall |- *.
  eexists (addedA ++ [_])%list, (addedN ++ added)%list. split; [|split; [|split]].
  - rewrite Hs. simpl. by rewrite <- !app_assoc.
  - rewrite length_app. simpl. destruct r.2; lia.
  - apply Forall_app. split; [done|]. constructor; [|constructor].
    simpl. split; [done|]. exists rule, device. by repeat split.
  - apply Forall_app. split; [done|].
    eapply Forall_impl; [exact Hall|]. simpl.
    intros n (H1 & H2 & _ & ch & H3 & H4 & _).
    apply list_elem_of_filter in H3 as [H3 Hin].
    apply andb_prop_elim in H3 as [H5 H6].
    apply bool_decide_unpack in H5. apply Is_true_true_1 in H6.
    split; [done|]. exists ch. repeat split; try done. congruence.
Qed.

Lemma evaluateRule_step now s0 rule (acc : Store * nat) :
  rule ∈ alertRules s0 -> r_enabled rule = true ->
  AlertSweep.sweptFrom s0 acc ->
  AlertSweep.sweptFrom s0 (evaluateRule now rule acc).
Proof.
  intros Hrule Hen Hacc. unfold Alerts.evaluateRule.
  assert (Hsub : forall d, d ∈ sweptDevices rule acc.1 ->
                 d ∈ devices s0 /\ d_tenantId d = r_tenantId rule
                 /\ (d_status d = D_ACTIVE \/ d_status d = D_INSTALLED)).
  { destruct Hacc as (addedA & addedN & Hs & _). rewrite Hs. simpl.
    intros d Hd. unfold sweptDevices in Hd. simpl in Hd.
    apply list_elem_of_filter in Hd as [Hd Hin].
    apply andb_prop_elim in Hd as [H1 H2]. apply bool_decide_unpack in H1.
    apply orb_prop_elim in H2 as [H2|H2]; apply bool_decide_unpack in H2;
      eauto. }
  revert Hsub. generalize (sweptDevices rule acc.1) as ds.
  intros ds. revert acc Hacc.
  induction ds as [|d ds IH]; intros acc Hacc Hsub; [done|]. simpl.
  apply IH.
  - destruct (Hsub d) as (H1 & H2 & H3); [left|].
    by apply (evaluateDevice_step now s0 rule d acc).
  - intros d' Hd'. apply Hsub. by right.
Qed.

Lemma evaluateAlerts_swept now s :
  AlertSweep.sweptFrom s (evaluateAlerts now s).
Proof.
  unfold Alerts.evaluateAlerts.
  assert (Hsub : forall r, r ∈ filter (fun r => r_enabled r) (alertRules s) ->
                 r ∈ alertRules s /\ r_enabled r = true).
  { intros r Hr. apply list_elem_of_filter in Hr as [H1 H2].
    split; [done|]. by apply Is_true_true_1. }
  assert (Hinit : AlertSweep.sweptFrom s (s, 0%nat)).
  { exists [], []. simpl. rewrite !app_nil_r. split; [by destruct s|].
    split; [lia|]. split; constructor. }
  revert Hsub Hinit.
  generalize (filter (fun r => r_enabled r) (alertRules s)) as rs.
  generalize (s, 0%nat) as acc.
  intros acc rs. revert acc.
  induction rs as [|r rs IH]; intros acc Hsub Hinit; [done|]. simpl.
  apply IH.
  - intros r' Hr'. apply Hsub. by right.
  - destruct (Hsub r) as [H1 H2]; [left|]. by apply evaluateRule_step.
Qed.

(** X27: A sweep only appends alerts: the stored alerts stay as they are, in
    place, whatever their status. Every alert it appends is OPEN and was
    raised by an enabled rule for an ACTIVE or INSTALLED device of the
    rule's own tenant, with the rule's severity and the dedupe key of the
    pair; the number it returns is at most the number of alerts appended;
    devices and rules are left as they were. *)
Theorem sweep_raises_alerts_within_tenant now s :
  let r := evaluateAlerts now s in
  devices r.1 = devices s /\ alertRules r.1 = alertRules s
  /\ exists added,
       alertEvents r.1 = (alertEvents s ++ added)%list
       /\ (r.2 <= length added)%nat
       /\ Forall (fun e =>
                    ae_status e = A_OPEN
                    /\ exists rule device,
                         rule ∈ alertRules s /\ r_enabled rule = true
                         /\ device ∈ devices s
                         /\ d_tenantId device = r_tenantId rule
                         /\ (d_status device = D_ACTIVE
                             \/ d_status device = D_INSTALLED)
                         /\ ae_tenantId e = r_tenantId rule
                         /\ ae_deviceId e = d_id device
                         /\ ae_ruleId e = r_id rule
                         /\ ae_severity e = r_severity rule
                         /\ ae_dedupeKey e = Some (dedupeKeyOf device rule))
            added.
Proof.
  intros r. destruct (evaluateAlerts_swept now s)
    as (addedA & addedN & Hs & Hc & HA & _).
  fold r in Hs, Hc. rewrite Hs. simpl. repeat split; try done.
  by exists addedA.
Qed.

(** X28: A sweep only appends notifications, and each one is QUEUED on an
    enabled channel of the notification's own tenant: no sweep queues a
    notification on a disabled channel or on a channel of another tenant. *)
Theorem sweep_notifies_own_enabled_channels now s :
  let r := evaluateAlerts now s in
  channels r.1 = channels s
  /\ exists added,
       notificationEvents r.1 = (notificationEvents s ++ added)%list
       /\ Forall (fun n =>
                    n_status n = N_QUEUED
                    /\ exists ch, ch ∈ channels s /\ n_channelId n = ch_id ch
                                  /\ ch_tenantId ch = n_tenantId n
                                  /\ ch_enabled ch = true) added.
Proof.
  intros r. destruct (evaluateAlerts_swept now s)
    as (addedA & addedN & Hs & _ & _ & HN).
  fold r in Hs. rewrite Hs. simpl. split; [done|]. by exists addedN.
Qed.

End AlertSweepProps.

(** The closed alert of the example blocks the rule for its device. *)
Lemma stored_alert_blocks_new_one_witness :
  Alerts.evaluateDevice Examples.noNumericStrings defaultConfig
    Examples.freshIds Examples.neverFires 5000 (Examples.overTempRule 85)
    Examples.deviceOfA (Examples.overheating 85 90 [Examples.closedAlertOfA])
  = (Examples.overheating 85 90 [Examples.closedAlertOfA], false).
Proof.
  apply (stored_alert_blocks_new_one Examples.noNumericStrings defaultConfig
           Examples.freshIds Examples.neverFires 5000
           (Examples.overTempRule 85) Examples.deviceOfA
           (Examples.overheating 85 90 [Examples.closedAlertOfA])
           Examples.closedAlertOfA).
  - left.
  - reflexivity.
Defined.

(** ** The backlog that a run of the notification queue leaves *)

Section MoreNotificationProps.
Import Notifications.

Lemma map_key_updateWhere {A : Type} (key : A -> string) id f (rows : list A) :
  (forall r, key (f r) = key r) ->
  map key (updateWhere key id f rows) = map key rows.
Proof.
  intros Hkey. unfold updateWhere. rewrite map_map. apply map_ext.
  intros r. by destruct (bool_decide _).
Qed.

Lemma foldl_processOne_ids now chs q acc :
  map n_id (foldl (processOne now chs) acc q).1 = map n_id acc.1.
Proof.
  revert acc. induction q as [|x q IH]; intros acc; [done|]. simpl.
  rewrite IH, processOne_rows. apply map_key_updateWhere.
  intros r. by destruct (send _).
Qed.

Lemma outcome_not_queued now chs e : n_status (outcome now chs e) <> N_QUEUED.
Proof. unfold outcome. by destruct (send _). Qed.

(** X30: After a run, the events that are still QUEUED are exactly the
    queued events beyond the first 100 of the store's order, untouched: an
    event that failed is not queued again. When at most 100 events were
    queued, none is left and a further run sends nothing and changes
    nothing. *)
Theorem run_leaves_backlog_beyond_100 now s :
  NoDup (map n_id (notificationEvents s)) ->
  let r := processNotificationQueue now s in
  (forall e,
      e ∈ notificationEvents r.1 /\ n_status e = N_QUEUED
      <-> e ∈ drop 100 (filter (fun n => bool_decide (n_status n = N_QUEUED))
                          (notificationEvents s)))
  /\ ((length (filter (fun n => bool_decide (n_status n = N_QUEUED))
                 (notificationEvents s)) <= 100)%nat ->
      forall now', processNotificationQueue now' r.1 = (r.1, 0%nat)).
Proof.
  intros Hnd r.
  set (rows := notificationEvents s) in *.
  set (queued := selectQueued rows).
  set (fq := filter (fun n => bool_decide (n_status n = N_QUEUED)) rows).
  assert (Hrows : notificationEvents r.1
                  = (foldl (processOne now (channels s)) (rows, 0%nat)
                       queued).1) by done.
  assert (Hsub : queued `sublist_of` rows) by apply selectQueued_sublist.
  assert (Hndq : NoDup (map n_id queued)).
  { eapply sublist_NoDup; [exact Hnd|]. by apply (fmap_sublist n_id). }
  assert (Hids : map n_id (notificationEvents r.1) = map n_id rows).
  { rewrite Hrows. apply foldl_processOne_ids. }
  assert (Hnd' : NoDup (map n_id (notificationEvents r.1)))
    by (by rewrite Hids).
  assert (Hsplit : fq = (queued ++ drop 100 fq)%list).
  { unfold queued, selectQueued. fold fq. by rewrite take_drop. }
  assert (Hndf : NoDup fq).
  { eapply sublist_NoDup; [|apply sublist_filter].
    by apply (NoDup_fmap_1 n_id). }
  assert (Hin : forall e, e ∈ queued ->
              findById n_id (n_id e) (notificationEvents r.1)
              = Some (outcome now (channels s) e)).
  { intros e He. rewrite Hrows.
    apply foldl_processOne_outcome; [done|done|]. simpl.
    apply findById_NoDup; [done|]. by eapply elem_of_sublist. }
  assert (Hout : forall e, e ∈ rows -> e ∉ queued ->
              findById n_id (n_id e) (notificationEvents r.1) = Some e).
  { intros e He Hne. rewrite Hrows. rewrite foldl_processOne_other.
    - simpl. by apply findById_NoDup.
    - intros Hid. apply list_elem_of_fmap in Hid as (q & Hq & Hqin).
      apply Hne. rewrite (NoDup_key_inj n_id rows e q); auto.
      by eapply elem_of_sublist. }
  assert (Hmain : forall e,
             e ∈ notificationEvents r.1 /\ n_status e = N_QUEUED
             <-> e ∈ drop 100 fq).
  { intros e. split.
    - intros [He Hst].
      assert (Hid : n_id e ∈ map n_id rows).
      { rewrite <- Hids. apply list_elem_of_fmap. eauto. }
      apply list_elem_of_fmap in Hid as (e0 & Hid & He0).
      pose proof (findById_NoDup n_id _ e Hnd' He) as Hfind.
      destruct (decide (e0 ∈ queued)) as [Hq|Hq].
      + rewrite Hid, (Hin e0 Hq) in Hfind. injection Hfind as <-.
        by destruct (outcome_not_queued now (channels s) e0).
      + rewrite Hid, (Hout e0 He0 Hq) in Hfind. injection Hfind as ->.
        assert (Hfq : e ∈ fq).
        { apply list_elem_of_filter. split; [|done].
          by apply bool_decide_pack. }
        rewrite Hsplit in Hfq. apply elem_of_app in Hfq as [?|?]; done.
    - intros He.
      assert (Hfq : e ∈ fq) by (rewrite Hsplit; apply elem_of_app; by right).
      apply list_elem_of_filter in Hfq as [Hst He0].
      apply bool_decide_unpack in Hst. split; [|done].
      assert (Hq : e ∉ queued).
      { rewrite Hsplit in Hndf. apply NoDup_app in Hndf as (_ & Hdis & _).
        intros Hq. by apply (Hdis e). }
      pose proof (Hout e He0 Hq) as Hfind. unfold findById in Hfind.
      apply find_some in Hfind as [Hfind _]. by apply list_elem_of_In. }
  split; [exact Hmain|].
  intros Hle now'. unfold processNotificationQueue at 1.
  assert (Hnone : filter (fun n => bool_decide (n_status n = N_QUEUED))
                    (notificationEvents r.1) = []).
  { destruct (filter _ (notificationEvents r.1)) as [|e l] eqn:Hf; [done|].
    assert (He : e ∈ filter (fun n => bool_decide (n_status n = N_QUEUED))
                       (notificationEvents r.1)) by (rewrite Hf; left).
    apply list_elem_of_filter in He as [Hst He].
    apply bool_decide_unpack in Hst.
    assert (Hd : e ∈ drop 100 fq) by (by apply Hmain).
    rewrite drop_ge in Hd by done. by apply elem_of_nil in Hd. }
  cbv zeta. unfold selectQueued. rewrite Hnone, take_nil.
  cbn [foldl fst snd]. by rewrite with_notificationEvents_same.
Qed.

Lemma run_leaves_backlog_beyond_100_witness :
  let r := processNotificationQueue 5000 Examples.withTwoQueued in
  (forall e,
      e ∈ notificationEvents r.1 /\ n_status e = N_QUEUED
      <-> e ∈ drop 100 (filter (fun n => bool_decide (n_status n = N_QUEUED))
                          (notificationEvents Examples.withTwoQueued)))
  /\ ((length (filter (fun n => bool_decide (n_status n = N_QUEUED))
                 (notificationEvents Examples.withTwoQueued)) <= 100)%nat ->
      forall now', processNotificationQueue now' r.1 = (r.1, 0%nat)).
Proof.
  apply (run_leaves_backlog_beyond_100 5000 Examples.withTwoQueued).
  apply (bool_decide_unpack (NoDup _)). vm_compute. exact I.
Defined.

End MoreNotificationProps.

(** ** The totals of the dashboard summary *)

Section DashboardProps.
Import Analytics.

Lemma foldl_count_init {A : Type} (f : A -> nat) (l : list A) (n : nat) :
  foldl (fun sum g => (sum + f g)%nat) n l
  = (n + foldl (fun sum g => (sum + f g)%nat) 0%nat l)%nat.
Proof.
  revert n. induction l as [|x l IH]; intros n; simpl; [lia|].
  rewrite (IH (n + f x)%nat), (IH (f x)). lia.
Qed.

Lemma foldl_count_positive {K : Type} (l : list (K * nat)) :
  foldl (fun sum g => (sum + g.2)%nat) 0%nat
    (filter (fun g => bool_decide (0 < g.2)%nat) l)
  = foldl (fun sum g => (sum + g.2)%nat) 0%nat l.
Proof.
  induction l as [|g l IH]; [done|].
  destruct (decide (0 < g.2)%nat) as [Hg|Hg].
  - rewrite filter_cons_True by (by apply bool_decide_pack). simpl.
    rewrite (foldl_count_init snd _ g.2), (foldl_count_init snd l g.2).
    by rewrite IH.
  - rewrite filter_cons_False
      by (intros H; by apply bool_decide_unpack in H). simpl.
    rewrite (foldl_count_init snd l g.2), IH. lia.
Qed.

Lemma count_by_status (rows : list Device) :
  foldl (fun sum g => (sum + g.2)%nat) 0%nat
    (groupCount [D_PROVISIONED; D_INSTALLED; D_ACTIVE; D_SUSPENDED; D_RETIRED]
       d_status rows)
  = length rows.
Proof.
  unfold groupCount. rewrite foldl_count_positive. simpl.
  induction rows as [|d rows IH]; [done|].
  destruct (d_status d) eqn:Hd;
    repeat (first
      [ rewrite (filter_cons_True _ d rows)
          by (apply bool_decide_pack; by rewrite Hd)
      | rewrite (filter_cons_False _ d rows)
          by (intros H; apply bool_decide_unpack in H; by rewrite Hd in H) ]);
    simpl; lia.
Qed.

Lemma count_by_severity (rows : list AlertEvent) :
  foldl (fun sum g => (sum + g.2)%nat) 0%nat
    (groupCount [INFO; WARNING; CRITICAL] ae_severity rows)
  = length rows.
Proof.
  unfold groupCount. rewrite foldl_count_positive. simpl.
  induction rows as [|d rows IH]; [done|].
  destruct (ae_severity d) eqn:Hd;
    repeat (first
      [ rewrite (filter_cons_True _ d rows)
          by (apply bool_decide_pack; by rewrite Hd)
      | rewrite (filter_cons_False _ d rows)
          by (intros H; apply bool_decide_unpack in H; by rewrite Hd in H) ]);
    simpl; lia.
Qed.

(** The totals of the summary agree with its breakdowns: [totalDevices],
    the sum of the status groups, is the number of the tenant's devices;
    [onlineCount] never exceeds it; [activeAlerts] is the sum of the
    severity groups; and no group of either breakdown is empty. *)
Theorem dashboard_totals_are_consistent now today tenantId s :
  let r := dashboardSummary now today tenantId s in
  totalDevices r
  = length (filter (fun d => bool_decide (d_tenantId d = tenantId))
              (devices s))
  /\ (onlineCount r <= totalDevices r)%nat
  /\ activeAlerts r
     = foldl (fun sum g => (sum + g.2)%nat) 0%nat (alertsBySeverity r)
  /\ Forall (fun g => (0 < g.2)%nat) (devicesByStatus r)
  /\ Forall (fun g => (0 < g.2)%nat) (alertsBySeverity r).
Proof.
  intros r. unfold r, dashboardSummary. cbv zeta.
  cbn [totalDevices onlineCount activeAlerts alertsBySeverity devicesByStatus].
  rewrite count_by_status, count_by_severity.
  split; [done|]. split; [apply length_filter|]. split; [done|].
  split; apply Forall_forall; intros g Hg; unfold groupCount in Hg;
    apply list_elem_of_filter in Hg as [Hg _]; by apply bool_decide_unpack in Hg.
Qed.

End DashboardProps.
